(** * jira-lib: paginated search and status-history reconstruction

    A shallow embedding of
      - pkg/jira/search.go          (search, isJQLBounded),
      - lib: GetIssueStatusChanges, getIssueWithChangelog,
        fetchAdditionalHistory,
      - examples/status-tracking/main.go (calculateStatusTime),
    together with the properties stated for them.

    Conventions.  Go's [int] and [uint] are 64-bit; they are carried as [Z]
    with the wrap-around of every conversion and addition written out.
    Go strings are byte strings, carried as [string]; where the program
    reads them as text ([strings.ToLower]) the UTF-8 decoding is written
    out, and the case tables of package [unicode] are a parameter.
    A [time.Time] is the
    wall-clock instant in nanoseconds counted from Go's zero time
    (January 1, year 1, 00:00:00 UTC), so that [IsZero] is a test against 0;
    monotonic clock readings are not modelled.  A [time.Duration] is an
    int64 number of nanoseconds. *)

From Stdlib Require Import ZArith Lia Bool Ascii String.
From stdpp Require Import base list strings pretty gmap fin_maps.

Local Open Scope Z_scope.

(** ** Machine integers *)

Definition maxInt64 : Z := 2 ^ 63 - 1.
Definition minInt64 : Z := - 2 ^ 63.
Definition maxUint64 : Z := 2 ^ 64 - 1.

(** Two's-complement reading of the low 64 bits: what a conversion to [int]
    or an overflowing [int] addition produces. *)
Definition wrapInt64 (z : Z) : Z := (z + 2 ^ 63) mod 2 ^ 64 - 2 ^ 63.

Definition inInt64 (z : Z) : Prop := minInt64 <= z <= maxInt64.
Definition inUint64 (z : Z) : Prop := 0 <= z <= maxUint64.

Definition addInt (a b : Z) : Z := wrapInt64 (a + b).

(** [len(xs)] as an [int]. *)
Definition len {A : Type} (xs : list A) : Z := Z.of_nat (length xs).

(** ** Strings *)

Definition isUpperAscii (c : ascii) : bool :=
  let n := nat_of_ascii c in (65 <=? n)%nat && (n <=? 90)%nat.

Definition lowerAscii (c : ascii) : ascii :=
  if isUpperAscii c then ascii_of_nat (nat_of_ascii c + 32) else c.

(** A byte as a number, and the byte a number is cut to. *)
Definition byteOf (c : ascii) : Z := Z.of_nat (nat_of_ascii c).
Definition toByte (z : Z) : ascii := ascii_of_nat (Z.to_nat (z mod 256)).

(** *** Package [unicode/utf8] *)

Definition RuneError : Z := 0xFFFD.
Definition RuneSelf : Z := 0x80.
Definition MaxRune : Z := 0x10FFFF.

(** The tables [first] and [acceptRanges]: for a byte that can start a
    sequence, the size of the sequence and the range its second byte must
    lie in. *)
Definition leading (s0 : Z) : option (Z * Z * Z) :=
  if (0xC2 <=? s0) && (s0 <=? 0xDF) then Some (2, 0x80, 0xBF)
  else if s0 =? 0xE0 then Some (3, 0xA0, 0xBF)
  else if (0xE1 <=? s0) && (s0 <=? 0xEC) then Some (3, 0x80, 0xBF)
  else if s0 =? 0xED then Some (3, 0x80, 0x9F)
  else if (0xEE <=? s0) && (s0 <=? 0xEF) then Some (3, 0x80, 0xBF)
  else if s0 =? 0xF0 then Some (4, 0x90, 0xBF)
  else if (0xF1 <=? s0) && (s0 <=? 0xF3) then Some (4, 0x80, 0xBF)
  else if s0 =? 0xF4 then Some (4, 0x80, 0x8F)
  else None.

(** A byte between [locb] and [hicb]. *)
Definition continuation (b : Z) : bool := (0x80 <=? b) && (b <=? 0xBF).

(** [utf8.DecodeRuneInString]: the first rune of the string and its width
    in bytes; a byte that starts no well-formed sequence gives
    [(RuneError, 1)].  This is also what a [range] loop over a string
    reads at each step. *)
Definition DecodeRuneInString (s : string) : Z * nat :=
  match s with
  | EmptyString => (RuneError, 0%nat)
  | String c0 rest =>
      let s0 := byteOf c0 in
      if s0 <? RuneSelf then (s0, 1%nat)
      else
        match leading s0 with
        | None => (RuneError, 1%nat)
        | Some (sz, lo, hi) =>
            if Z.of_nat (String.length s) <? sz then (RuneError, 1%nat)
            else
              match rest with
              | EmptyString => (RuneError, 1%nat)
              | String c1 rest =>
                  let s1 := byteOf c1 in
                  if (s1 <? lo) || (hi <? s1) then (RuneError, 1%nat)
                  else if sz <=? 2 then
                    (Z.lor (Z.shiftl (Z.land s0 0x1F) 6) (Z.land s1 0x3F), 2%nat)
                  else
                    match rest with
                    | EmptyString => (RuneError, 1%nat)
                    | String c2 rest =>
                        let s2 := byteOf c2 in
                        if negb (continuation s2) then (RuneError, 1%nat)
                        else if sz <=? 3 then
                          (Z.lor (Z.shiftl (Z.land s0 0x0F) 12)
                             (Z.lor (Z.shiftl (Z.land s1 0x3F) 6) (Z.land s2 0x3F)),
                           3%nat)
                        else
                          match rest with
                          | EmptyString => (RuneError, 1%nat)
                          | String c3 _ =>
                              let s3 := byteOf c3 in
                              if negb (continuation s3) then (RuneError, 1%nat)
                              else
                                (Z.lor (Z.shiftl (Z.land s0 0x07) 18)
                                   (Z.lor (Z.shiftl (Z.land s1 0x3F) 12)
                                      (Z.lor (Z.shiftl (Z.land s2 0x3F) 6)
                                         (Z.land s3 0x3F))),
                                 4%nat)
                          end
                    end
              end
        end
  end.

(** [utf8.AppendRune]: the bytes of a rune; a surrogate or a value out of
    range is written as [RuneError]. *)
Definition EncodeRune (r : Z) : string :=
  if (0 <=? r) && (r <=? 0x7F) then String (toByte r) ""
  else if (0 <=? r) && (r <=? 0x7FF) then
    String (toByte (Z.lor 0xC0 (Z.shiftr r 6)))
      (String (toByte (Z.lor 0x80 (Z.land r 0x3F))) "")
  else if (r <? 0) || (MaxRune <? r) || ((0xD800 <=? r) && (r <=? 0xDFFF)) then
    String (toByte 0xEF) (String (toByte 0xBF) (String (toByte 0xBD) ""))
  else if r <=? 0xFFFF then
    String (toByte (Z.lor 0xE0 (Z.shiftr r 12)))
      (String (toByte (Z.lor 0x80 (Z.land (Z.shiftr r 6) 0x3F)))
         (String (toByte (Z.lor 0x80 (Z.land r 0x3F))) ""))
  else
    String (toByte (Z.lor 0xF0 (Z.shiftr r 18)))
      (String (toByte (Z.lor 0x80 (Z.land (Z.shiftr r 12) 0x3F)))
         (String (toByte (Z.lor 0x80 (Z.land (Z.shiftr r 6) 0x3F)))
            (String (toByte (Z.lor 0x80 (Z.land r 0x3F))) ""))).

(** *** [strings.Map] *)

Section Map.

Variable mapping : Z -> Z.

(** What the builder receives for a mapped rune: nothing when the mapping
    is negative. *)
Definition written (r : Z) : string :=
  if r <? 0 then ""%string else EncodeRune r.

(** The loop over the runes of the string.  [skip] counts the bytes still
    to pass of the rune decoded last, so that the recursion goes byte by
    byte.  (The function first looks for a rune that the mapping changes
    and copies the text before it; that text is what is written for its
    runes, each being well formed.) *)
Fixpoint mapFrom (skip : nat) (s : string) : string :=
  match s with
  | EmptyString => EmptyString
  | String c rest =>
      match skip with
      | S skip' => mapFrom skip' rest
      | O =>
          let '(r, width) := DecodeRuneInString s in
          written (mapping r) +:+ mapFrom (width - 1) rest
      end
  end.

Definition Map (s : string) : string := mapFrom 0 s.

End Map.

(** *** [unicode.ToLower] and [strings.ToLower] *)

(** The case tables of package [unicode] are not part of the repository:
    [toLowerCase r] stands for [unicode.To(unicode.LowerCase, r)], which
    [unicode.ToLower] calls for a rune beyond ASCII.  The replacement
    character has no lower-case form of its own. *)
Class CaseTables : Type := {
  toLowerCase : Z -> Z;
  toLowerCase_RuneError : toLowerCase RuneError = RuneError
}.

Definition MaxASCII : Z := 0x7F.

Definition unicodeToLower `{CaseTables} (r : Z) : Z :=
  if r <=? MaxASCII then
    if (65 <=? r) && (r <=? 90) then r + 32 else r
  else toLowerCase r.

Fixpoint isASCII (s : string) : bool :=
  match s with
  | EmptyString => true
  | String c s' => (byteOf c <? RuneSelf) && isASCII s'
  end.

Fixpoint hasUpper (s : string) : bool :=
  match s with
  | EmptyString => false
  | String c s' => isUpperAscii c || hasUpper s'
  end.

(** The loop for a string of ASCII bytes: the letters A-Z become a-z. *)
Fixpoint lowerBytes (s : string) : string :=
  match s with
  | EmptyString => EmptyString
  | String c s' => String (lowerAscii c) (lowerBytes s')
  end.

(** [strings.ToLower]: a string of ASCII bytes is returned as it is when
    it has no upper-case letter and lowered byte by byte otherwise; any
    other string is mapped rune by rune, which also replaces every byte
    that is not part of a well-formed sequence. *)
Definition ToLower `{CaseTables} (s : string) : string :=
  if isASCII s then (if hasUpper s then lowerBytes s else s)
  else Map unicodeToLower s.

(** [strings.HasPrefix s p]. *)
Fixpoint HasPrefix (s p : string) : bool :=
  match p, s with
  | EmptyString, _ => true
  | String _ _, EmptyString => false
  | String b p', String a s' => Ascii.eqb a b && HasPrefix s' p'
  end.

(** [strings.Contains s sub]: [sub] occurs at some offset of [s]. *)
Fixpoint Contains (s sub : string) : bool :=
  HasPrefix s sub ||
  match s with
  | EmptyString => false
  | String _ s' => Contains s' sub
  end.

(** ** Errors and results *)

Inductive error : Type :=
| ErrTransport (msg : string)            (* whatever the transport reported *)
| ErrEmptyResponse                       (* jira.ErrEmptyResponse *)
| ErrUnexpectedResponse (code : Z) (body : string)
| ErrDecode (msg : string)               (* json decoding failed *)
| ErrEmpty                               (* fmt.Errorf("empty response") *)
| ErrStatusCode (code : Z)               (* fmt.Errorf("unexpected status code: %d", ..) *)
| ErrWrap (context : string) (inner : error). (* fmt.Errorf("...: %w", err) *)

(** A Go pair [(value, error)] in which the value is meaningful only when
    the error is nil. *)
Inductive result (A : Type) : Type :=
| Ok (a : A)
| Err (e : error).
Arguments Ok {A} a.
Arguments Err {A} e.

(** ** The HTTP transport *)

Definition StatusOK : Z := 200.

Record Response : Type := mkResponse {
  StatusCode : Z;
  Body : string
}.

(** What [c.Get] and [c.GetV2] hand back: the pair [(res, err)], either of
    which may be nil. *)
Definition GetResult : Type := option Response * option error.

Record Client : Type := mkClient {
  Get : string -> GetResult;
  GetV2 : string -> GetResult
}.

(** * pkg/jira/search.go *)

Module jira.

(** Modelled from the spec: the [Issue] type is declared in another file
    of the package; an issue has an identifier (its key) and fields, of
    which only the key is carried here. *)
Record Issue : Type := mkIssue { Key : string }.

Record SearchResult : Type := mkSearchResult {
  StartAt : Z;
  MaxResults : Z;
  Total : Z;
  Issues : list Issue;
  NextPageToken : string;
  IsLast : bool
}.

(** Modelled from the spec: the tags of the two dialects (modern and
    legacy) are constants declared next to the client; [search] only tests
    its argument for equality with [apiVersion3]. *)
Definition apiVersion3 : string := "v3".
Definition apiVersion2 : string := "v2".

Definition boundingTerms : list string :=
  [ "created >="; "created >"; "created ="; "created <="; "created <";
    "updated >="; "updated >"; "updated ="; "updated <="; "updated <";
    "project ="; "project in"; "project IN";
    "id ="; "id in"; "id IN";
    "key ="; "key in"; "key IN";
    "issuekey ="; "issuekey in"; "issuekey IN" ].

Section CaseFolding.

Context {tables : CaseTables}.

(** [isJQLBounded]: the loop returns true at the first term found. *)
Definition isJQLBounded (jql : string) : bool :=
  let jqlLower := ToLower jql in
  existsb (fun term => Contains jqlLower (ToLower term)) boundingTerms.

(** Lines 40-50 of [search]: the query that is sent. *)
Definition boundJQL (jql : string) (ver : string) : string :=
  if String.eqb ver apiVersion3 then
    if negb (isJQLBounded jql) then
      if String.eqb jql "" then "created >= -90d"
      else "created >= -90d AND (" +:+ jql +:+ ")"
    else jql
  else jql.

(** [url.QueryEscape]. *)
Definition isUnreserved (c : ascii) : bool :=
  let n := nat_of_ascii c in
  ((97 <=? n) && (n <=? 122) || (65 <=? n) && (n <=? 90) ||
   (48 <=? n) && (n <=? 57) ||
   (n =? 45) || (n =? 95) || (n =? 46) || (n =? 126))%nat.

Definition upperhex (n : nat) : ascii :=
  ascii_of_nat (if (n <? 10)%nat then 48 + n else 55 + n).

Fixpoint QueryEscape (s : string) : string :=
  match s with
  | EmptyString => EmptyString
  | String c s' =>
      if isUnreserved c then String c (QueryEscape s')
      else if Ascii.eqb c " " then String "+" (QueryEscape s')
      else
        let n := nat_of_ascii c in
        String "%" (String (upperhex (n / 16)) (String (upperhex (n mod 16))
          (QueryEscape s')))
  end.

(** Lines 52-61: the path requested, after the query has been bounded. *)
Definition searchPath (jql : string) (from limit : Z) (ver : string) : string :=
  let jql := boundJQL jql ver in
  if String.eqb ver apiVersion3 then
    "/search/jql?jql=" +:+ QueryEscape jql +:+ "&startAt=" +:+ pretty from
      +:+ "&maxResults=" +:+ pretty limit +:+ "&fields=*all"
  else
    "/search?jql=" +:+ QueryEscape jql +:+ "&startAt=" +:+ pretty from
      +:+ "&maxResults=" +:+ pretty limit.

(** Lines 52-61: the transport call made for a dialect. *)
Definition requested (c : Client) (jql : string) (from limit : Z) (ver : string)
  : GetResult :=
  if String.eqb ver apiVersion3
  then Get c (searchPath jql from limit ver)
  else GetV2 c (searchPath jql from limit ver).

(** Lines 81-90: the total of a modern-dialect page that carries none. *)
Definition approximateTotal (ver : string) (from : Z) (out : SearchResult) : SearchResult :=
  if String.eqb ver apiVersion3 && (Total out =? 0) && (0 <? len (Issues out)) then
    if IsLast out then
      mkSearchResult (StartAt out) (MaxResults out)
        (addInt (wrapInt64 from) (len (Issues out)))
        (Issues out) (NextPageToken out) (IsLast out)
    else
      mkSearchResult (StartAt out) (MaxResults out) 10000
        (Issues out) (NextPageToken out) (IsLast out)
  else out.

Section Search.

(** [json.NewDecoder(res.Body).Decode(&out)] for a [SearchResult]. *)
Variable decodeSearchResult : string -> result SearchResult.

(** Modelled from the spec: [formatUnexpectedResponse] is declared in
    another file of the package; the error it builds carries the HTTP
    status and the raw body. *)
Definition formatUnexpectedResponse (res : Response) : error :=
  ErrUnexpectedResponse (StatusCode res) (Body res).

Definition search (c : Client) (jql : string) (from limit : Z) (ver : string)
  : result SearchResult :=
  let '(res, err) := requested c jql from limit ver in
  match err with
  | Some e => Err e
  | None =>
      match res with
      | None => Err ErrEmptyResponse
      | Some res =>
          if negb (StatusCode res =? StatusOK) then
            Err (formatUnexpectedResponse res)
          else
            match decodeSearchResult (Body res) with
            | Err e => Err e
            | Ok out => Ok (approximateTotal ver from out)
            end
      end
  end.

Definition Search (c : Client) (jql : string) (from limit : Z) :=
  search c jql from limit apiVersion3.

Definition SearchV2 (c : Client) (jql : string) (from limit : Z) :=
  search c jql from limit apiVersion2.

End Search.

End CaseFolding.

End jira.

(** * lib: status-history reconstruction *)

Module lib.

(** ** Data *)

(** Instants and durations are integers of nanoseconds. *)
Abbreviation Time := Z (only parsing).
Abbreviation Duration := Z (only parsing).

Definition zeroTime : Time := 0.
Definition IsZero (t : Time) : bool := t =? 0.

Record StatusChange : Type := mkStatusChange {
  Timestamp : Time;
  Author : string;
  FromStatus : string;
  ToStatus : string;
  AuthorEmail : string;
  AuthorDisplayName : string
}.

Record HistoryAuthor : Type := mkHistoryAuthor {
  Name : string;
  EmailAddress : string;
  DisplayName : string
}.

Record HistoryItem : Type := mkHistoryItem {
  Field : string;
  FieldType : string;
  From : string;
  FromString : string;
  To : string;
  ToString : string
}.

(** [HAuthor] is the [Author] pointer of a history entry, [None] for nil. *)
Record IssueHistory : Type := mkIssueHistory {
  ID : string;
  HAuthor : option HistoryAuthor;
  Created : string;
  Items : list HistoryItem
}.

Record IssueChangelog : Type := mkIssueChangelog {
  StartAt : Z;
  MaxResults : Z;
  Total : Z;
  Histories : list IssueHistory
}.

(** Modelled from the spec: [jira.IssueFields] is declared in another
    package file; of the issue's fields the reconstruction reads the
    creation timestamp [Fields.Created] and the reporter
    [Fields.Reporter.Name]. *)
Record IssueFields : Type := mkIssueFields {
  FieldsCreated : string;
  ReporterName : string
}.

Record IssueWithChangelog : Type := mkIssueWithChangelog {
  Key : string;
  Fields : IssueFields;
  Changelog : option IssueChangelog
}.

(** ** The world the client runs in

    The standard library's [time.Parse] for the two layouts, the readings
    of [time.Now] in the order they are taken, and the two JSON decoders. *)
Record World : Type := mkWorld {
  parseRFC3339 : string -> option Time;
  parseMillis : string -> option Time;
  timeNow : nat -> Time;
  decodeIssueWithChangelog : string -> result IssueWithChangelog;
  decodeIssueChangelog : string -> result IssueChangelog
}.

(** [client n] is how the transport answers the request issued after [n]
    earlier ones, so that a server may answer the same path differently
    over time. *)
Record JiraClient : Type := mkJiraClient {
  installationType : string;
  client : nat -> Client
}.

(** Modelled from the spec: the installation type of the legacy
    (server) dialect, a constant of the [jira] package; any other value
    selects the modern dialect. *)
Definition InstallationTypeLocal : string := "Local".

(** ** State: requests issued and clock readings taken so far *)

Record St : Type := mkSt {
  requests : nat;
  clockReads : nat
}.

Definition M (A : Type) : Type := St -> A * St.

Definition ret {A : Type} (a : A) : M A := fun s => (a, s).

Definition bind {A B : Type} (m : M A) (k : A -> M B) : M B :=
  fun s => let '(a, s') := m s in k a s'.

Notation "x <- m ;; k" := (bind m (fun x => k))
  (at level 100, m at next level, right associativity).

Definition now (w : World) : M Time :=
  fun s => (timeNow w (clockReads s), mkSt (requests s) (S (clockReads s))).

Definition httpGet (c : JiraClient) (path : string) : M GetResult :=
  fun s =>
    let transport := client c (requests s) in
    (if String.eqb (installationType c) InstallationTypeLocal
     then GetV2 transport path else Get transport path,
     mkSt (S (requests s)) (clockReads s)).

(** ** Building a status change from a history item *)

Definition statusChangeOf (timestamp : Time) (history : IssueHistory)
    (item : HistoryItem) : StatusChange :=
  match HAuthor history with
  | Some a =>
      mkStatusChange timestamp (Name a) (FromString item) (ToString item)
        (EmailAddress a) (DisplayName a)
  | None =>
      mkStatusChange timestamp "" (FromString item) (ToString item) "" ""
  end.

(** Lines 935-943: the timestamp of an entry of the embedded page. *)
Definition parseEmbedded (w : World) (created : string) : M Time :=
  match parseRFC3339 w created with
  | Some t => ret t
  | None =>
      match parseMillis w created with
      | Some t => ret t
      | None => now w
      end
  end.

(** Lines 1081-1084: the timestamp of an entry of a continuation page.  A
    failed [time.Parse] leaves the zero time. *)
Definition parseContinuation (w : World) (created : string) : M Time :=
  let timestamp := default zeroTime (parseRFC3339 w created) in
  if IsZero timestamp
  then ret (default zeroTime (parseMillis w created))
  else ret timestamp.

(** The two nested loops over histories and items, appending to the slice. *)
Fixpoint itemsLoop (parse : string -> M Time) (history : IssueHistory)
    (items : list HistoryItem) (acc : list StatusChange) : M (list StatusChange) :=
  match items with
  | [] => ret acc
  | item :: rest =>
      if String.eqb (Field item) "status" then
        timestamp <- parse (Created history) ;;
        itemsLoop parse history rest (acc ++ [statusChangeOf timestamp history item])
      else itemsLoop parse history rest acc
  end.

Fixpoint historiesLoop (parse : string -> M Time) (histories : list IssueHistory)
    (acc : list StatusChange) : M (list StatusChange) :=
  match histories with
  | [] => ret acc
  | history :: rest =>
      acc' <- itemsLoop parse history (Items history) acc ;;
      historiesLoop parse rest acc'
  end.

(** ** getIssueWithChangelog *)

Definition getIssueWithChangelog (w : World) (c : JiraClient) (issueKey : string)
  : M (result IssueWithChangelog) :=
  let path := "/issue/" +:+ issueKey +:+ "?expand=changelog" in
  r <- httpGet c path ;;
  let '(httpRes, err) := r in
  match err with
  | Some e => ret (Err e)
  | None =>
      match httpRes with
      | None => ret (Err ErrEmpty)
      | Some httpRes =>
          if negb (StatusCode httpRes =? StatusOK) then
            ret (Err (ErrStatusCode (StatusCode httpRes)))
          else
            match decodeIssueWithChangelog w (Body httpRes) with
            | Err e =>
                ret (Err (ErrWrap "failed to decode issue with changelog" e))
            | Ok issue => ret (Ok issue)
            end
      end
  end.

(** ** fetchAdditionalHistory

    The Go loop has no bound of its own; [fuel] bounds the number of
    iterations unrolled, and [None] says the loop is still running when
    the fuel is spent.  A finished run gives the pair [(allChanges, err)]. *)
Fixpoint fetchLoop (fuel : nat) (w : World) (c : JiraClient) (issueKey : string)
    (currentStart : Z) (allChanges : list StatusChange)
  : M (option (list StatusChange * option error)) :=
  match fuel with
  | O => ret None
  | S fuel' =>
      let path := "/issue/" +:+ issueKey +:+ "/changelog?startAt="
                    +:+ pretty currentStart in
      r <- httpGet c path ;;
      let '(httpRes, err) := r in
      match err with
      | Some e => ret (Some (allChanges, Some e))
      | None =>
          match httpRes with
          | None => ret (Some (allChanges, Some ErrEmpty))
          | Some httpRes =>
              if negb (StatusCode httpRes =? StatusOK) then
                ret (Some (allChanges, Some (ErrStatusCode (StatusCode httpRes))))
              else
                match decodeIssueChangelog w (Body httpRes) with
                | Err e => ret (Some (allChanges, Some e))
                | Ok changelog =>
                    allChanges' <- historiesLoop (parseContinuation w)
                                     (Histories changelog) allChanges ;;
                    let next := addInt currentStart (len (Histories changelog)) in
                    if Total changelog <=? next
                    then ret (Some (allChanges', None))
                    else fetchLoop fuel' w c issueKey next allChanges'
                end
          end
      end
  end.

Definition fetchAdditionalHistory (fuel : nat) (w : World) (c : JiraClient)
    (issueKey : string) (startAt : Z)
  : M (option (list StatusChange * option error)) :=
  fetchLoop fuel w c issueKey startAt [].

(** ** GetIssueStatusChanges *)

(** Lines 927-971: the changes of the embedded page, followed by those of
    the continuation pages when the pager reports no error. *)
Definition collectStatusChanges (fuel : nat) (w : World) (c : JiraClient)
    (issueKey : string) (issueWithHistory : IssueWithChangelog)
  : M (option (list StatusChange)) :=
  match Changelog issueWithHistory with
  | None => ret (Some [])
  | Some changelog =>
      statusChanges <- historiesLoop (parseEmbedded w) (Histories changelog) [] ;;
      if addInt (StartAt changelog) (MaxResults changelog) <? Total changelog then
        r <- fetchAdditionalHistory fuel w c issueKey (MaxResults changelog) ;;
        match r with
        | None => ret None
        | Some (additionalChanges, None) =>
            ret (Some (statusChanges ++ additionalChanges))
        | Some (_, Some _) => ret (Some statusChanges)
        end
      else ret (Some statusChanges)
  end.

(** Lines 975-978: the creation time, tried in both layouts. *)
Definition parseCreated (w : World) (created : string) : option Time :=
  match parseRFC3339 w created with
  | Some t => Some t
  | None => parseMillis w created
  end.

(** Lines 973-995: the synthetic first entry. *)
Definition addInitialStatus (w : World) (fields : IssueFields)
    (statusChanges : list StatusChange) : list StatusChange :=
  if (0 <? len statusChanges) && negb (String.eqb (FieldsCreated fields) "") then
    match parseCreated w (FieldsCreated fields) with
    | None => statusChanges
    | Some createdTime =>
        match last statusChanges with
        | None => statusChanges
        | Some earliestChange =>
            if negb (String.eqb (FromStatus earliestChange) "") then
              let initialChange :=
                if negb (String.eqb (ReporterName fields) "") then
                  mkStatusChange createdTime (ReporterName fields) ""
                    (FromStatus earliestChange) "" (ReporterName fields)
                else
                  mkStatusChange createdTime "" ""
                    (FromStatus earliestChange) "" ""
              in statusChanges ++ [initialChange]
            else statusChanges
        end
    end
  else statusChanges.

(** Lines 998-1001: the swap loop.  [swap] exchanges the elements at two
    valid indices (the loop never leaves the slice). *)
Definition swap {A : Type} (l : list A) (i j : nat) : list A :=
  match l !! i, l !! j with
  | Some x, Some y => <[j := x]> (<[i := y]> l)
  | _, _ => l
  end.

Fixpoint swapLoop {A : Type} (steps i : nat) (l : list A) : list A :=
  match steps with
  | O => l
  | S steps' => swapLoop steps' (S i) (swap l i (length l - 1 - i))
  end.

Definition reverseInPlace {A : Type} (l : list A) : list A :=
  swapLoop (length l / 2) 0 l.

Definition GetIssueStatusChanges (fuel : nat) (w : World) (c : JiraClient)
    (issueKey : string) : M (option (result (list StatusChange))) :=
  r <- getIssueWithChangelog w c issueKey ;;
  match r with
  | Err e => ret (Some (Err (ErrWrap "failed to fetch issue with changelog" e)))
  | Ok issueWithHistory =>
      collected <- collectStatusChanges fuel w c issueKey issueWithHistory ;;
      match collected with
      | None => ret None
      | Some statusChanges =>
          ret (Some (Ok (reverseInPlace
                           (addInitialStatus w (Fields issueWithHistory)
                              statusChanges))))
      end
  end.

(** The first state of a call. *)
Definition start : St := mkSt 0 0.

End lib.

(** * examples/status-tracking/main.go *)

Module status_tracking.
Import lib.

Definition minDuration : Duration := minInt64.
Definition maxDuration : Duration := maxInt64.

(** [t.Sub(u)] for two wall-clock instants: the difference computed in
    int64, kept when adding it back to [u] gives [t], and otherwise
    saturated to the smallest or the largest duration. *)
Definition Sub (t u : Time) : Duration :=
  let d := wrapInt64 (t - u) in
  if u + d =? t then d
  else if t <? u then minDuration
  else maxDuration.

(** The loop of [calculateStatusTime]: [changes] is the slice from index
    [i] on, so that its second element is [changes[i+1]]; a status absent
    from the map reads as the zero duration. *)
Fixpoint statusTimeLoop (now : Time) (changes : list StatusChange)
    (statusTime : gmap string Duration) : gmap string Duration :=
  match changes with
  | [] => statusTime
  | change :: rest =>
      let duration :=
        match rest with
        | next :: _ => Sub (Timestamp next) (Timestamp change)
        | [] => Sub now (Timestamp change)
        end in
      statusTimeLoop now rest
        (<[ToStatus change :=
             addInt (default 0 (statusTime !! ToStatus change)) duration]>
           statusTime)
  end.

(** [now] is the reading of [time.Now()] taken for the last entry. *)
Definition calculateStatusTime (now : Time) (changes : list StatusChange)
  : gmap string Duration :=
  statusTimeLoop now changes ∅.

(** The sum of the durations held by the map. *)
Definition totalDuration (statusTime : gmap string Duration) : Z :=
  map_fold (fun _ d acc => d + acc) 0 statusTime.

(** The residencies as the specification words them: entry [i] stays in its
    new status until the timestamp of entry [i+1], the last one until
    [now]; differences are taken in the integers. *)
Fixpoint residencies (now : Time) (changes : list StatusChange)
  : list (string * Z) :=
  match changes with
  | [] => []
  | change :: rest =>
      let until :=
        match rest with
        | next :: _ => Timestamp next
        | [] => now
        end in
      (ToStatus change, until - Timestamp change) :: residencies now rest
  end.

(** The residencies of one status, summed over its occurrences. *)
Fixpoint residencyOf (status : string) (rs : list (string * Z)) : Z :=
  match rs with
  | [] => 0
  | (s, d) :: rest =>
      (if String.eqb s status then d else 0) + residencyOf status rest
  end.

End status_tracking.

(** * Timelines in time order *)

Module timeline.
Import lib.

(** [timestamps[i] <= timestamps[i+1]] for every valid [i]. *)
Definition chronological (changes : list StatusChange) : Prop :=
  forall (i : nat) (a b : StatusChange),
    changes !! i = Some a -> changes !! S i = Some b ->
    Timestamp a <= Timestamp b.

(** The same test, computed. *)
Fixpoint chronologicalb (changes : list StatusChange) : bool :=
  match changes with
  | [] => true
  | a :: rest =>
      match rest with
      | [] => true
      | b :: _ => (Timestamp a <=? Timestamp b) && chronologicalb rest
      end
  end.

(** Newest first: the order in which the reconstruction expects to find
    the transitions. *)
Definition newestFirst (changes : list StatusChange) : Prop :=
  forall (i : nat) (a b : StatusChange),
    changes !! i = Some a -> changes !! S i = Some b ->
    Timestamp b <= Timestamp a.

(** The status items of a page in the order the two loops meet them, each
    with the history entry it belongs to. *)
Definition statusItems (histories : list IssueHistory)
  : list (IssueHistory * HistoryItem) :=
  flat_map
    (fun history =>
       map (pair history)
         (List.filter (fun item => String.eqb (Field item) "status")
            (Items history)))
    histories.

(** One loop over the status items: what the nested loops amount to. *)
Fixpoint pairsLoop (parse : string -> M Time)
    (pairs : list (IssueHistory * HistoryItem)) (acc : list StatusChange)
  : M (list StatusChange) :=
  match pairs with
  | [] => ret acc
  | (history, item) :: rest =>
      bind (parse (Created history)) (fun timestamp =>
        pairsLoop parse rest (acc ++ [statusChangeOf timestamp history item]))
  end.

(** Index [p] is exchanged by the swap loop after [k] steps from [i] on a
    slice of length [n]. *)
Definition mirrored (n i k p : nat) : Prop :=
  (i <= p < i + k \/ n - (i + k) <= p < n - i)%nat.

(** The timestamp a continuation page gives an entry; it reads no clock. *)
Definition continuationTime (w : World) (created : string) : Time :=
  let timestamp := default zeroTime (parseRFC3339 w created) in
  if IsZero timestamp then default zeroTime (parseMillis w created)
  else timestamp.

Definition continuationChange (w : World) (p : IssueHistory * HistoryItem)
  : StatusChange :=
  statusChangeOf (continuationTime w (Created (fst p))) (fst p) (snd p).

(** The answer of the transport to the request issued in state [s]. *)
Definition answerAt (c : JiraClient) (path : string) (s : St) : GetResult :=
  fst (httpGet c path s).

Definition afterRequest (s : St) : St := mkSt (S (requests s)) (clockReads s).

Definition changelogPath (issueKey : string) (currentStart : Z) : string :=
  "/issue/" +:+ issueKey +:+ "/changelog?startAt=" +:+ pretty currentStart.

(** Every duration held by the map is non-negative. *)
Definition nonneg (statusTime : gmap string Duration) : Prop :=
  forall (status : string) (d : Duration),
    statusTime !! status = Some d -> 0 <= d.

(** The timestamp of the last entry of a non-empty timeline. *)
Definition lastTime (change : StatusChange) (rest : list StatusChange) : Time :=
  Timestamp (default change (last rest)).

(** A server that answers every continuation request below the declared
    total [T] with a decodable page declaring [T] and holding at least [P]
    histories (and few enough for the offset to stay an [int]). *)
Definition servesPages (w : World) (c : JiraClient) (issueKey : string)
    (T P : Z) : Prop :=
  forall (currentStart : Z) (s : St),
    currentStart < T ->
    exists (res : Response) (page : IssueChangelog),
      answerAt c (changelogPath issueKey currentStart) s = (Some res, None) /\
      StatusCode res = 200 /\
      decodeIssueChangelog w (Body res) = Ok page /\
      Total page = T /\
      P <= len (Histories page) /\
      currentStart + len (Histories page) <= maxInt64.

End timeline.

(** * Example worlds *)

Module fixtures.
Import lib.

(** ** Timestamps: the two layouts on the texts used below *)

Definition digit (c : ascii) : option Z :=
  let n := nat_of_ascii c in
  if ((48 <=? n) && (n <=? 57))%nat then Some (Z.of_nat n - 48) else None.

Fixpoint digits (cs : list ascii) (acc : Z) : option Z :=
  match cs with
  | [] => Some acc
  | c :: cs' =>
      match digit c with
      | Some d => digits cs' (10 * acc + d)
      | None => None
      end
  end.

(** The decimal number written in the [n] characters from position [pos]. *)
Definition numberAt (cs : list ascii) (pos n : nat) : option Z :=
  let field := take n (drop pos cs) in
  if (length field =? n)%nat then digits field 0 else None.

Definition charAt (cs : list ascii) (pos : nat) (c : ascii) : bool :=
  match cs !! pos with
  | Some a => Ascii.eqb a c
  | None => false
  end.

Definition isLeap (y : Z) : bool :=
  ((y mod 4 =? 0) && negb (y mod 100 =? 0)) || (y mod 400 =? 0).

Definition daysIn (y m : Z) : Z :=
  if m =? 2 then (if isLeap y then 29 else 28)
  else if (m =? 4) || (m =? 6) || (m =? 9) || (m =? 11) then 30 else 31.

(** Days from 0001-01-01 to a date of the proleptic Gregorian calendar. *)
Definition daysFromCivil (y m d : Z) : Z :=
  let y' := if m <=? 2 then y - 1 else y in
  let era := y' / 400 in
  let yoe := y' - era * 400 in
  let mp := (m + 9) mod 12 in
  let doy := (153 * mp + 2) / 5 + d - 1 in
  let doe := yoe * 365 + yoe / 4 - yoe / 100 + doy in
  era * 146097 + doe - 306.

Definition instant (y mo d h mi s ns offsetSeconds : Z) : option Time :=
  if (1 <=? mo) && (mo <=? 12) && (1 <=? d) && (d <=? daysIn y mo) &&
     (h <? 24) && (mi <? 60) && (s <? 60)
  then Some ((((daysFromCivil y mo d * 24 + h) * 60 + mi) * 60 + s
              - offsetSeconds) * 1000000000 + ns)
  else None.

Definition dateTimeAt (cs : list ascii) : option (Z * Z * Z * Z * Z * Z) :=
  if charAt cs 4 "-" && charAt cs 7 "-" && charAt cs 10 "T" &&
     charAt cs 13 ":" && charAt cs 16 ":"
  then
    y ← numberAt cs 0 4; mo ← numberAt cs 5 2; d ← numberAt cs 8 2;
    h ← numberAt cs 11 2; mi ← numberAt cs 14 2; s ← numberAt cs 17 2;
    Some (y, mo, d, h, mi, s)
  else None.

(** [time.Parse(time.RFC3339, s)] on the texts YYYY-MM-DDThh:mm:ssZ; every
    other text used below is one that layout refuses. *)
Definition utcRFC3339 (s : string) : option Time :=
  let cs := list_ascii_of_string s in
  if (length cs =? 20)%nat && charAt cs 19 "Z" then
    '(y, mo, d, h, mi, sec) ← dateTimeAt cs;
    instant y mo d h mi sec 0 0
  else None.

(** [time.Parse("2006-01-02T15:04:05.000-0700", s)]: the texts
    YYYY-MM-DDThh:mm:ss.mmm+hhmm and YYYY-MM-DDThh:mm:ss.mmm-hhmm. *)
Definition millisZone (s : string) : option Time :=
  let cs := list_ascii_of_string s in
  if (length cs =? 28)%nat && charAt cs 19 "." &&
     (charAt cs 23 "+" || charAt cs 23 "-") then
    '(y, mo, d, h, mi, sec) ← dateTimeAt cs;
    ms ← numberAt cs 20 3; zh ← numberAt cs 24 2; zm ← numberAt cs 26 2;
    let offset := (zh * 60 + zm) * 60 in
    instant y mo d h mi sec (ms * 1000000)
      (if charAt cs 23 "-" then - offset else offset)
  else None.

(** The clock of the examples: 2026-01-01T00:00:00Z, one second later at
    each reading. *)
Definition clock2026 (k : nat) : Time :=
  default 0 (utcRFC3339 "2026-01-01T00:00:00Z") + Z.of_nat k * 1000000000.

(** ** Search *)

(** The query [Key = ABC-1] written with the Kelvin sign (U+212A, the bytes
    E2 84 AA) for its first letter. *)
Definition kelvinQuery : string :=
  String (toByte 0xE2) (String (toByte 0x84) (String (toByte 0xAA) "ey = ABC-1")).

(** Case tables for the examples: the Kelvin sign and the dotted capital I
    are lowered to [k] and [i], the capital letters of Latin-1 to their
    small forms, and any other rune beyond ASCII is left as it is. *)
Definition sampleTables : CaseTables := {|
  toLowerCase r :=
    if r =? 0x212A then 0x6B
    else if r =? 0x130 then 0x69
    else if (0xC0 <=? r) && (r <=? 0xDE) && negb (r =? 0xD7) then r + 32
    else r;
  toLowerCase_RuneError := eq_refl
|}.

Definition page_without_total : jira.SearchResult :=
  jira.mkSearchResult 0 50 0 [jira.mkIssue "A-1"; jira.mkIssue "A-2"] "" true.

Definition serve (code : Z) (body : string) : Client :=
  mkClient (fun _ => (Some (mkResponse code body), None))
           (fun _ => (Some (mkResponse code body), None)).

(** ** Issues and changelog pages

    Bodies are named by a label; the world's decoders give the value each
    label stands for. *)

Definition alice : option HistoryAuthor :=
  Some (mkHistoryAuthor "alice" "alice@example.com" "Alice").

Definition statusItem (from to : string) : HistoryItem :=
  mkHistoryItem "status" "jira" "" from "" to.

Definition history (id created : string) (items : list HistoryItem)
  : IssueHistory :=
  mkIssueHistory id alice created items.

Definition ok (body : string) : GetResult := (Some (mkResponse 200 body), None).

Definition failed : GetResult := (None, Some (ErrTransport "connection reset")).

(** A transport that answers by path only, the same for both dialects and
    at every request. *)
Definition byPath (answer : string -> GetResult) : JiraClient :=
  mkJiraClient "Cloud" (fun _ => mkClient answer answer).

Definition world (issues : string -> result IssueWithChangelog)
    (pages : string -> result IssueChangelog) : World :=
  mkWorld utcRFC3339 millisZone clock2026 issues pages.

Definition malformed {A : Type} : result A := Err (ErrDecode "unexpected end of JSON input").

(** Answers by path, and decoders by body label. *)
Definition answer1 (path body : string) : string -> GetResult :=
  fun p => if String.eqb p path then ok body else failed.

Definition answer2 (path1 body1 path2 body2 : string) : string -> GetResult :=
  fun p => if String.eqb p path1 then ok body1
           else if String.eqb p path2 then ok body2 else failed.

Definition decode1 {A : Type} (body : string) (a : A) : string -> result A :=
  fun b => if String.eqb b body then Ok a else malformed.

(** PROJ-1: a server that lists the histories oldest first. *)
Definition oldestFirstIssue : IssueWithChangelog :=
  mkIssueWithChangelog "PROJ-1" (mkIssueFields "2024-01-01T09:00:00Z" "bob")
    (Some (mkIssueChangelog 0 100 2
       [ history "10001" "2024-01-02T10:00:00Z" [statusItem "To Do" "In Progress"];
         history "10002" "2024-01-03T10:00:00Z" [statusItem "In Progress" "Done"] ])).

Definition oldestFirstClient : JiraClient :=
  byPath (answer1 "/issue/PROJ-1?expand=changelog" "issue").

Definition oldestFirstWorld : World :=
  world (decode1 "issue" oldestFirstIssue) (fun _ => malformed).

(** PROJ-2: three histories served one per page, newest first; the request
    for the third page fails. *)
Definition threePagesIssue : IssueWithChangelog :=
  mkIssueWithChangelog "PROJ-2" (mkIssueFields "2024-01-01T09:00:00Z" "bob")
    (Some (mkIssueChangelog 0 1 3
       [ history "10003" "2024-01-04T10:00:00Z" [statusItem "In Review" "Done"] ])).

Definition secondPage : IssueChangelog :=
  mkIssueChangelog 1 1 3
    [ history "10002" "2024-01-03T10:00:00Z" [statusItem "In Progress" "In Review"] ].

Definition secondPageChange : StatusChange :=
  mkStatusChange (default 0 (utcRFC3339 "2024-01-03T10:00:00Z")) "alice"
    "In Progress" "In Review" "alice@example.com" "Alice".

Definition threePagesClient : JiraClient :=
  byPath (answer2 "/issue/PROJ-2?expand=changelog" "issue"
                  "/issue/PROJ-2/changelog?startAt=1" "page 2").

Definition threePagesWorld : World :=
  world (decode1 "issue" threePagesIssue) (decode1 "page 2" secondPage).

(** PROJ-3: timestamps that neither layout accepts, one on the embedded
    page and one on a continuation page. *)
Definition badTimesIssue : IssueWithChangelog :=
  mkIssueWithChangelog "PROJ-3" (mkIssueFields "2024-01-01T09:00:00Z" "bob")
    (Some (mkIssueChangelog 0 1 2
       [ history "10002" "last tuesday" [statusItem "In Progress" "Done"] ])).

Definition badTimesPage : IssueChangelog :=
  mkIssueChangelog 1 1 2
    [ history "10001" "last monday" [statusItem "To Do" "In Progress"] ].

Definition badTimesClient : JiraClient :=
  byPath (answer2 "/issue/PROJ-3?expand=changelog" "issue"
                  "/issue/PROJ-3/changelog?startAt=1" "page 2").

Definition badTimesWorld : World :=
  world (decode1 "issue" badTimesIssue) (decode1 "page 2" badTimesPage).

(** PROJ-4: a server that declares five histories and answers every
    continuation request with an empty page. *)
Definition emptyPagesIssue : IssueWithChangelog :=
  mkIssueWithChangelog "PROJ-4" (mkIssueFields "2024-01-01T09:00:00Z" "bob")
    (Some (mkIssueChangelog 0 2 5
       [ history "10005" "2024-01-06T10:00:00Z" [statusItem "In Review" "Done"];
         history "10004" "2024-01-05T10:00:00Z" [statusItem "In Progress" "In Review"] ])).

Definition emptyPage : IssueChangelog := mkIssueChangelog 2 2 5 [].

Definition emptyPagesClient : JiraClient :=
  byPath (fun p => if String.eqb p "/issue/PROJ-4?expand=changelog"
                   then ok "issue" else ok "empty page").

Definition emptyPagesWorld : World :=
  world (decode1 "issue" emptyPagesIssue) (decode1 "empty page" emptyPage).

(** PROJ-5: one transition, stamped in the millisecond layout. *)
Definition oneTransition : IssueHistory :=
  history "10001" "2024-01-05T10:00:00.000+0000"
    [ mkHistoryItem "assignee" "jira" "" "" "bob" "Bob";
      statusItem "To Do" "In Progress" ].

Definition oneTransitionLog : IssueChangelog :=
  mkIssueChangelog 0 100 1 [oneTransition].

Definition oneTransitionIssue : IssueWithChangelog :=
  mkIssueWithChangelog "PROJ-5" (mkIssueFields "2024-01-01T09:00:00Z" "bob")
    (Some oneTransitionLog).

Definition oneTransitionClient : JiraClient :=
  byPath (answer1 "/issue/PROJ-5?expand=changelog" "issue").

Definition oneTransitionWorld : World :=
  world (decode1 "issue" oneTransitionIssue) (fun _ => malformed).

(** ** Timelines *)

Definition at_ (created : string) : Time := default 0 (utcRFC3339 created).

Definition step (created from to : string) : StatusChange :=
  mkStatusChange (at_ created) "alice" from to "alice@example.com" "Alice".

(** A timeline that comes back to a status it has left. *)
Definition reopenedTimeline : list StatusChange :=
  [ step "2024-01-01T09:00:00Z" "" "To Do";
    step "2024-01-05T10:00:00Z" "To Do" "In Progress";
    step "2024-01-08T10:00:00Z" "In Progress" "To Do";
    step "2024-01-09T10:00:00Z" "To Do" "In Progress" ].

(** A timeline whose first entry carries the zero time, as an entry of a
    continuation page does when its timestamp is not understood. *)
Definition zeroStampedTimeline : list StatusChange :=
  [ mkStatusChange zeroTime "alice" "To Do" "In Progress" "alice@example.com" "Alice";
    step "2024-01-05T10:00:00Z" "In Progress" "Done" ].

End fixtures.

(** * pkg/jira/search.go: what the bounding check and the path amount to *)

Module search_terms.

(** The lower-case fragments that decide the bounding check: every term of
    the vocabulary holds one of them. *)
Definition coreTerms : list string :=
  [ "created >"; "created ="; "created <";
    "updated >"; "updated ="; "updated <";
    "project ="; "project in";
    "id ="; "id in";
    "key ="; "key in" ].

(** The characters an escaped query is made of. *)
Definition isQuerySafe (c : ascii) : bool :=
  jira.isUnreserved c || Ascii.eqb c "+" || Ascii.eqb c "%".

Fixpoint allChars (p : ascii -> bool) (s : string) : bool :=
  match s with
  | EmptyString => true
  | String c s' => p c && allChars p s'
  end.

(** The value of a hexadecimal digit. *)
Definition unhex (c : ascii) : option nat :=
  let n := nat_of_ascii c in
  if ((48 <=? n) && (n <=? 57))%nat then Some (n - 48)%nat
  else if ((65 <=? n) && (n <=? 70))%nat then Some (n - 55)%nat
  else if ((97 <=? n) && (n <=? 102))%nat then Some (n - 87)%nat
  else None.

(** The query an escaped text stands for, as the server reads it: [+] is a
    space and [%XY] the byte with the hexadecimal digits X and Y. *)
Fixpoint unescapeQuery (s : string) : option string :=
  match s with
  | EmptyString => Some EmptyString
  | String c rest =>
      if Ascii.eqb c "+" then option_map (String " ") (unescapeQuery rest)
      else if Ascii.eqb c "%" then
        match rest with
        | String h (String l rest') =>
            match unhex h, unhex l with
            | Some a, Some b =>
                option_map (String (ascii_of_nat (16 * a + b)))
                  (unescapeQuery rest')
            | _, _ => None
            end
        | _ => None
        end
      else option_map (String c) (unescapeQuery rest)
  end.

(** Bytes of ASCII and bytes beyond, and a test on every byte of a text. *)
Definition isAsciiByte (b : Z) : bool := b <? RuneSelf.
Definition beyondAscii (b : Z) : bool := RuneSelf <=? b.

Fixpoint allBytes (p : Z -> bool) (s : string) : bool :=
  match s with
  | EmptyString => true
  | String c s' => p (byteOf c) && allBytes p s'
  end.

(** The next [k] bytes, as far as there are any, are continuation bytes. *)
Fixpoint pending (k : nat) (s : string) : bool :=
  match k, s with
  | S k', String c s' => continuation (byteOf c) && pending k' s'
  | _, _ => true
  end.

End search_terms.

(** * lib: the client wrapper, project lookup and issue paging *)

Module client.
Import lib.

(** An unsigned 64-bit value: what a conversion to [uint] or an overflowing
    [uint] addition produces. *)
Definition wrapUint64 (z : Z) : Z := z mod 2 ^ 64.

(** Errors made with [fmt.Errorf] from a message alone, beside those that
    come from the [jira] package. *)
Inductive failure : Type :=
| Errorf (msg : string)
| FromJira (e : error).

Inductive outcome (A : Type) : Type :=
| Returned (a : A)
| Failed (f : failure).
Arguments Returned {A} a.
Arguments Failed {A} f.

(** ** NewClient *)

Record MTLSConfig : Type := mkMTLSConfig {
  CaCert : string;
  ClientCert : string;
  ClientKey : string
}.

Record ClientConfig : Type := mkClientConfig {
  Server : string;
  Login : string;
  APIToken : string;
  AuthType : string;
  Insecure : bool;
  Debug : bool;
  Timeout : Duration;
  InstallationType : string;
  MTLS : option MTLSConfig
}.

(** Modelled from the spec: [jira.Config], the configuration handed to the
    [jira] package, declared in another file; it carries the fields that
    [NewClient] fills in. *)
Record JiraConfig : Type := mkJiraConfig {
  cfgServer : string;
  cfgLogin : string;
  cfgAPIToken : string;
  cfgAuthType : string;
  cfgInsecure : bool;
  cfgDebug : bool;
  cfgMTLS : MTLSConfig
}.

(** Modelled from the spec: the installation type of the modern (cloud)
    dialect, a constant of the [jira] package; the tests of [NewClient]
    expect "Cloud" as the default. *)
Definition InstallationTypeCloud : string := "Cloud".

Definition Second : Duration := 1000000000.

Section NewClient.

(** [jira.NewClient(config, jira.WithTimeout(t), jira.WithInsecureTLS(b))]:
    the transport built by the [jira] package. *)
Variable jiraNewClient : JiraConfig -> Duration -> bool -> nat -> Client.

Definition NewClient (config : ClientConfig) : outcome JiraClient :=
  if String.eqb (Server config) "" then Failed (Errorf "server URL is required")
  else if String.eqb (Login config) "" then Failed (Errorf "login is required")
  else if String.eqb (APIToken config) "" then
    Failed (Errorf "API token is required")
  else
    let authType :=
      if String.eqb (AuthType config) "" then "basic"%string
      else AuthType config in
    let timeout :=
      if Timeout config =? 0 then 15 * Second else Timeout config in
    let installationType :=
      if String.eqb (InstallationType config) "" then InstallationTypeCloud
      else InstallationType config in
    let jiraConfig :=
      mkJiraConfig (Server config) (Login config) (APIToken config) authType
        (Insecure config) (Debug config)
        (match MTLS config with
         | Some m => mkMTLSConfig (CaCert m) (ClientCert m) (ClientKey m)
         | None => mkMTLSConfig "" "" ""
         end) in
    Returned (mkJiraClient installationType
                (jiraNewClient jiraConfig timeout (Insecure config))).

End NewClient.

(** ** GetProject *)

(** Modelled from the spec: [jira.Project] is declared in another file; a
    project has a key, by which it is looked up. *)
Record Project : Type := mkProject {
  ProjectKey : string;
  ProjectName : string
}.

(** The loop of [GetProject] over the projects listed. *)
Fixpoint findProject (key : string) (projects : list Project) : outcome Project :=
  match projects with
  | [] => Failed (Errorf ("project " +:+ key +:+ " not found"))
  | project :: rest =>
      if String.eqb (ProjectKey project) key then Returned project
      else findProject key rest
  end.

(** [listed] is what [c.client.Project()] hands back. *)
Definition GetProject (listed : result (list Project)) (key : string)
  : outcome Project :=
  match listed with
  | Err e => Failed (FromJira e)
  | Ok projects => findProject key projects
  end.

(** ** Searching through the wrapper *)

Section Paging.

Context {tables : CaseTables}.

Variable decodeSearchResult : string -> result jira.SearchResult.

(** One search: one request to the transport, in the dialect of the
    installation. *)
Definition SearchIssues (c : JiraClient) (jql : string) (from limit : Z)
  : M (result jira.SearchResult) :=
  fun s =>
    let transport := lib.client c (requests s) in
    (if String.eqb (installationType c) InstallationTypeLocal
     then jira.SearchV2 decodeSearchResult transport jql from limit
     else jira.Search decodeSearchResult transport jql from limit,
     mkSt (S (requests s)) (clockReads s)).

Definition epicsJQL (project : string) : string :=
  "project = " +:+ project +:+ " AND issuetype = Epic".

Definition GetEpics (c : JiraClient) (project : string) (from limit : Z)
  : M (result jira.SearchResult) :=
  SearchIssues c (epicsJQL project) from limit.

(** ** GetAllIssues *)

Record GetAllIssuesOptions : Type := mkOptions {
  Project_ : string;
  StartDate : string;
  DateField : string;
  MaxResults : Z;
  JQL : string;
  OrderBy : string
}.

(** [strings.Join]. *)
Fixpoint Join (parts : list string) (sep : string) : string :=
  match parts with
  | [] => ""
  | [part] => part
  | part :: rest => part +:+ sep +:+ Join rest sep
  end.

(** Lines 737-771: the parts of the query, in the order they are added. *)
Definition jqlParts (options : GetAllIssuesOptions) : list string :=
  (if String.eqb (Project_ options) "" then []
   else ["project = " +:+ Project_ options]) ++
  (if String.eqb (StartDate options) "" then []
   else
     let dateField :=
       if String.eqb (DateField options) "" then "created"%string
       else DateField options in
     [dateField +:+ " >= '" +:+ StartDate options +:+ "'"]) ++
  (if String.eqb (JQL options) "" then []
   else ["(" +:+ JQL options +:+ ")"]).

Definition buildJQL (options : GetAllIssuesOptions) : string :=
  let jqlParts := jqlParts options in
  let jql := if 0 <? len jqlParts then Join jqlParts " AND " else ""%string in
  if String.eqb (OrderBy options) "" then jql +:+ " ORDER BY created DESC"
  else jql +:+ " ORDER BY " +:+ OrderBy options.

Definition batchSize : Z := 100.

(** The paging loop of [GetAllIssues]; [fuel] bounds the iterations
    unrolled and [None] says the loop is still running.  [startAt] is a
    [uint] and [totalFetched] an [int]. *)
Fixpoint allIssuesLoop (fuel : nat) (c : JiraClient) (jql : string)
    (maxResults : Z) (startAt totalFetched : Z) (allIssues : list jira.Issue)
  : M (option (result (list jira.Issue))) :=
  match fuel with
  | O => ret None
  | S fuel' =>
      r <- SearchIssues c jql startAt batchSize ;;
      match r with
      | Err e =>
          ret (Some (Err (ErrWrap ("failed to fetch issues at offset "
                                     +:+ pretty startAt) e)))
      | Ok results =>
          let allIssues := allIssues ++ jira.Issues results in
          let totalFetched := addInt totalFetched (len (jira.Issues results)) in
          if (0 <? maxResults) && (maxResults <=? totalFetched) then
            ret (Some (Ok (if maxResults <? len allIssues
                           then take (Z.to_nat maxResults) allIssues
                           else allIssues)))
          else if wrapUint64 (jira.Total results)
                    <=? wrapUint64 (startAt + len (jira.Issues results))
          then ret (Some (Ok allIssues))
          else if len (jira.Issues results) =? 0 then ret (Some (Ok allIssues))
          else allIssuesLoop fuel' c jql maxResults
                 (wrapUint64 (startAt + batchSize)) totalFetched allIssues
      end
  end.

Definition GetAllIssues (fuel : nat) (c : JiraClient)
    (options : GetAllIssuesOptions) : M (option (result (list jira.Issue))) :=
  allIssuesLoop fuel c (buildJQL options) (MaxResults options) 0 0 [].

(** ** GetIssuesByDateRange *)

Definition dateRangeJQL (startDate endDate dateField : string) : string :=
  let dateField := if String.eqb dateField "" then "created"%string else dateField in
  dateField +:+ " >= '" +:+ startDate +:+ "' AND " +:+ dateField +:+ " <= '"
    +:+ endDate +:+ "' ORDER BY " +:+ dateField +:+ " DESC".

Fixpoint dateRangeLoop (fuel : nat) (c : JiraClient) (jql : string)
    (startAt : Z) (allIssues : list jira.Issue)
  : M (option (result (list jira.Issue))) :=
  match fuel with
  | O => ret None
  | S fuel' =>
      r <- SearchIssues c jql startAt batchSize ;;
      match r with
      | Err e => ret (Some (Err (ErrWrap "failed to fetch issues" e)))
      | Ok results =>
          let allIssues := allIssues ++ jira.Issues results in
          if (wrapUint64 (jira.Total results)
                <=? wrapUint64 (startAt + len (jira.Issues results)))
             || (len (jira.Issues results) =? 0)
          then ret (Some (Ok allIssues))
          else dateRangeLoop fuel' c jql (wrapUint64 (startAt + batchSize))
                 allIssues
      end
  end.

Definition GetIssuesByDateRange (fuel : nat) (c : JiraClient)
    (startDate endDate dateField : string)
  : M (option (result (list jira.Issue))) :=
  dateRangeLoop fuel c (dateRangeJQL startDate endDate dateField) 0 [].

(** ** GetRecentIssues *)

Definition recentOptions (days : Z) (project : string) : GetAllIssuesOptions :=
  mkOptions project ("-" +:+ pretty days +:+ "d") "created" 0 ""
    "created DESC".

Definition GetRecentIssues (fuel : nat) (c : JiraClient) (days : Z)
    (project : string) : M (option (result (list jira.Issue))) :=
  GetAllIssues fuel c (recentOptions days project).

End Paging.

End client.

(** * examples: statistics, columns and CSV fields *)

Module tracking.
Import lib status_tracking.

(** ** trackProjectIssues: the statistics gathered over a batch *)

Record Stats : Type := mkStats {
  allIssueKeys : list string;
  allChanges : list (list StatusChange);
  statusCounts : gmap string Z;
  transitionCounts : gmap string Z
}.

Definition noStats : Stats := mkStats [] [] ∅ ∅.

(** [counts[key]++] on a map of [int]. *)
Definition increment (key : string) (counts : gmap string Z) : gmap string Z :=
  <[key := addInt (default 0 (counts !! key)) 1]> counts.

Definition transitionKey (change : StatusChange) : string :=
  FromStatus change +:+ " → " +:+ ToStatus change.

(** The inner loop over the changes of one issue. *)
Fixpoint countChanges (changes : list StatusChange)
    (statusCounts transitionCounts : gmap string Z)
  : gmap string Z * gmap string Z :=
  match changes with
  | [] => (statusCounts, transitionCounts)
  | change :: rest =>
      let statusCounts := increment (ToStatus change) statusCounts in
      let transitionCounts :=
        if negb (String.eqb (FromStatus change) "")
        then increment (transitionKey change) transitionCounts
        else transitionCounts in
      countChanges rest statusCounts transitionCounts
  end.

(** The loop over the issues: [fetch] is [client.GetIssueStatusChanges];
    an issue whose fetch fails is reported and skipped, one without changes
    is skipped, and a fetch that does not return keeps the loop from
    returning ([None]). *)
Fixpoint issuesLoop (fetch : string -> M (option (result (list StatusChange))))
    (issues : list jira.Issue) (stats : Stats) : M (option Stats) :=
  match issues with
  | [] => ret (Some stats)
  | issue :: rest =>
      r <- fetch (jira.Key issue) ;;
      match r with
      | None => ret None
      | Some (Err _) => issuesLoop fetch rest stats
      | Some (Ok changes) =>
          if 0 <? len changes then
            let '(statusCounts, transitionCounts) :=
              countChanges changes (statusCounts stats) (transitionCounts stats) in
            issuesLoop fetch rest
              (mkStats (allIssueKeys stats ++ [jira.Key issue])
                 (allChanges stats ++ [changes])
                 statusCounts transitionCounts)
          else issuesLoop fetch rest stats
      end
  end.

(** The durations of each status over the timelines kept; [nows] gives the
    reading of the clock taken for each timeline in turn.  The order in
    which the entries of one map are visited does not show in the result,
    since each status occurs once in a map. *)
Definition appendDuration (status : string) (duration : Duration)
    (all : gmap string (list Duration)) : gmap string (list Duration) :=
  <[status := default [] (all !! status) ++ [duration]]> all.

Fixpoint allStatusTimes (nows : nat -> Time) (k : nat)
    (allChanges : list (list StatusChange))
    (all : gmap string (list Duration)) : gmap string (list Duration) :=
  match allChanges with
  | [] => all
  | changes :: rest =>
      let statusTime := calculateStatusTime (nows k) changes in
      allStatusTimes nows (S k) rest (map_fold appendDuration all statusTime)
  end.

(** [total / time.Duration(len(durations))]: the division of [int64]
    truncates toward zero and panics ([None]) on a zero divisor. *)
Definition average (durations : list Duration) : option Duration :=
  let total := foldl addInt 0 durations in
  if len durations =? 0 then None
  else Some (Z.quot total (len durations)).

(** ** printTimeline: the status column *)

(** [len(s)] of a string: its number of bytes. *)
Definition slen (s : string) : Z := Z.of_nat (String.length s).

(** The first loop: the longest new status. *)
Fixpoint maxStatusLenFrom (maxStatusLen : Z) (changes : list StatusChange) : Z :=
  match changes with
  | [] => maxStatusLen
  | change :: rest =>
      maxStatusLenFrom
        (if maxStatusLen <? slen (ToStatus change)
         then slen (ToStatus change) else maxStatusLen)
        rest
  end.

Definition maxStatusLen (changes : list StatusChange) : Z :=
  maxStatusLenFrom 0 changes.

Fixpoint replicate_string (n : nat) (s : string) : string :=
  match n with
  | O => ""
  | S n' => s +:+ replicate_string n' s
  end.

(** [strings.Repeat], which panics ([None]) on a negative count. *)
Definition Repeat (s : string) (count : Z) : option string :=
  if count <? 0 then None else Some (replicate_string (Z.to_nat count) s).

(** The status between brackets followed by its padding. *)
Definition statusColumn (maxStatusLen : Z) (change : StatusChange)
  : option string :=
  match Repeat " " (maxStatusLen - slen (ToStatus change)) with
  | None => None
  | Some padding => Some ("[" +:+ ToStatus change +:+ "]" +:+ padding)
  end.

(** ** escapeCSV *)

Definition quote : ascii := ascii_of_nat 34.
Definition comma : ascii := ascii_of_nat 44.
Definition newline : ascii := ascii_of_nat 10.
Definition carriageReturn : ascii := ascii_of_nat 13.

Definition isSpecial (c : ascii) : bool :=
  Ascii.eqb c comma || Ascii.eqb c quote || Ascii.eqb c newline
  || Ascii.eqb c carriageReturn.

(** [strings.ContainsAny(s, chars)] for the four characters above. *)
Fixpoint containsSpecial (s : string) : bool :=
  match s with
  | EmptyString => false
  | String c s' => isSpecial c || containsSpecial s'
  end.

(** [strings.ReplaceAll(s, q, qq)] for a quote [q] and two quotes [qq]. *)
Fixpoint doubleQuotes (s : string) : string :=
  match s with
  | EmptyString => EmptyString
  | String c s' =>
      if Ascii.eqb c quote then String quote (String quote (doubleQuotes s'))
      else String c (doubleQuotes s')
  end.

Definition escapeCSV (s : string) : string :=
  if containsSpecial s
  then String quote (doubleQuotes s +:+ String quote EmptyString)
  else s.

(** ** truncate (fetch-all-issues) *)

(** [s[:n]] for [0 <= n <= len(s)]. *)
Fixpoint prefixBytes (n : nat) (s : string) : string :=
  match n, s with
  | S n', String c s' => String c (prefixBytes n' s')
  | _, _ => EmptyString
  end.

(** [None] is the panic of a slice bound out of range. *)
Definition truncate (s : string) (maxLen : Z) : option string :=
  if slen s <=? maxLen then Some s
  else if (maxLen - 3 <? 0) || (slen s <? maxLen - 3) then None
  else Some (prefixBytes (Z.to_nat (maxLen - 3)) s +:+ "...").

(** The summary column of [printSimple]: cut inline at 40 bytes. *)
Definition summaryColumn (summary : string) : string :=
  if 40 <? slen summary then prefixBytes 37 summary +:+ "..." else summary.

End tracking.

(** * More example worlds *)

Module more_fixtures.
Import lib fixtures.

(** Two transports that agree on the legacy endpoint only. *)
Definition legacyOnly (answer : string -> GetResult) : Client :=
  mkClient (fun _ => failed) answer.

Definition bothDialects (answer : string -> GetResult) : Client :=
  mkClient answer answer.

(** PROJ-6: three histories served one per page, newest first, every
    request answered. *)
Definition allPagesIssue : IssueWithChangelog :=
  mkIssueWithChangelog "PROJ-6" (mkIssueFields "2024-01-01T09:00:00Z" "bob")
    (Some (mkIssueChangelog 0 1 3
       [ history "10003" "2024-01-04T10:00:00Z" [statusItem "In Review" "Done"] ])).

Definition pageTwo : IssueChangelog :=
  mkIssueChangelog 1 1 3
    [ history "10002" "2024-01-03T10:00:00Z"
        [ mkHistoryItem "assignee" "jira" "" "" "bob" "Bob";
          statusItem "In Progress" "In Review" ] ].

Definition pageThree : IssueChangelog :=
  mkIssueChangelog 2 1 3
    [ history "10001" "2024-01-02T10:00:00Z" [statusItem "To Do" "In Progress"] ].

Definition allPagesClient : JiraClient :=
  byPath (fun p =>
            if String.eqb p "/issue/PROJ-6?expand=changelog" then ok "issue"
            else if String.eqb p "/issue/PROJ-6/changelog?startAt=1" then ok "page 2"
            else if String.eqb p "/issue/PROJ-6/changelog?startAt=2" then ok "page 3"
            else failed).

Definition allPagesWorld : World :=
  world (decode1 "issue" allPagesIssue)
    (fun b => if String.eqb b "page 2" then Ok pageTwo
              else if String.eqb b "page 3" then Ok pageThree else malformed).

(** PROJ-7: an issue that answers with status 404. *)
Definition missingIssueClient : JiraClient :=
  byPath (fun _ => (Some (mkResponse 404 "not found"), None)).

(** PROJ-8: a server that answers every continuation request with the same
    page of five histories and declares five in all. *)
Definition fullPage : IssueChangelog :=
  mkIssueChangelog 0 5 5
    [ history "10005" "2024-01-06T10:00:00Z" [statusItem "In Review" "Done"];
      history "10004" "2024-01-05T10:00:00Z" [];
      history "10003" "2024-01-04T10:00:00Z" [statusItem "In Progress" "In Review"];
      history "10002" "2024-01-03T10:00:00Z" [];
      history "10001" "2024-01-02T10:00:00Z" [statusItem "To Do" "In Progress"] ].

Definition fullPageIssue : IssueWithChangelog :=
  mkIssueWithChangelog "PROJ-8" (mkIssueFields "2024-01-01T09:00:00Z" "bob")
    (Some (mkIssueChangelog 0 0 5 [])).

Definition fullPageClient : JiraClient :=
  byPath (fun p => if String.eqb p "/issue/PROJ-8?expand=changelog"
                   then ok "issue" else ok "page").

Definition fullPageWorld : World :=
  world (decode1 "issue" fullPageIssue) (decode1 "page" fullPage).

(** A search page of two issues that declares no total and is not marked
    as the last one. *)
Definition openPage : jira.SearchResult :=
  jira.mkSearchResult 0 100 0 [jira.mkIssue "A-1"; jira.mkIssue "A-2"] "" false.

Definition anyPath (body : string) : JiraClient := byPath (fun _ => ok body).

(** A transport whose second request fails. *)
Definition secondFails : JiraClient :=
  mkJiraClient "Cloud"
    (fun n => if (n =? 1)%nat then mkClient (fun _ => failed) (fun _ => failed)
              else mkClient (fun _ => ok "page") (fun _ => ok "page")).

(** A batch of three issues: the changes of the second cannot be fetched
    and the third has none. *)
Definition batch : list jira.Issue :=
  [jira.mkIssue "A-1"; jira.mkIssue "A-2"; jira.mkIssue "A-3"].

Definition batchFetch (issueKey : string)
  : M (option (result (list StatusChange))) :=
  fun s =>
    (Some (if String.eqb issueKey "A-1" then Ok reopenedTimeline
           else if String.eqb issueKey "A-2" then Err (ErrTransport "connection reset")
           else Ok []),
     mkSt (S (requests s)) (clockReads s)).

(** A full page of a hundred issues that declares no total and is not marked
    as the last one, and the same page with the total the search gives it. *)
Definition hundredIssues : jira.SearchResult :=
  jira.mkSearchResult 0 100 0 (replicate 100 (jira.mkIssue "A-1")) "" false.

Definition hundredOfMany : jira.SearchResult :=
  jira.mkSearchResult 0 100 10000 (replicate 100 (jira.mkIssue "A-1")) "" false.

(** PROJ-9: three histories served one per page.  The only status item of
    the changelog, from "To Do" to "In Progress", is on the second page,
    which is served; the request for the third page fails. *)
Definition lostItemIssue : IssueWithChangelog :=
  mkIssueWithChangelog "PROJ-9" (mkIssueFields "2024-01-01T09:00:00Z" "bob")
    (Some (mkIssueChangelog 0 1 3
       [ history "10003" "2024-01-04T10:00:00Z"
           [mkHistoryItem "assignee" "jira" "" "" "bob" "Bob"] ])).

Definition lostItemPage : IssueChangelog :=
  mkIssueChangelog 1 1 3
    [ history "10002" "2024-01-03T10:00:00Z" [statusItem "To Do" "In Progress"] ].

Definition lostItemChange : StatusChange :=
  mkStatusChange (at_ "2024-01-03T10:00:00Z") "alice" "To Do" "In Progress"
    "alice@example.com" "Alice".

Definition lostItemClient : JiraClient :=
  byPath (answer2 "/issue/PROJ-9?expand=changelog" "issue"
                  "/issue/PROJ-9/changelog?startAt=1" "page 2").

Definition lostItemWorld : World :=
  world (decode1 "issue" lostItemIssue) (decode1 "page 2" lostItemPage).

(** PROJ-10: a server that lists the histories oldest first, for an issue
    whose first transition has no previous status. *)
Definition noPreviousIssue : IssueWithChangelog :=
  mkIssueWithChangelog "PROJ-10" (mkIssueFields "2024-01-01T09:00:00Z" "bob")
    (Some (mkIssueChangelog 0 100 2
       [ history "10001" "2024-01-02T10:00:00Z" [statusItem "" "To Do"];
         history "10002" "2024-01-03T10:00:00Z" [statusItem "To Do" "In Progress"] ])).

Definition noPreviousClient : JiraClient :=
  byPath (answer1 "/issue/PROJ-10?expand=changelog" "issue").

Definition noPreviousWorld : World :=
  world (decode1 "issue" noPreviousIssue) (fun _ => malformed).

End more_fixtures.

(** * Views of the data used in the statements *)

Module views.
Import lib timeline.

(** The labels and the author of a change, and those of the item and entry
    it is built from. *)
Definition labelsOf (change : StatusChange) : string * string * string :=
  (FromStatus change, ToStatus change, Author change).

Definition itemLabels (p : IssueHistory * HistoryItem) : string * string * string :=
  (FromString (snd p), ToString (snd p),
   match HAuthor (fst p) with Some a => Name a | None => ""%string end).

(** The path of the first fetch. *)
Definition issuePath (issueKey : string) : string :=
  "/issue/" +:+ issueKey +:+ "?expand=changelog".

(** The changes a continuation page contributes, and those of a run of
    pages. *)
Definition pageChanges (w : World) (pages : list IssueChangelog)
  : list StatusChange :=
  flat_map (fun page => map (continuationChange w) (statusItems (Histories page)))
    pages.

(** The transport serves [pages], one per request, to a pager that starts
    at offset [currentStart] in state [s]: each request is answered with
    status 200 and a body that decodes to the next page, every page but the
    last leaves the offset below its declared total, and the last one
    reaches it. *)
Fixpoint served (w : World) (c : JiraClient) (issueKey : string)
    (currentStart : Z) (s : St) (pages : list IssueChangelog) : Prop :=
  match pages with
  | [] => False
  | page :: rest =>
      exists res : Response,
        answerAt c (changelogPath issueKey currentStart) s = (Some res, None) /\
        StatusCode res = 200 /\
        decodeIssueChangelog w (Body res) = Ok page /\
        let next := addInt currentStart (len (Histories page)) in
        match rest with
        | [] => Total page <= next
        | _ :: _ =>
            next < Total page /\
            served w c issueKey next (afterRequest s) rest
        end
  end.

(** The outcome of the search issued in state [s]. *)
Definition searchAt `{CaseTables} (decode : string -> result jira.SearchResult)
    (c : JiraClient) (jql : string) (from limit : Z) (s : St)
  : result jira.SearchResult :=
  fst (client.SearchIssues decode c jql from limit s).

(** Every page that decodes holds at most [B] issues. *)
Definition pagesWithin (decode : string -> result jira.SearchResult) (B : Z)
  : Prop :=
  forall body out, decode body = Ok out -> len (jira.Issues out) <= B.

(** Every page that decodes declares a total between 0 and [T]. *)
Definition totalsWithin (decode : string -> result jira.SearchResult) (T : Z)
  : Prop :=
  forall body out, decode body = Ok out -> 0 <= jira.Total out <= T.

(** The outcome of [GetAllIssues] with the error text of
    [GetIssuesByDateRange]. *)
Definition relabel (r : option (result (list jira.Issue)) * St)
  : option (result (list jira.Issue)) * St :=
  match r with
  | (Some (Err (ErrWrap _ e)), s) =>
      (Some (Err (ErrWrap "failed to fetch issues" e)), s)
  | other => other
  end.

(** The changes that enter [status], those counted as the transition
    [key], and the timelines that enter [status] at least once. *)
Definition entersStatus (status : string) (change : StatusChange) : bool :=
  String.eqb (ToStatus change) status.

Definition isTransition (key : string) (change : StatusChange) : bool :=
  negb (String.eqb (FromStatus change) "")
  && String.eqb (tracking.transitionKey change) key.

Definition entered (status : string) (changes : list StatusChange) : bool :=
  existsb (entersStatus status) changes.

Definition occurrences {A : Type} (p : A -> bool) (xs : list A) : Z :=
  len (List.filter p xs).

(** What a map of counts holds for a key counted [n] times: nothing before
    the first time. *)
Definition tallied (n : Z) : option Z := if n =? 0 then None else Some n.

(** The two maps of counts agree with the changes seen so far. *)
Definition tallies (statusCounts transitionCounts : gmap string Z)
    (changes : list StatusChange) : Prop :=
  (forall status,
     statusCounts !! status = tallied (occurrences (entersStatus status) changes)) /\
  (forall key,
     transitionCounts !! key = tallied (occurrences (isTransition key) changes)).

End views.

(** * Properties of pkg/jira/search.go *)

Section StringFacts.

Lemma append_cons (x : ascii) (a b : string) :
  String x a +:+ b = String x (a +:+ b).
Proof. reflexivity. Qed.

Lemma append_assoc (a b c : string) : (a +:+ b) +:+ c = a +:+ b +:+ c.
Proof.
  induction a as [|x a IH]; [reflexivity|].
  now rewrite !append_cons, IH.
Qed.

Lemma append_nil_r (a : string) : a +:+ "" = a.
Proof.
  induction a as [|x a IH]; [reflexivity|]. now rewrite append_cons, IH.
Qed.

Lemma HasPrefix_app (p s : string) : HasPrefix (p +:+ s) p = true.
Proof.
  induction p as [|c p IH]; simpl.
  - now destruct s.
  - now rewrite Ascii.eqb_refl, IH.
Qed.

Lemma HasPrefix_inv (s p : string) :
  HasPrefix s p = true -> exists post, s = p +:+ post.
Proof.
  revert s. induction p as [|b p IH]; intros s H.
  - now exists s.
  - destruct s as [|a s]; simpl in H; [discriminate|].
    apply andb_true_iff in H as [Hc Hp].
    apply Ascii.eqb_eq in Hc. subst b.
    destruct (IH _ Hp) as [post ->]. now exists post.
Qed.

Lemma Contains_of_prefix (s p : string) :
  HasPrefix s p = true -> Contains s p = true.
Proof. intros H. destruct s; cbn [Contains]; now rewrite H. Qed.

Lemma Contains_app (pre sub post : string) :
  Contains (pre +:+ sub +:+ post) sub = true.
Proof.
  induction pre as [|c pre IH].
  - apply Contains_of_prefix. exact (HasPrefix_app sub post).
  - simpl. rewrite IH. apply orb_true_r.
Qed.

Lemma Contains_inv (s sub : string) :
  Contains s sub = true -> exists pre post, s = pre +:+ sub +:+ post.
Proof.
  induction s as [|c s IH]; cbn [Contains]; intros H.
  - rewrite orb_false_r in H. apply HasPrefix_inv in H as [post E].
    now exists ""%string, post.
  - apply orb_true_iff in H as [H|H].
    + apply HasPrefix_inv in H as [post ->]. now exists ""%string, post.
    + destruct (IH H) as (pre & post & ->).
      now exists (String c pre), post.
Qed.

Lemma Contains_refl (s : string) : Contains s s = true.
Proof.
  rewrite <- (append_nil_r s) at 1. exact (Contains_app "" s "").
Qed.

End StringFacts.

(** ** Decoding UTF-8 *)

Section Utf8Facts.

Import search_terms.

Lemma leading_spec (s0 sz lo hi : Z) :
  leading s0 = Some (sz, lo, hi) ->
  (sz = 2 \/ sz = 3 \/ sz = 4) /\ 0x80 <= lo /\ hi <= 0xBF /\ 0xC2 <= s0.
Proof.
  unfold leading.
  repeat match goal with
         | |- context [if ?b then _ else _] => destruct b eqn:?
         end; intros [= <- <- <-]; lia.
Qed.

Lemma leading_continuation (b : Z) : continuation b = true -> leading b = None.
Proof.
  unfold continuation, leading. intros H.
  repeat match goal with
         | |- context [if ?b then _ else _] => destruct b eqn:?
         end; try reflexivity; lia.
Qed.

Lemma decode_continuation (c : ascii) (s : string) :
  continuation (byteOf c) = true ->
  DecodeRuneInString (String c s) = (RuneError, 1%nat).
Proof.
  intros H. unfold DecodeRuneInString.
  rewrite (leading_continuation _ H).
  unfold continuation, RuneSelf in *.
  destruct (byteOf c <? 128) eqn:E; [lia|reflexivity].
Qed.

Lemma decode_ascii (c : ascii) (s : string) :
  (byteOf c <? RuneSelf) = true ->
  DecodeRuneInString (String c s) = (byteOf c, 1%nat).
Proof. intros H. unfold DecodeRuneInString. now rewrite H. Qed.

(** A decoded rune takes one to four bytes, and the bytes after the first
    are continuation bytes. *)
Lemma decode_width (c : ascii) (s : string) (r : Z) (width : nat) :
  DecodeRuneInString (String c s) = (r, width) ->
  (1 <= width)%nat /\ pending (width - 1) s = true /\
  (width - 1 <= String.length s)%nat.
Proof.
  unfold DecodeRuneInString.
  destruct (byteOf c <? RuneSelf); [intros [= <- <-]; cbn; repeat split; lia|].
  destruct (leading (byteOf c)) as [[[sz lo] hi]|] eqn:Hl;
    [|intros [= <- <-]; cbn; repeat split; lia].
  apply leading_spec in Hl as (Hsz & Hlo & Hhi & _).
  assert (Hc : forall b, (b <? lo) || (hi <? b) = false -> continuation b = true)
    by (intros b Hb; unfold continuation; lia).
  destruct (Z.of_nat _ <? sz); [intros [= <- <-]; cbn; repeat split; lia|].
  destruct s as [|c1 s]; [intros [= <- <-]; cbn; repeat split; lia|].
  destruct (_ || _) eqn:H1; [intros [= <- <-]; cbn; repeat split; lia|].
  apply Hc in H1.
  destruct (sz <=? 2);
    [intros [= <- <-]; cbn; rewrite H1; repeat split; lia|].
  destruct s as [|c2 s]; [intros [= <- <-]; cbn; repeat split; lia|].
  destruct (continuation (byteOf c2)) eqn:H2; cbn [negb];
    [|intros [= <- <-]; cbn; repeat split; lia].
  destruct (sz <=? 3);
    [intros [= <- <-]; cbn; rewrite H1, H2; repeat split; lia|].
  destruct s as [|c3 s]; [intros [= <- <-]; cbn; repeat split; lia|].
  destruct (continuation (byteOf c3)) eqn:H3; cbn [negb];
    intros [= <- <-]; cbn; rewrite ?H1, ?H2, ?H3; repeat split; lia.
Qed.

(** Bytes added behind a string change the rune decoded at its start only
    when the string stops inside a sequence: it then decodes to the
    replacement character, and all its bytes after the first are
    continuation bytes. *)
Lemma decode_extended (c : ascii) (s post : string) :
  DecodeRuneInString (String c (s +:+ post)) = DecodeRuneInString (String c s) \/
  (DecodeRuneInString (String c s) = (RuneError, 1%nat) /\
   allBytes continuation s = true).
Proof.
  unfold DecodeRuneInString.
  destruct (byteOf c <? RuneSelf); [now left|].
  destruct (leading (byteOf c)) as [[[sz lo] hi]|] eqn:Hl; [|now left].
  apply leading_spec in Hl as (Hsz & Hlo & Hhi & _).
  assert (Hc : forall b, (b <? lo) || (hi <? b) = false -> continuation b = true)
    by (intros b Hb; unfold continuation; lia).
  destruct s as [|c1 s].
  { right. cbn [String.length]. destruct (Z.ltb_spec (Z.of_nat 1) sz); [|lia].
    now split. }
  rewrite !append_cons. cbn [String.length].
  destruct ((byteOf c1 <? lo) || (hi <? byteOf c1)) eqn:H1.
  { left. now destruct (_ <? sz), (_ <? sz). }
  apply Hc in H1.
  destruct (Z.leb_spec sz 2).
  { left. destruct (Z.ltb_spec (Z.of_nat (S (S (String.length (s +:+ post))))) sz);
      [lia|].
    destruct (Z.ltb_spec (Z.of_nat (S (S (String.length s)))) sz); [lia|].
    reflexivity. }
  destruct s as [|c2 s].
  { right. cbn [String.length allBytes]. rewrite H1.
    destruct (Z.ltb_spec (Z.of_nat 2) sz); [|lia]. now split. }
  rewrite !append_cons. cbn [String.length].
  destruct (continuation (byteOf c2)) eqn:H2; cbn [negb].
  2:{ left. now destruct (_ <? sz), (_ <? sz). }
  destruct (Z.leb_spec sz 3).
  { left.
    destruct (Z.ltb_spec (Z.of_nat (S (S (S (String.length (s +:+ post)))))) sz);
      [lia|].
    destruct (Z.ltb_spec (Z.of_nat (S (S (S (String.length s))))) sz); [lia|].
    reflexivity. }
  destruct s as [|c3 s].
  { right. cbn [String.length allBytes]. rewrite H1, H2.
    destruct (Z.ltb_spec (Z.of_nat 3) sz); [|lia]. now split. }
  rewrite !append_cons. cbn [String.length].
  left.
  destruct (Z.ltb_spec
              (Z.of_nat (S (S (S (S (String.length (s +:+ post))))))) sz); [lia|].
  destruct (Z.ltb_spec (Z.of_nat (S (S (S (S (String.length s)))))) sz); [lia|].
  reflexivity.
Qed.

Lemma allBytes_app (p : Z -> bool) (a b : string) :
  allBytes p (a +:+ b) = allBytes p a && allBytes p b.
Proof.
  induction a as [|x a IH]; [reflexivity|].
  rewrite append_cons. cbn [allBytes]. now rewrite IH, andb_assoc.
Qed.

Lemma pending_app (k : nat) (s post : string) :
  pending k (s +:+ post) = true -> pending k s = true.
Proof.
  revert s. induction k as [|k IH]; intros [|c s]; try reflexivity.
  rewrite append_cons. cbn [pending].
  intros [-> Hp]%andb_true_iff. now rewrite (IH _ Hp).
Qed.

(** ** Substrings made of ASCII bytes *)

Lemma HasPrefix_beyond (g a : ascii) (s t : string) :
  beyondAscii (byteOf g) = true -> isAsciiByte (byteOf a) = true ->
  HasPrefix (String g s) (String a t) = false.
Proof.
  intros Hg Ha. cbn [HasPrefix].
  destruct (Ascii.eqb_spec g a) as [->|_]; [|reflexivity].
  unfold beyondAscii, isAsciiByte in *. lia.
Qed.

Lemma Contains_skip (G Z : string) (a : ascii) (t : string) :
  allBytes beyondAscii G = true -> isAsciiByte (byteOf a) = true ->
  Contains (G +:+ Z) (String a t) = true -> Contains Z (String a t) = true.
Proof.
  intros HG Ha. induction G as [|g G IH]; [auto|].
  cbn [allBytes] in HG. apply andb_true_iff in HG as [Hg HG].
  rewrite append_cons. cbn [Contains].
  rewrite (HasPrefix_beyond g a _ t Hg Ha). cbn [orb]. auto.
Qed.

Lemma HasPrefix_cut (G : string) :
  allBytes beyondAscii G = true ->
  forall t M : string,
    allBytes isAsciiByte t = true ->
    HasPrefix (M +:+ G) t = true -> HasPrefix M t = true.
Proof.
  intros HG t.
  induction t as [|a t IH]; intros M Ht Hp; [now destruct M|].
  cbn [allBytes] in Ht. apply andb_true_iff in Ht as [Ha Ht].
  destruct M as [|m M].
  - exfalso. change ("" +:+ G) with G in Hp.
    destruct G as [|g G]; [discriminate Hp|].
    cbn [allBytes] in HG. apply andb_true_iff in HG as [Hg _].
    now rewrite (HasPrefix_beyond g a G t Hg Ha) in Hp.
  - rewrite append_cons in Hp. cbn [HasPrefix] in *.
    apply andb_true_iff in Hp as [-> Hp]. cbn [andb]. now apply IH.
Qed.

Lemma Contains_cut (G M : string) (a : ascii) (t : string) :
  allBytes beyondAscii G = true ->
  allBytes isAsciiByte (String a t) = true ->
  Contains (M +:+ G) (String a t) = true -> Contains M (String a t) = true.
Proof.
  intros HG Ht.
  assert (Ha : isAsciiByte (byteOf a) = true)
    by (cbn [allBytes] in Ht; now apply andb_true_iff in Ht as [? _]).
  induction M as [|m M IH]; intros Hc.
  - change ("" +:+ G) with G in Hc. rewrite <- (append_nil_r G) in Hc.
    now apply (Contains_skip G "" a t HG Ha) in Hc.
  - rewrite append_cons in Hc. cbn [Contains] in *.
    apply orb_true_iff in Hc as [Hp|Hc].
    + rewrite <- append_cons in Hp.
      now rewrite (HasPrefix_cut G HG _ _ Ht Hp).
    + rewrite (IH Hc). apply orb_true_r.
Qed.

End Utf8Facts.

(** ** Lower case *)

Section CaseFacts.
Import search_terms.

Context {tables : CaseTables}.

Lemma written_RuneError :
  written (unicodeToLower RuneError)
    = String (toByte 0xEF) (String (toByte 0xBF) (String (toByte 0xBD) "")).
Proof.
  unfold unicodeToLower. change (RuneError <=? MaxASCII) with false. cbv iota.
  now rewrite toLowerCase_RuneError.
Qed.

Lemma written_ascii (c : ascii) :
  (byteOf c <? RuneSelf) = true ->
  written (unicodeToLower (byteOf c)) = String (lowerAscii c) "".
Proof.
  destruct c as [[] [] [] [] [] [] [] []]; intros Hc;
    first [discriminate Hc | reflexivity].
Qed.

Lemma mapFrom_continuation (c : ascii) (s : string) :
  continuation (byteOf c) = true ->
  mapFrom unicodeToLower 0 (String c s)
    = String (toByte 0xEF) (String (toByte 0xBF) (String (toByte 0xBD)
        (mapFrom unicodeToLower 0 s))).
Proof.
  intros Hc. cbn [mapFrom]. rewrite (decode_continuation c s Hc).
  now rewrite written_RuneError.
Qed.

Lemma mapFrom_ascii (c : ascii) (s : string) :
  (byteOf c <? RuneSelf) = true ->
  mapFrom unicodeToLower 0 (String c s)
    = String (lowerAscii c) (mapFrom unicodeToLower 0 s).
Proof.
  intros Hc. cbn [mapFrom]. rewrite (decode_ascii c s Hc).
  now rewrite (written_ascii c Hc).
Qed.

Lemma mapFrom_all_continuation :
  forall (s : string) (skip : nat),
    allBytes continuation s = true ->
    allBytes beyondAscii (mapFrom unicodeToLower skip s) = true.
Proof.
  induction s as [|c s IH]; intros skip Hs; [reflexivity|].
  cbn [allBytes] in Hs. apply andb_true_iff in Hs as [Hc Hs].
  destruct skip as [|skip]; [|exact (IH skip Hs)].
  rewrite (mapFrom_continuation c s Hc). cbn [allBytes].
  rewrite (IH 0%nat Hs). reflexivity.
Qed.

(** Skipping pending continuation bytes loses no ASCII substring: alone,
    each of them is replaced by a character beyond ASCII. *)
Lemma mapFrom_pending (a : ascii) (t : string) :
  isAsciiByte (byteOf a) = true ->
  forall (skip : nat) (s : string),
    pending skip s = true ->
    Contains (mapFrom unicodeToLower 0 s) (String a t) = true ->
    Contains (mapFrom unicodeToLower skip s) (String a t) = true.
Proof.
  intros Ha skip.
  induction skip as [|skip IH]; intros s Hp Hc; [exact Hc|].
  destruct s as [|c s]; [exact Hc|].
  cbn [pending] in Hp. apply andb_true_iff in Hp as [Hcont Hp].
  rewrite (mapFrom_continuation c s Hcont) in Hc.
  apply (Contains_skip
           (String (toByte 0xEF) (String (toByte 0xBF) (String (toByte 0xBD) "")))
           _ a t eq_refl Ha) in Hc.
  exact (IH s Hp Hc).
Qed.

(** What is written for a string that follows other text ends with what is
    written for the string itself, up to continuation bytes at its start
    that complete a sequence begun before it. *)
Lemma mapFrom_after :
  forall (pre : string) (skip : nat) (s : string),
    pending skip (pre +:+ s) = true ->
    exists (out : string) (skip' : nat),
      mapFrom unicodeToLower skip (pre +:+ s)
        = out +:+ mapFrom unicodeToLower skip' s /\
      pending skip' s = true.
Proof.
  induction pre as [|c pre IH]; intros skip s Hp.
  - exists ""%string, skip. now split.
  - rewrite append_cons in *. destruct skip as [|skip].
    + cbn [mapFrom].
      destruct (DecodeRuneInString (String c (pre +:+ s))) as [r width] eqn:Hd.
      apply decode_width in Hd as (_ & Hpend & _).
      destruct (IH _ s Hpend) as (out & skip' & -> & Hp').
      exists (written (unicodeToLower r) +:+ out), skip'.
      split; [now rewrite append_assoc|exact Hp'].
    + cbn [pending] in Hp. apply andb_true_iff in Hp as [_ Hp].
      cbn [mapFrom]. exact (IH skip s Hp).
Qed.

(** What is written for a string followed by other text starts with what is
    written for the string alone, up to the replacement characters of a
    sequence that the string leaves unfinished. *)
Lemma mapFrom_before (post : string) :
  forall (s : string) (skip : nat),
    exists kept dropped rest : string,
      mapFrom unicodeToLower skip s = kept +:+ dropped /\
      mapFrom unicodeToLower skip (s +:+ post) = kept +:+ rest /\
      allBytes beyondAscii dropped = true /\
      (dropped = ""%string ->
       rest = mapFrom unicodeToLower (skip - String.length s) post).
Proof.
  induction s as [|c s IH]; intros skip.
  - exists ""%string, ""%string, (mapFrom unicodeToLower skip post).
    repeat split. cbn [String.length]. now rewrite Nat.sub_0_r.
  - rewrite append_cons. destruct skip as [|skip].
    + destruct (decode_extended c s post) as [Hsame|[Hcut Hcont]].
      * cbn [mapFrom]. rewrite Hsame.
        destruct (DecodeRuneInString (String c s)) as [r width] eqn:Hd.
        apply decode_width in Hd as (_ & _ & Hlen).
        destruct (IH (width - 1)%nat) as (kept & dropped & rest & -> & -> & Hb & Hr).
        exists (written (unicodeToLower r) +:+ kept), dropped, rest.
        rewrite !append_assoc. repeat split; [exact Hb|].
        intros Hd. rewrite (Hr Hd). cbn [String.length].
        now replace (width - 1 - String.length s)%nat with 0%nat by lia.
      * exists ""%string, (mapFrom unicodeToLower 0 (String c s)),
          (mapFrom unicodeToLower 0 (String c (s +:+ post))).
        repeat split.
        -- cbn [mapFrom]. rewrite Hcut, written_RuneError.
           cbn [Nat.sub]. rewrite !append_cons. cbn [allBytes].
           change ("" +:+ mapFrom unicodeToLower 0 s)
             with (mapFrom unicodeToLower 0 s).
           now rewrite (mapFrom_all_continuation s 0 Hcont).
        -- cbn [mapFrom]. rewrite Hcut, written_RuneError.
           rewrite !append_cons. discriminate.
    + cbn [mapFrom String.length Nat.sub]. exact (IH skip).
Qed.

Lemma lowerBytes_fixed (s : string) : hasUpper s = false -> lowerBytes s = s.
Proof.
  induction s as [|c s IH]; [reflexivity|]. cbn [hasUpper lowerBytes].
  intros [Hc Hs]%orb_false_iff. unfold lowerAscii. now rewrite Hc, (IH Hs).
Qed.

Lemma Map_ascii (s : string) :
  isASCII s = true -> Map unicodeToLower s = lowerBytes s.
Proof.
  unfold Map. induction s as [|c s IH]; [reflexivity|]. cbn [isASCII].
  intros [Hc Hs]%andb_true_iff.
  rewrite (mapFrom_ascii c s Hc). cbn [lowerBytes]. now rewrite (IH Hs).
Qed.

(** The test for ASCII in [strings.ToLower] only saves work. *)
Lemma ToLower_Map (s : string) : ToLower s = Map unicodeToLower s.
Proof.
  unfold ToLower. destruct (isASCII s) eqn:Ha; [|reflexivity].
  rewrite (Map_ascii s Ha).
  destruct (hasUpper s) eqn:Hu; [reflexivity|].
  symmetry. now apply lowerBytes_fixed.
Qed.

Lemma Contains_in_app (pre s post t : string) :
  Contains s t = true -> Contains (pre +:+ s +:+ post) t = true.
Proof.
  intros (a & b & ->)%Contains_inv.
  rewrite !append_assoc, <- (append_assoc pre a). apply Contains_app.
Qed.

(** An ASCII text found in the lower-case form of a string is found in the
    lower-case form of any text that holds the string. *)
Lemma ToLower_embedded (pre s post : string) (a : ascii) (t : string) :
  allBytes isAsciiByte (String a t) = true ->
  Contains (ToLower s) (String a t) = true ->
  Contains (ToLower (pre +:+ s +:+ post)) (String a t) = true.
Proof.
  intros Ht. rewrite !ToLower_Map. unfold Map. intros Hc.
  assert (Ha : isAsciiByte (byteOf a) = true)
    by (cbn [allBytes] in Ht; now apply andb_true_iff in Ht as [? _]).
  destruct (mapFrom_after pre 0 (s +:+ post) eq_refl) as (out & skip & -> & Hp).
  destruct (mapFrom_before post s skip) as (kept & dropped & rest & Hs & -> & Hb & _).
  assert (Hk : Contains kept (String a t) = true).
  { apply (Contains_cut dropped kept a t Hb Ht). rewrite <- Hs.
    apply (mapFrom_pending a t Ha skip s (pending_app _ _ _ Hp) Hc). }
  exact (Contains_in_app out kept rest _ Hk).
Qed.

Lemma allBytes_ascii_beyond (s : string) :
  allBytes isAsciiByte s = true -> allBytes beyondAscii s = true ->
  s = ""%string.
Proof.
  destruct s as [|c s]; [reflexivity|]. cbn [allBytes].
  intros [Ha _]%andb_true_iff [Hb _]%andb_true_iff.
  unfold isAsciiByte, beyondAscii in *. lia.
Qed.

(** A string whose lower-case form is ASCII is lowered on its own inside a
    longer text. *)
Lemma ToLower_app_ascii (s post : string) :
  allBytes isAsciiByte (ToLower s) = true ->
  ToLower (s +:+ post) = ToLower s +:+ ToLower post.
Proof.
  rewrite !ToLower_Map. unfold Map. intros Hs.
  destruct (mapFrom_before post s 0) as (kept & dropped & rest & E & -> & Hb & Hr).
  rewrite E, allBytes_app in Hs. apply andb_true_iff in Hs as [_ Hd].
  pose proof (allBytes_ascii_beyond dropped Hd Hb) as ->.
  rewrite E, append_nil_r, (Hr eq_refl). reflexivity.
Qed.

End CaseFacts.

Module jira_facts.
Import jira search_terms.

Section Facts.

Context {tables : CaseTables}.

(** The bounding check holds exactly when the lowered query has a lowered
    vocabulary term as a substring. *)
Lemma isJQLBounded_spec (jql : string) :
  isJQLBounded jql = true <->
  exists term pre post,
    In term boundingTerms /\ ToLower jql = pre +:+ ToLower term +:+ post.
Proof.
  unfold isJQLBounded. rewrite existsb_exists. split.
  - intros (term & Hin & Hc). apply Contains_inv in Hc as (pre & post & E).
    now exists term, pre, post.
  - intros (term & pre & post & Hin & E). exists term. split; [exact Hin|].
    rewrite E. apply Contains_app.
Qed.

(** The lower-case form of a vocabulary term is a non-empty ASCII text. *)
Lemma boundingTerms_ascii (term : string) :
  In term boundingTerms ->
  exists (a : ascii) (t : string),
    ToLower term = String a t /\ allBytes isAsciiByte (String a t) = true.
Proof.
  assert (Hall : forallb
            (fun term => match ToLower term with
                         | EmptyString => false
                         | String a t => allBytes isAsciiByte (String a t)
                         end) boundingTerms = true) by reflexivity.
  rewrite forallb_forall in Hall. intros Hin. specialize (Hall term Hin).
  destruct (ToLower term) as [|a t]; [discriminate Hall|]. now exists a, t.
Qed.

Lemma isJQLBounded_fragment (pre frag post term : string) :
  In term boundingTerms -> ToLower frag = ToLower term ->
  isJQLBounded (pre +:+ frag +:+ post) = true.
Proof.
  intros Hin E. unfold isJQLBounded. apply existsb_exists.
  exists term. split; [exact Hin|].
  destruct (boundingTerms_ascii term Hin) as (a & t & Ht & Hascii).
  rewrite Ht. apply ToLower_embedded; [exact Hascii|].
  rewrite E, Ht. apply Contains_refl.
Qed.

Lemma isJQLBounded_default (rest : string) :
  isJQLBounded ("created >= -90d" +:+ rest) = true.
Proof.
  apply (isJQLBounded_fragment "" "created >=" (" -90d" +:+ rest) "created >=");
    [now left | reflexivity].
Qed.

Lemma boundJQL_bounded (jql ver : string) :
  isJQLBounded jql = true -> boundJQL jql ver = jql.
Proof.
  intros Hb. unfold boundJQL. rewrite Hb. simpl. now destruct (String.eqb _ _).
Qed.

Lemma boundJQL_v3_bounded (jql : string) :
  isJQLBounded (boundJQL jql apiVersion3) = true.
Proof.
  unfold boundJQL. simpl (String.eqb apiVersion3 apiVersion3).
  destruct (isJQLBounded jql) eqn:B; simpl; [exact B|].
  destruct (String.eqb jql "").
  - apply (isJQLBounded_default "").
  - apply (isJQLBounded_default (" AND (" +:+ jql +:+ ")")).
Qed.

Lemma boundJQL_other (jql ver : string) :
  ver <> apiVersion3 -> boundJQL jql ver = jql.
Proof.
  intros Hv. unfold boundJQL. apply String.eqb_neq in Hv. now rewrite Hv.
Qed.

(** A letter beyond ASCII counts when its lower-case form is an ASCII
    letter: under case tables that lower the Kelvin sign (U+212A) to [k],
    as those of Go do, the query written with that sign is bounded by its
    [key =] and is sent as it is. *)
Lemma kelvin_sign_counts :
  toLowerCase 0x212A = 0x6B ->
  ToLower fixtures.kelvinQuery = "key = abc-1"%string /\
  isJQLBounded fixtures.kelvinQuery = true /\
  boundJQL fixtures.kelvinQuery apiVersion3 = fixtures.kelvinQuery.
Proof.
  intros Hk.
  assert (E : ToLower fixtures.kelvinQuery = "key = abc-1"%string).
  { unfold ToLower. change (isASCII fixtures.kelvinQuery) with false. cbv iota.
    unfold Map, fixtures.kelvinQuery.
    lazy -[toLowerCase]. rewrite Hk. reflexivity. }
  assert (Hb : isJQLBounded fixtures.kelvinQuery = true)
    by (unfold isJQLBounded; rewrite E; reflexivity).
  split; [exact E|]. split; [exact Hb|]. now apply boundJQL_bounded.
Qed.

(** C7. For the modern dialect the query sent for the empty string is
    exactly "created >= -90d"; for "assignee = bob" it is
    "created >= -90d AND (assignee = bob)"; every non-empty query that fails
    the bounding check is wrapped the same way; and a query in which a
    vocabulary fragment occurs (in any letter case, the letters read as
    [strings.ToLower] reads them) is sent unchanged. *)
Theorem bound_synthesis :
  boundJQL "" apiVersion3 = "created >= -90d"%string /\
  boundJQL "assignee = bob" apiVersion3
    = "created >= -90d AND (assignee = bob)"%string /\
  (forall q : string, q <> ""%string -> isJQLBounded q = false ->
     boundJQL q apiVersion3 = "created >= -90d AND (" +:+ q +:+ ")") /\
  (forall pre frag post term : string,
     In term boundingTerms -> ToLower frag = ToLower term ->
     boundJQL (pre +:+ frag +:+ post) apiVersion3 = pre +:+ frag +:+ post).
Proof.
  split; [reflexivity|]. split; [reflexivity|]. split.
  - intros q Hne Hb. unfold boundJQL. rewrite Hb.
    apply String.eqb_neq in Hne. now rewrite Hne.
  - intros pre frag post term Hin E. apply boundJQL_bounded.
    now apply (isJQLBounded_fragment pre frag post term).
Qed.

(** C8. A query that passes the bounding check is returned unchanged; the
    query produced for the modern dialect passes the check; hence applying
    the transformation twice gives the same query as applying it once. *)
Theorem bounding_idempotent (q ver : string) :
  (isJQLBounded q = true -> boundJQL q ver = q) /\
  isJQLBounded (boundJQL q apiVersion3) = true /\
  boundJQL (boundJQL q ver) ver = boundJQL q ver.
Proof.
  split; [apply boundJQL_bounded|]. split; [apply boundJQL_v3_bounded|].
  destruct (String.eqb ver apiVersion3) eqn:E.
  - apply String.eqb_eq in E. subst ver.
    apply boundJQL_bounded, boundJQL_v3_bounded.
  - apply String.eqb_neq in E. now rewrite !boundJQL_other.
Qed.

End Facts.

Section Examples.

#[local] Existing Instance fixtures.sampleTables.

Lemma bound_synthesis_witness :
  boundJQL "status = Open" apiVersion3
    = "created >= -90d AND (status = Open)"%string /\
  boundJQL "type = Bug AND Project IN (A, B)" apiVersion3
    = "type = Bug AND Project IN (A, B)"%string.
Proof.
  destruct bound_synthesis as (_ & _ & Hwrap & Hkeep). split.
  - apply (Hwrap "status = Open"%string); [discriminate | reflexivity].
  - apply (Hkeep "type = Bug AND " "Project IN" " (A, B)" "project in")%string;
      [simpl; tauto | reflexivity].
Defined.

Lemma bounding_idempotent_witness :
  boundJQL "project = ABC" apiVersion3 = "project = ABC"%string /\
  boundJQL (boundJQL "assignee = bob" apiVersion3) apiVersion3
    = "created >= -90d AND (assignee = bob)"%string.
Proof.
  split.
  - exact (proj1 (bounding_idempotent "project = ABC" apiVersion3) eq_refl).
  - exact (proj2 (proj2 (bounding_idempotent "assignee = bob" apiVersion3))).
Defined.

End Examples.

End jira_facts.

Section MachineIntFacts.

Lemma wrapInt64_small (z : Z) : inInt64 z -> wrapInt64 z = z.
Proof.
  unfold inInt64, minInt64, maxInt64, wrapInt64. intros H.
  rewrite Z.mod_small; lia.
Qed.

Lemma wrapInt64_range (z : Z) : inInt64 (wrapInt64 z).
Proof.
  unfold inInt64, minInt64, maxInt64, wrapInt64.
  pose proof (Z.mod_pos_bound (z + 2 ^ 63) (2 ^ 64)). lia.
Qed.

Lemma addInt_small (a b : Z) : inInt64 (a + b) -> addInt a b = a + b.
Proof. apply wrapInt64_small. Qed.

Lemma len_nonneg {A : Type} (xs : list A) : 0 <= len xs.
Proof. unfold len. lia. Qed.

Lemma len_pos {A : Type} (xs : list A) : xs <> [] -> 0 < len xs.
Proof. destruct xs; [congruence | unfold len; simpl; lia]. Qed.

End MachineIntFacts.

Module search_facts.
Import jira fixtures.

Section WithDecoder.

Context {tables : CaseTables}.

Variable decodeSearchResult : string -> result SearchResult.

Lemma search_unfold (c : Client) (jql : string) (from limit : Z) (ver : string)
    (res : Response) :
  requested c jql from limit ver = (Some res, None) ->
  search decodeSearchResult c jql from limit ver =
    if negb (StatusCode res =? StatusOK) then Err (formatUnexpectedResponse res)
    else match decodeSearchResult (Body res) with
         | Err e => Err e
         | Ok out => Ok (approximateTotal ver from out)
         end.
Proof.
  unfold search. intros H. now rewrite H.
Qed.

(** C10. Whatever the dialect, a response whose status code is not exactly
    200 (201 and 204 included) makes [search] return the unexpected-response
    error and no result; a response with status 200 is the only one whose
    body is decoded. *)
Theorem search_non_200_is_error (c : Client) (jql : string) (from limit : Z)
    (ver : string) (res : Response) :
  requested c jql from limit ver = (Some res, None) ->
  (StatusCode res <> 200 ->
     search decodeSearchResult c jql from limit ver
       = Err (formatUnexpectedResponse res)) /\
  (StatusCode res = 200 ->
     search decodeSearchResult c jql from limit ver
       = match decodeSearchResult (Body res) with
         | Err e => Err e
         | Ok out => Ok (approximateTotal ver from out)
         end).
Proof.
  intros H. rewrite (search_unfold _ _ _ _ _ _ H). unfold StatusOK. split.
  - intros Hne. apply Z.eqb_neq in Hne. now rewrite Hne.
  - intros ->. reflexivity.
Qed.

(** C5, as amended.  For a modern-dialect response with status 200 that
    decodes to a page with total 0 and at least one issue, the result keeps
    every other field and has total [from + len(issues)] when [isLast] is
    set, provided that sum fits in an [int], and total 10000 when [isLast]
    is not set; a page decoded with a nonzero total is returned as it is. *)
Theorem total_approximation (c : Client) (jql : string) (from limit : Z)
    (res : Response) (out : SearchResult) :
  requested c jql from limit apiVersion3 = (Some res, None) ->
  StatusCode res = 200 ->
  decodeSearchResult (Body res) = Ok out ->
  inUint64 from ->
  (Total out = 0 -> Issues out <> [] ->
     exists r, search decodeSearchResult c jql from limit apiVersion3 = Ok r /\
       StartAt r = StartAt out /\ MaxResults r = MaxResults out /\
       Issues r = Issues out /\ NextPageToken r = NextPageToken out /\
       IsLast r = IsLast out /\
       (IsLast out = false -> Total r = 10000) /\
       (IsLast out = true -> from + len (Issues out) <= maxInt64 ->
          Total r = from + len (Issues out))) /\
  (Total out <> 0 ->
     search decodeSearchResult c jql from limit apiVersion3 = Ok out).
Proof.
  intros Hreq Hok Hdec Hfrom.
  rewrite (search_unfold _ _ _ _ _ _ Hreq), Hok, Hdec. simpl negb. cbv iota.
  unfold approximateTotal. simpl (String.eqb apiVersion3 apiVersion3).
  split.
  - intros Hz Hne. rewrite Hz. apply len_pos in Hne.
    apply Z.ltb_lt in Hne. rewrite Hne. simpl andb.
    destruct (IsLast out) eqn:L; eexists; (split; [reflexivity|]);
      simpl; repeat split; try congruence.
    intros _ Hfit. apply Z.ltb_lt in Hne. unfold inUint64 in Hfrom.
    assert (Hf : inInt64 from)
      by (unfold inInt64, minInt64, maxInt64 in *; lia).
    rewrite (wrapInt64_small _ Hf). apply addInt_small.
    unfold inInt64, minInt64, maxInt64 in *. lia.
  - intros Hnz. apply Z.eqb_neq in Hnz. now rewrite Hnz.
Qed.

End WithDecoder.

Section Examples.

#[local] Existing Instance sampleTables.

Lemma search_non_200_is_error_witness :
  search (fun _ => Ok page_without_total) (serve 204 "") "project = A" 0 50
    apiVersion2 = Err (ErrUnexpectedResponse 204 "") /\
  search (fun _ => Ok page_without_total) (serve 201 "") "project = A" 0 50
    apiVersion3 = Err (ErrUnexpectedResponse 201 "").
Proof.
  split.
  - apply (search_non_200_is_error _ (serve 204 "") "project = A" 0 50
             apiVersion2 (mkResponse 204 "")); [reflexivity | simpl; lia].
  - apply (search_non_200_is_error _ (serve 201 "") "project = A" 0 50
             apiVersion3 (mkResponse 201 "")); [reflexivity | simpl; lia].
Defined.

Lemma total_approximation_witness :
  exists r,
    search (fun _ => Ok page_without_total) (serve 200 "page") "project = A"
      100 50 apiVersion3 = Ok r /\ Total r = 102.
Proof.
  destruct (total_approximation (fun _ => Ok page_without_total)
              (serve 200 "page") "project = A" 100 50
              (mkResponse 200 "page") page_without_total)
    as [Hzero _]; try reflexivity.
  - unfold inUint64, maxUint64. lia.
  - destruct Hzero as (r & Hr & _ & _ & _ & _ & _ & _ & Htot);
      [reflexivity | discriminate |].
    exists r. split; [exact Hr|]. apply Htot; [reflexivity|].
    unfold maxInt64, len. simpl length. lia.
Defined.

(** C5, as stated, fails when the offset does not fit in an [int]: for the
    offset 2^63 the conversion [int(from)] is negative, and the total that
    comes back is not the offset plus the number of issues. *)
Lemma total_approximation_counterexample :
  exists r,
    search (fun _ => Ok page_without_total) (serve 200 "page") "project = A"
      (2 ^ 63) 50 apiVersion3 = Ok r /\
    Total r = - 2 ^ 63 + 2 /\
    Total r <> 2 ^ 63 + len (Issues page_without_total).
Proof.
  eexists. split; [reflexivity|]. split; [reflexivity|].
  vm_compute. discriminate.
Qed.

End Examples.

End search_facts.

(** * Properties of the reconstruction *)

Module lib_facts.
Import lib timeline.

(** ** The swap loop reverses the slice *)

Section ReverseInPlace.

Context {A : Type}.
Implicit Types l : list A.

Lemma swap_length l i j : length (swap l i j) = length l.
Proof.
  unfold swap. destruct (l !! i), (l !! j); try reflexivity.
  now rewrite !length_insert.
Qed.

Lemma swap_lookup l i j p :
  (i < length l)%nat -> (j < length l)%nat ->
  swap l i j !! p =
    if decide (p = j) then l !! i
    else if decide (p = i) then l !! j else l !! p.
Proof.
  intros Hi Hj. unfold swap.
  destruct (lookup_lt_is_Some_2 l i Hi) as [x Hx].
  destruct (lookup_lt_is_Some_2 l j Hj) as [y Hy].
  rewrite Hx, Hy.
  destruct (decide (p = j)) as [->|Hpj].
  - rewrite list_lookup_insert_eq; [reflexivity|]. now rewrite length_insert.
  - rewrite list_lookup_insert_ne by congruence.
    destruct (decide (p = i)) as [->|Hpi].
    + now rewrite list_lookup_insert_eq.
    + now rewrite list_lookup_insert_ne by congruence.
Qed.

Lemma swapLoop_length steps i l : length (swapLoop steps i l) = length l.
Proof.
  revert i l. induction steps as [|steps IH]; intros i l; simpl; [reflexivity|].
  now rewrite IH, swap_length.
Qed.

Lemma swapLoop_lookup steps i l p :
  (2 * (i + steps) <= length l)%nat -> (p < length l)%nat ->
  swapLoop steps i l !! p =
    if decide (mirrored (length l) i steps p)
    then l !! (length l - 1 - p)%nat else l !! p.
Proof.
  revert i l. induction steps as [|steps IH]; intros i l Hb Hp; simpl.
  - unfold mirrored. case_decide; [lia | reflexivity].
  - rewrite IH; rewrite ?swap_length; try lia.
    rewrite !swap_lookup by lia.
    unfold mirrored.
    repeat case_decide; try lia; try reflexivity; f_equal; lia.
Qed.

Lemma reverseInPlace_reverse l : reverseInPlace l = reverse l.
Proof.
  apply list_eq. intros p. unfold reverseInPlace.
  pose proof (Nat.div_mod_eq (length l) 2) as Hd.
  pose proof (Nat.mod_upper_bound (length l) 2) as Hm.
  destruct (decide (p < length l)%nat) as [Hp|Hp].
  - rewrite swapLoop_lookup by lia. rewrite reverse_lookup by lia.
    unfold mirrored. case_decide; f_equal; lia.
  - rewrite !lookup_ge_None_2; [reflexivity| |].
    + rewrite length_reverse. lia.
    + rewrite swapLoop_length. lia.
Qed.

End ReverseInPlace.

(** ** Time order *)

Lemma chronologicalb_spec (changes : list StatusChange) :
  chronologicalb changes = true <-> chronological changes.
Proof.
  induction changes as [|a rest IH].
  - split; [|reflexivity]. intros _ i x y H. discriminate H.
  - destruct rest as [|b rest].
    + split; [|reflexivity]. intros _ [|i] x y H1 H2; discriminate H2.
    + cbn [chronologicalb]. rewrite andb_true_iff, Z.leb_le, IH. split.
      * intros [Hab Hrest] [|i] x y H1 H2.
        -- simpl in H1, H2. congruence.
        -- exact (Hrest i x y H1 H2).
      * intros H. split.
        -- exact (H 0%nat a b eq_refl eq_refl).
        -- intros i x y H1 H2. exact (H (S i) x y H1 H2).
Qed.

(** A slice found newest first leaves the swap loop in time order. *)
Lemma reverseInPlace_newestFirst (changes : list StatusChange) :
  newestFirst changes -> chronological (reverseInPlace changes).
Proof.
  rewrite reverseInPlace_reverse. intros H i a b Ha Hb.
  apply reverse_lookup_Some in Ha as [Ha Hi].
  apply reverse_lookup_Some in Hb as [Hb Hi'].
  apply (H (length changes - S (S i))%nat b a); [exact Hb|].
  replace (S (length changes - S (S i))) with (length changes - S i)%nat by lia.
  exact Ha.
Qed.

(** ** The nested loops as one loop over the status items *)

Lemma pairsLoop_app (parse : string -> M Time)
    (p1 p2 : list (IssueHistory * HistoryItem)) (acc : list StatusChange) (s : St) :
  pairsLoop parse (p1 ++ p2) acc s =
    let '(acc', s') := pairsLoop parse p1 acc s in pairsLoop parse p2 acc' s'.
Proof.
  revert acc s. induction p1 as [|[h it] p1 IH]; intros acc s; simpl.
  - reflexivity.
  - unfold bind. destruct (parse (Created h) s) as [t s1]. apply IH.
Qed.

Lemma itemsLoop_pairs (parse : string -> M Time) (h : IssueHistory)
    (items : list HistoryItem) (acc : list StatusChange) (s : St) :
  itemsLoop parse h items acc s =
    pairsLoop parse
      (map (pair h)
         (List.filter (fun item => String.eqb (Field item) "status") items))
      acc s.
Proof.
  revert acc s. induction items as [|it items IH]; intros acc s; simpl.
  - reflexivity.
  - destruct (String.eqb (Field it) "status"); simpl.
    + unfold bind. destruct (parse (Created h) s) as [t s1]. apply IH.
    + apply IH.
Qed.

Lemma historiesLoop_pairs (parse : string -> M Time)
    (histories : list IssueHistory) (acc : list StatusChange) (s : St) :
  historiesLoop parse histories acc s
    = pairsLoop parse (statusItems histories) acc s.
Proof.
  revert acc s. induction histories as [|h hs IH]; intros acc s; simpl.
  - reflexivity.
  - unfold bind at 1. rewrite itemsLoop_pairs.
    unfold statusItems. simpl flat_map. rewrite pairsLoop_app.
    destruct (pairsLoop parse _ acc s) as [acc' s']. apply IH.
Qed.

(** Whatever the timestamps, the loops keep the labels of the items. *)
Lemma pairsLoop_FromStatus (parse : string -> M Time)
    (pairs : list (IssueHistory * HistoryItem)) (acc : list StatusChange) (s : St) :
  map FromStatus (fst (pairsLoop parse pairs acc s))
    = map FromStatus acc ++ map (fun p => FromString (snd p)) pairs.
Proof.
  revert acc s. induction pairs as [|[h it] pairs IH]; intros acc s; simpl.
  - now rewrite app_nil_r.
  - unfold bind. destruct (parse (Created h) s) as [t s1].
    rewrite IH, map_app. simpl.
    replace (FromStatus (statusChangeOf t h it)) with (FromString it)
      by (unfold statusChangeOf; now destruct (HAuthor h)).
    now rewrite <- app_assoc.
Qed.

Lemma parseContinuation_pure (w : World) (created : string) (s : St) :
  parseContinuation w created s = (continuationTime w created, s).
Proof.
  unfold parseContinuation, continuationTime.
  now destruct (IsZero _).
Qed.

Lemma pairsLoop_continuation (w : World)
    (pairs : list (IssueHistory * HistoryItem)) (acc : list StatusChange) (s : St) :
  pairsLoop (parseContinuation w) pairs acc s
    = (acc ++ map (continuationChange w) pairs, s).
Proof.
  revert acc. induction pairs as [|[h it] pairs IH]; intros acc; simpl.
  - now rewrite app_nil_r.
  - unfold bind. rewrite parseContinuation_pure, IH.
    now rewrite <- app_assoc.
Qed.

Lemma historiesLoop_continuation (w : World) (histories : list IssueHistory)
    (acc : list StatusChange) (s : St) :
  historiesLoop (parseContinuation w) histories acc s
    = (acc ++ map (continuationChange w) (statusItems histories), s).
Proof. now rewrite historiesLoop_pairs, pairsLoop_continuation. Qed.

Lemma parseEmbedded_parsed (w : World) (created : string) (t : Time) (s : St) :
  parseCreated w created = Some t -> parseEmbedded w created s = (t, s).
Proof.
  unfold parseCreated, parseEmbedded.
  destruct (parseRFC3339 w created); [now intros [= ->]|].
  now intros ->.
Qed.

(** When neither layout accepts the text, the embedded page takes the
    clock and a continuation page takes the zero time. *)
Lemma parseEmbedded_fallback (w : World) (created : string) (s : St) :
  parseRFC3339 w created = None -> parseMillis w created = None ->
  parseEmbedded w created s
    = (timeNow w (clockReads s), mkSt (requests s) (S (clockReads s))).
Proof. unfold parseEmbedded. now intros -> ->. Qed.

Lemma parseContinuation_fallback (w : World) (created : string) (s : St) :
  parseRFC3339 w created = None -> parseMillis w created = None ->
  parseContinuation w created s = (zeroTime, s).
Proof. unfold parseContinuation. now intros -> ->. Qed.

(** ** The pager, one request at a time *)

Lemma fetchLoop_step (fuel : nat) (w : World) (c : JiraClient) (issueKey : string)
    (currentStart : Z) (allChanges : list StatusChange) (s : St) :
  fetchLoop (S fuel) w c issueKey currentStart allChanges s =
    match answerAt c (changelogPath issueKey currentStart) s with
    | (_, Some e) => (Some (allChanges, Some e), afterRequest s)
    | (None, None) => (Some (allChanges, Some ErrEmpty), afterRequest s)
    | (Some httpRes, None) =>
        if negb (StatusCode httpRes =? StatusOK) then
          (Some (allChanges, Some (ErrStatusCode (StatusCode httpRes))),
           afterRequest s)
        else
          match decodeIssueChangelog w (Body httpRes) with
          | Err e => (Some (allChanges, Some e), afterRequest s)
          | Ok changelog =>
              let allChanges' :=
                allChanges ++ map (continuationChange w)
                                (statusItems (Histories changelog)) in
              let next := addInt currentStart (len (Histories changelog)) in
              if Total changelog <=? next
              then (Some (allChanges', None), afterRequest s)
              else fetchLoop fuel w c issueKey next allChanges' (afterRequest s)
          end
    end.
Proof.
  cbn [fetchLoop]. unfold bind at 1, answerAt, changelogPath, afterRequest.
  unfold httpGet at 1 2. cbn [fst].
  destruct (if String.eqb (installationType c) InstallationTypeLocal
            then _ else _) as [[httpRes|] [e|]]; try reflexivity.
  destruct (negb _); [reflexivity|].
  destruct (decodeIssueChangelog w (Body httpRes)) as [changelog|e];
    [|reflexivity].
  unfold bind. rewrite historiesLoop_continuation.
  now destruct (Total changelog <=? _).
Qed.

(** A run that has finished is not changed by more fuel. *)
Lemma fetchLoop_more_fuel (fuel extra : nat) (w : World) (c : JiraClient)
    (issueKey : string) (currentStart : Z) (allChanges : list StatusChange)
    (s s' : St) (r : list StatusChange * option error) :
  fetchLoop fuel w c issueKey currentStart allChanges s = (Some r, s') ->
  fetchLoop (fuel + extra) w c issueKey currentStart allChanges s = (Some r, s').
Proof.
  revert currentStart allChanges s.
  induction fuel as [|fuel IH]; intros currentStart allChanges s H.
  - discriminate H.
  - change (S fuel + extra)%nat with (S (fuel + extra)).
    rewrite fetchLoop_step in *.
    destruct (answerAt c _ s) as [[httpRes|] [e|]]; try exact H.
    destruct (negb _); [exact H|].
    destruct (decodeIssueChangelog w (Body httpRes)) as [changelog|e];
      [|exact H].
    cbv zeta in *. destruct (Total changelog <=? _); [exact H|].
    now apply IH.
Qed.

(** ** GetIssueStatusChanges, step by step *)

Lemma GetIssueStatusChanges_unfold (fuel : nat) (w : World) (c : JiraClient)
    (issueKey : string) (s : St) :
  GetIssueStatusChanges fuel w c issueKey s =
    let '(r, s1) := getIssueWithChangelog w c issueKey s in
    match r with
    | Err e =>
        (Some (Err (ErrWrap "failed to fetch issue with changelog" e)), s1)
    | Ok issue =>
        let '(collected, s2) := collectStatusChanges fuel w c issueKey issue s1 in
        match collected with
        | None => (None, s2)
        | Some statusChanges =>
            (Some (Ok (reverse (addInitialStatus w (Fields issue) statusChanges))),
             s2)
        end
    end.
Proof.
  unfold GetIssueStatusChanges, bind.
  destruct (getIssueWithChangelog w c issueKey s) as [[issue|e] s1];
    [|reflexivity].
  destruct (collectStatusChanges fuel w c issueKey issue s1)
    as [[statusChanges|] s2]; [|reflexivity].
  unfold ret. now rewrite reverseInPlace_reverse.
Qed.

(** Once the issue has been fetched, no error is returned: a call ends
    with a list or is still paging. *)
Lemma GetIssueStatusChanges_no_late_error (fuel : nat) (w : World)
    (c : JiraClient) (issueKey : string) (s s1 : St) (issue : IssueWithChangelog) :
  getIssueWithChangelog w c issueKey s = (Ok issue, s1) ->
  forall e s2,
    GetIssueStatusChanges fuel w c issueKey s <> (Some (Err e), s2).
Proof.
  intros H e s2. rewrite GetIssueStatusChanges_unfold, H.
  destruct (collectStatusChanges fuel w c issueKey issue s1) as [[l|] s3];
    discriminate.
Qed.

Lemma collectStatusChanges_embedded (fuel : nat) (w : World) (c : JiraClient)
    (issueKey : string) (issue : IssueWithChangelog) (cl : IssueChangelog) (s : St) :
  Changelog issue = Some cl ->
  Total cl <= addInt (StartAt cl) (MaxResults cl) ->
  collectStatusChanges fuel w c issueKey issue s =
    let '(changes, s') :=
      pairsLoop (parseEmbedded w) (statusItems (Histories cl)) [] s in
    (Some changes, s').
Proof.
  intros Hcl Htot. unfold collectStatusChanges. rewrite Hcl. unfold bind.
  rewrite historiesLoop_pairs.
  destruct (pairsLoop _ _ [] s) as [changes s'].
  apply Z.ltb_ge in Htot. now rewrite Htot.
Qed.

(** When the pager ends with an error, the caller keeps the changes of the
    embedded page alone, whatever the pager had gathered. *)
Lemma collectStatusChanges_pager_error (fuel : nat) (w : World) (c : JiraClient)
    (issueKey : string) (issue : IssueWithChangelog) (cl : IssueChangelog)
    (s s1 s2 : St) (embedded gathered : list StatusChange) (e : error) :
  Changelog issue = Some cl ->
  addInt (StartAt cl) (MaxResults cl) < Total cl ->
  historiesLoop (parseEmbedded w) (Histories cl) [] s = (embedded, s1) ->
  fetchAdditionalHistory fuel w c issueKey (MaxResults cl) s1
    = (Some (gathered, Some e), s2) ->
  collectStatusChanges fuel w c issueKey issue s = (Some embedded, s2).
Proof.
  intros Hcl Hmore Hemb Hpager. unfold collectStatusChanges.
  rewrite Hcl. unfold bind. rewrite Hemb.
  apply Z.ltb_lt in Hmore. now rewrite Hmore, Hpager.
Qed.

Lemma collectStatusChanges_pager_ok (fuel : nat) (w : World) (c : JiraClient)
    (issueKey : string) (issue : IssueWithChangelog) (cl : IssueChangelog)
    (s s1 s2 : St) (embedded gathered : list StatusChange) :
  Changelog issue = Some cl ->
  addInt (StartAt cl) (MaxResults cl) < Total cl ->
  historiesLoop (parseEmbedded w) (Histories cl) [] s = (embedded, s1) ->
  fetchAdditionalHistory fuel w c issueKey (MaxResults cl) s1
    = (Some (gathered, None), s2) ->
  collectStatusChanges fuel w c issueKey issue s
    = (Some (embedded ++ gathered), s2).
Proof.
  intros Hcl Hmore Hemb Hpager. unfold collectStatusChanges.
  rewrite Hcl. unfold bind. rewrite Hemb.
  apply Z.ltb_lt in Hmore. now rewrite Hmore, Hpager.
Qed.

Lemma addInitialStatus_none (w : World) (fields : IssueFields)
    (statusChanges : list StatusChange) (earliest : StatusChange) :
  last statusChanges = Some earliest -> FromStatus earliest = ""%string ->
  addInitialStatus w fields statusChanges = statusChanges.
Proof.
  intros Hl He. unfold addInitialStatus. rewrite Hl, He. simpl.
  destruct (_ && _); [|reflexivity].
  now destruct (parseCreated w _).
Qed.

(** ** The initial status *)

(** When the issue has been fetched, its changelog is whole on the
    embedded page and its creation time parses to T1:  a single status item
    from "To Do" to "In Progress" whose entry parses to T2 gives exactly two
    changes, first the synthetic one (no previous status, new status
    "To Do", time T1, author and display name the reporter's name) and then
    the transition at T2; and when the last status item met, the one taken
    for the earliest, has an empty previous status, the result is the
    reversed list of extracted changes with nothing added. *)
Lemma backfill_on_embedded_page (fuel : nat) (w : World) (c : JiraClient)
    (issueKey : string) (s s1 : St) (issue : IssueWithChangelog)
    (cl : IssueChangelog) (T1 : Time) :
  getIssueWithChangelog w c issueKey s = (Ok issue, s1) ->
  Changelog issue = Some cl ->
  Total cl <= addInt (StartAt cl) (MaxResults cl) ->
  FieldsCreated (Fields issue) <> ""%string ->
  parseCreated w (FieldsCreated (Fields issue)) = Some T1 ->
  (forall (h : IssueHistory) (it : HistoryItem) (T2 : Time),
     statusItems (Histories cl) = [(h, it)] ->
     FromString it = "To Do"%string -> ToString it = "In Progress"%string ->
     parseCreated w (Created h) = Some T2 ->
     let reporter := ReporterName (Fields issue) in
     let transition := statusChangeOf T2 h it in
     GetIssueStatusChanges fuel w c issueKey s =
       (Some (Ok [ mkStatusChange T1 reporter "" "To Do" "" reporter;
                   transition ]), s1) /\
     Timestamp transition = T2 /\
     FromStatus transition = "To Do"%string /\
     ToStatus transition = "In Progress"%string) /\
  (forall (h : IssueHistory) (it : HistoryItem),
     last (statusItems (Histories cl)) = Some (h, it) ->
     FromString it = ""%string ->
     GetIssueStatusChanges fuel w c issueKey s =
       let '(changes, s') :=
         historiesLoop (parseEmbedded w) (Histories cl) [] s1 in
       (Some (Ok (reverse changes)), s')).
Proof.
  intros Hfetch Hcl Htot Hcreated HT1. split.
  - intros h it T2 Hitems Hfrom Hto HT2 reporter transition.
    assert (Hlabels : FromStatus transition = "To Do"%string /\
                      ToStatus transition = "In Progress"%string /\
                      Timestamp transition = T2).
    { unfold transition, statusChangeOf.
      destruct (HAuthor h); simpl; now rewrite Hfrom, Hto. }
    destruct Hlabels as (Hf & Ht & Hts).
    split; [|now repeat split].
    rewrite GetIssueStatusChanges_unfold, Hfetch.
    rewrite (collectStatusChanges_embedded _ _ _ _ _ cl _ Hcl Htot), Hitems.
    cbn [pairsLoop]. unfold bind.
    rewrite (parseEmbedded_parsed _ _ _ _ HT2). cbn [ret app].
    fold transition. unfold addInitialStatus.
    apply String.eqb_neq in Hcreated. rewrite Hcreated, HT1.
    cbn [len length last]. rewrite Hf. cbn.
    destruct (String.eqb (ReporterName (Fields issue)) "") eqn:E;
      [|reflexivity].
    apply String.eqb_eq in E. unfold reporter. now rewrite E.
  - intros h it Hlast Hfrom.
    rewrite GetIssueStatusChanges_unfold, Hfetch.
    rewrite (collectStatusChanges_embedded _ _ _ _ _ cl _ Hcl Htot).
    rewrite historiesLoop_pairs.
    pose proof (pairsLoop_FromStatus (parseEmbedded w)
                  (statusItems (Histories cl)) [] s1) as Hmap.
    destruct (pairsLoop (parseEmbedded w) (statusItems (Histories cl)) [] s1)
      as [changes s'].
    cbn [fst map app] in Hmap.
    apply (f_equal last) in Hmap.
    change (map FromStatus changes) with (FromStatus <$> changes) in Hmap.
    change (map (fun p : IssueHistory * HistoryItem => FromString (snd p))
              (statusItems (Histories cl)))
      with ((fun p : IssueHistory * HistoryItem => FromString (snd p))
              <$> statusItems (Histories cl)) in Hmap.
    rewrite !fmap_last, Hlast in Hmap. cbn in Hmap. rewrite Hfrom in Hmap.
    destruct (last changes) as [earliest|] eqn:El; [|discriminate Hmap].
    injection Hmap as Hmap.
    now rewrite (addInitialStatus_none w _ changes earliest El Hmap).
Qed.

Lemma backfill_on_embedded_page_example :
  GetIssueStatusChanges 0 fixtures.oneTransitionWorld
      fixtures.oneTransitionClient "PROJ-5" start =
    (Some (Ok [ mkStatusChange 63839696400000000000 "bob" "" "To Do" "" "bob";
                mkStatusChange 63840045600000000000 "alice" "To Do"
                  "In Progress" "alice@example.com" "Alice" ]),
     mkSt 1 0).
Proof.
  destruct (backfill_on_embedded_page 0 fixtures.oneTransitionWorld
              fixtures.oneTransitionClient "PROJ-5" start (mkSt 1 0)
              fixtures.oneTransitionIssue fixtures.oneTransitionLog
              63839696400000000000)
    as [Hone _].
  - reflexivity.
  - reflexivity.
  - vm_compute. discriminate.
  - discriminate.
  - reflexivity.
  - destruct (Hone fixtures.oneTransition
                (fixtures.statusItem "To Do" "In Progress")
                63840045600000000000) as [Hrun _];
      [reflexivity .. | exact Hrun].
Qed.

(** ** Where the code departs from the stated behaviour *)

(** C1.  The reconstruction reverses the list it has collected and does not
    sort it.  For PROJ-1, whose server lists two histories oldest first, the
    call returns the synthetic entry (January 1), then the transition of
    January 3, then the transition of January 2: not in time order. *)
Theorem chronological_order_not_ensured :
  exists (changes : list StatusChange) (s : St),
    GetIssueStatusChanges 0 fixtures.oldestFirstWorld
      fixtures.oldestFirstClient "PROJ-1" start = (Some (Ok changes), s) /\
    map (fun change => Some (Timestamp change)) changes =
      [ fixtures.utcRFC3339 "2024-01-01T09:00:00Z";
        fixtures.utcRFC3339 "2024-01-03T10:00:00Z";
        fixtures.utcRFC3339 "2024-01-02T10:00:00Z" ] /\
    ~ chronological changes.
Proof.
  eexists. eexists. split; [vm_compute; reflexivity|].
  split; [vm_compute; reflexivity|].
  intros H. apply chronologicalb_spec in H. vm_compute in H. discriminate H.
Qed.

(** A server that goes on answering with an empty page below the declared
    total keeps the pager requesting the same offset for ever. *)
Lemma fetchLoop_empty_pages (w : World) (c : JiraClient) (issueKey : string)
    (currentStart : Z) (res : Response) (page : IssueChangelog) :
  inInt64 currentStart ->
  (forall s, answerAt c (changelogPath issueKey currentStart) s
               = (Some res, None)) ->
  StatusCode res = 200 ->
  decodeIssueChangelog w (Body res) = Ok page ->
  Histories page = [] ->
  currentStart < Total page ->
  forall (fuel : nat) (allChanges : list StatusChange) (s : St),
    fetchLoop fuel w c issueKey currentStart allChanges s
      = (None, mkSt (requests s + fuel) (clockReads s)).
Proof.
  intros Hcur Hans Hok Hdec Hempty Hlt fuel.
  induction fuel as [|fuel IH]; intros allChanges s.
  - cbn. unfold ret. destruct s. cbn. now rewrite Nat.add_0_r.
  - rewrite fetchLoop_step, Hans, Hok, Hdec, Hempty. cbn [negb Z.eqb].
    change (200 =? StatusOK) with true. cbn [negb].
    cbv zeta. unfold len. cbn [length Z.of_nat].
    unfold addInt. rewrite Z.add_0_r, (wrapInt64_small _ Hcur).
    apply Z.leb_gt in Hlt. rewrite Hlt, IH. unfold afterRequest. cbn.
    f_equal. f_equal. lia.
Qed.

(** Against a server that serves at least [P >= 1] histories per page, the
    pager returns without error after at most [n] requests, for any [n]
    with [T - currentStart <= n * P]: one request per [P] histories still
    to be retrieved. *)
Lemma fetchLoop_terminates (w : World) (c : JiraClient) (issueKey : string)
    (T P : Z) :
  1 <= P -> servesPages w c issueKey T P ->
  forall (n : nat) (currentStart : Z) (allChanges : list StatusChange) (s : St),
    minInt64 <= currentStart < T ->
    T - currentStart <= Z.of_nat n * P ->
    exists (changes : list StatusChange) (s' : St),
      fetchLoop n w c issueKey currentStart allChanges s
        = (Some (changes, None), s') /\
      (requests s < requests s' <= requests s + n)%nat.
Proof.
  intros HP Hserve n.
  induction n as [|n IH]; intros currentStart allChanges s Hcur Hleft.
  - lia.
  - destruct (Hserve currentStart s) as (res & page & Hans & Hok & Hdec & Htot & Hlen & Hfit);
      [lia|].
    rewrite fetchLoop_step, Hans, Hok, Hdec. change (200 =? StatusOK) with true.
    cbn [negb]. cbv zeta.
    rewrite addInt_small
      by (unfold inInt64, minInt64, maxInt64 in *;
          pose proof (len_nonneg (Histories page)); lia).
    rewrite Htot.
    destruct (T <=? currentStart + len (Histories page)) eqn:Hdone.
    + eexists. eexists. split; [reflexivity|].
      unfold afterRequest. cbn. lia.
    + apply Z.leb_gt in Hdone.
      destruct (IH (currentStart + len (Histories page))
                  (allChanges ++ map (continuationChange w)
                                   (statusItems (Histories page)))
                  (afterRequest s))
        as (changes & s' & Hrun & Hreq).
      * unfold minInt64 in *. lia.
      * nia.
      * exists changes, s'. split; [exact Hrun|].
        unfold afterRequest in Hreq. cbn in Hreq. lia.
Qed.

(** In particular the number of requests is at most the declared total
    divided by the page size, rounded up. *)
Lemma fetchAdditionalHistory_bound (w : World) (c : JiraClient)
    (issueKey : string) (T P startAt : Z) (s : St) :
  1 <= P -> servesPages w c issueKey T P -> 0 <= startAt < T ->
  exists (changes : list StatusChange) (s' : St),
    fetchAdditionalHistory (Z.to_nat ((T - startAt + P - 1) / P)) w c issueKey
        startAt s = (Some (changes, None), s') /\
    Z.of_nat (requests s' - requests s) <= (T + P - 1) / P.
Proof.
  intros HP Hserve Hstart. unfold fetchAdditionalHistory.
  set (q := (T - startAt + P - 1) / P).
  assert (Hq : T - startAt <= q * P /\ 0 <= q <= (T + P - 1) / P).
  { pose proof (Z.div_mod (T - startAt + P - 1) P ltac:(lia)) as Hd.
    pose proof (Z.mod_pos_bound (T - startAt + P - 1) P ltac:(lia)) as Hm.
    fold q in Hd. split; [nia|]. split.
    - apply Z.div_pos; lia.
    - apply Z.div_le_mono; lia. }
  destruct (fetchLoop_terminates w c issueKey T P HP Hserve (Z.to_nat q)
              startAt [] s) as (changes & s' & Hrun & Hreq).
  - unfold minInt64. lia.
  - rewrite Z2Nat.id by lia. lia.
  - exists changes, s'. split; [exact Hrun|]. lia.
Qed.

(** C2.  The pager has no test for a page without histories.  PROJ-4
    declares five histories, two of them on the embedded page, and every
    continuation request is answered by an empty page: whatever the number
    of iterations allowed, the pager has not returned and has issued one
    request per iteration, and so the reconstruction does not return. *)
Theorem pager_empty_page_never_stops (fuel : nat) :
  fetchAdditionalHistory fuel fixtures.emptyPagesWorld
      fixtures.emptyPagesClient "PROJ-4" 2 (mkSt 1 0)
    = (None, mkSt (1 + fuel) 0) /\
  GetIssueStatusChanges fuel fixtures.emptyPagesWorld
      fixtures.emptyPagesClient "PROJ-4" start
    = (None, mkSt (1 + fuel) 0).
Proof.
  assert (Hpager :
    fetchAdditionalHistory fuel fixtures.emptyPagesWorld
        fixtures.emptyPagesClient "PROJ-4" 2 (mkSt 1 0)
      = (None, mkSt (1 + fuel) 0)).
  { unfold fetchAdditionalHistory.
    rewrite (fetchLoop_empty_pages fixtures.emptyPagesWorld
               fixtures.emptyPagesClient "PROJ-4" 2
               (mkResponse 200 "empty page") fixtures.emptyPage);
      try reflexivity.
    unfold inInt64, minInt64, maxInt64. lia. }
  split; [exact Hpager|].
  rewrite GetIssueStatusChanges_unfold.
  change (getIssueWithChangelog fixtures.emptyPagesWorld
            fixtures.emptyPagesClient "PROJ-4" start)
    with (Ok fixtures.emptyPagesIssue, mkSt 1 0).
  cbv beta iota. unfold collectStatusChanges.
  change (Changelog fixtures.emptyPagesIssue)
    with (Some (mkIssueChangelog 0 2 5 (Histories
            (default fixtures.emptyPage (Changelog fixtures.emptyPagesIssue))))).
  cbv beta iota. unfold bind at 1.
  rewrite historiesLoop_pairs.
  destruct (pairsLoop _ _ [] (mkSt 1 0)) as [changes s'] eqn:E.
  vm_compute in E. injection E as <- <-.
  change (addInt _ _ <? _) with true. cbv iota. unfold bind.
  cbn [MaxResults]. rewrite Hpager. reflexivity.
Qed.

(** C3.  The pager hands back what it had gathered together with the
    error, and the caller drops both.  For PROJ-2 the second page is
    fetched and yields the transition to "In Review", the request for the
    third page fails; the call returns without error, after three requests,
    a list that holds the embedded page's transition and the synthetic
    entry but not the transition of the second page. *)
Theorem continuation_failure_drops_fetched_pages :
  fetchAdditionalHistory 2 fixtures.threePagesWorld
      fixtures.threePagesClient "PROJ-2" 1 (mkSt 1 0)
    = (Some ([fixtures.secondPageChange],
             Some (ErrTransport "connection reset")), mkSt 3 0) /\
  exists changes : list StatusChange,
    GetIssueStatusChanges 2 fixtures.threePagesWorld
        fixtures.threePagesClient "PROJ-2" start
      = (Some (Ok changes), mkSt 3 0) /\
    map ToStatus changes = ["In Review"; "Done"]%string /\
    ~ In fixtures.secondPageChange changes.
Proof.
  split; [vm_compute; reflexivity|].
  eexists. split; [vm_compute; reflexivity|].
  split; [reflexivity|].
  intros [H|[H|[]]]; vm_compute in H; discriminate H.
Qed.

(** C4.  The synthetic first entry is built from the changes the caller
    has kept and from the last of them, and both can miss the claim.
    For PROJ-9 the changelog holds one status item, from "To Do" to
    "In Progress": the pager fetches its page and hands the transition
    back together with the error of the next request, the caller drops
    both, and the call returns the empty list where two entries are
    promised.  For PROJ-10, whose server lists the histories oldest first,
    the earliest transition has no previous status, yet a synthetic entry
    is added: it is built from the last change collected, which is the
    latest one. *)
Theorem initial_status_not_backfilled :
  fetchAdditionalHistory 2 more_fixtures.lostItemWorld
      more_fixtures.lostItemClient "PROJ-9" 1 (mkSt 1 0)
    = (Some ([more_fixtures.lostItemChange],
             Some (ErrTransport "connection reset")), mkSt 3 0) /\
  GetIssueStatusChanges 2 more_fixtures.lostItemWorld
      more_fixtures.lostItemClient "PROJ-9" start
    = (Some (Ok []), mkSt 3 0) /\
  exists changes : list StatusChange,
    GetIssueStatusChanges 0 more_fixtures.noPreviousWorld
        more_fixtures.noPreviousClient "PROJ-10" start
      = (Some (Ok changes), mkSt 1 0) /\
    map (fun change => (Timestamp change, FromStatus change, ToStatus change))
        changes
      = [ (fixtures.at_ "2024-01-01T09:00:00Z", "", "To Do");
          (fixtures.at_ "2024-01-03T10:00:00Z", "To Do", "In Progress");
          (fixtures.at_ "2024-01-02T10:00:00Z", "", "To Do") ]%string.
Proof.
  split; [vm_compute; reflexivity|].
  split; [vm_compute; reflexivity|].
  eexists. split; vm_compute; reflexivity.
Qed.

(** C6.  On a continuation page a timestamp that neither layout accepts
    becomes the zero time, not the clock reading that the embedded page
    takes.  For PROJ-3 both pages carry such a text: the result holds the
    synthetic entry, then the continuation page's transition stamped with
    the zero time, then the embedded page's transition stamped with the
    first clock reading; no reading of the clock is the zero time. *)
Theorem continuation_timestamp_falls_back_to_zero :
  parseEmbedded fixtures.badTimesWorld "last monday" start
    = (fixtures.clock2026 0, mkSt 0 1) /\
  parseContinuation fixtures.badTimesWorld "last monday" start
    = (zeroTime, start) /\
  (exists changes : list StatusChange,
     GetIssueStatusChanges 1 fixtures.badTimesWorld
         fixtures.badTimesClient "PROJ-3" start
       = (Some (Ok changes), mkSt 2 1) /\
     map Timestamp changes =
       [ default 0 (fixtures.utcRFC3339 "2024-01-01T09:00:00Z");
         zeroTime; fixtures.clock2026 0 ]) /\
  (forall k : nat, fixtures.clock2026 k <> zeroTime).
Proof.
  split; [reflexivity|]. split; [reflexivity|]. split.
  - eexists. split; vm_compute; reflexivity.
  - intros k. unfold fixtures.clock2026, zeroTime.
    change (default 0 (fixtures.utcRFC3339 "2026-01-01T00:00:00Z"))
      with 63902822400000000000.
    lia.
Qed.

End lib_facts.

(** * Properties of the duration aggregator *)

Module status_facts.
Import lib status_tracking timeline.

Lemma Sub_exact (t u : Time) :
  minDuration <= t - u <= maxDuration -> Sub t u = t - u.
Proof.
  intros H. unfold Sub. rewrite (wrapInt64_small (t - u)) by exact H.
  replace (u + (t - u) =? t) with true; [reflexivity|].
  symmetry. apply Z.eqb_eq. lia.
Qed.

Lemma totalDuration_insert (m : gmap string Duration) (k : string) (v : Z) :
  totalDuration (<[k := v]> m) = totalDuration m - default 0 (m !! k) + v.
Proof.
  unfold totalDuration. destruct (m !! k) as [x|] eqn:E; cbn [default from_option id].
  - rewrite <- insert_delete_eq.
    rewrite map_fold_insert_L; [|intros; lia|apply lookup_delete_eq].
    rewrite (map_fold_delete_L _ _ k x m); [cbv beta; lia|intros; lia|exact E].
  - rewrite map_fold_insert_L; [cbv beta; lia|intros; lia|exact E].
Qed.

Lemma totalDuration_nonneg (m : gmap string Duration) :
  nonneg m -> 0 <= totalDuration m.
Proof.
  induction m as [|k v m Hk IH] using map_ind; intros Hnn.
  - unfold totalDuration. now rewrite map_fold_empty.
  - rewrite totalDuration_insert, Hk. cbn [default from_option id].
    assert (0 <= v) by (apply (Hnn k); apply lookup_insert_eq).
    assert (0 <= totalDuration m).
    { apply IH. intros j d Hj. apply (Hnn j).
      rewrite lookup_insert_ne; [exact Hj|]. intros ->. congruence. }
    lia.
Qed.

Lemma nonneg_delete (m : gmap string Duration) (k : string) :
  nonneg m -> nonneg (delete k m).
Proof.
  intros Hnn j d Hj. apply lookup_delete_Some in Hj as [_ Hj].
  exact (Hnn j d Hj).
Qed.

Lemma nonneg_entry_bounds (m : gmap string Duration) (k : string) :
  nonneg m -> 0 <= default 0 (m !! k) <= totalDuration m.
Proof.
  intros Hnn. destruct (m !! k) as [x|] eqn:E; cbn [default from_option id].
  - pose proof (Hnn k x E).
    pose proof (totalDuration_nonneg _ (nonneg_delete m k Hnn)) as Hd.
    assert (Ht : totalDuration m = x + totalDuration (delete k m)).
    { unfold totalDuration.
      rewrite (map_fold_delete_L _ _ k x m); [reflexivity|intros; lia|exact E]. }
    lia.
  - pose proof (totalDuration_nonneg m Hnn). lia.
Qed.

Lemma nonneg_insert (m : gmap string Duration) (k : string) (v : Z) :
  nonneg m -> 0 <= v -> nonneg (<[k := v]> m).
Proof.
  intros Hnn Hv j d Hj. apply lookup_insert_Some in Hj as [[_ <-]|[_ Hj]].
  - exact Hv.
  - exact (Hnn j d Hj).
Qed.

Lemma lookup_insert_default (m : gmap string Duration) (k status : string) (v : Z) :
  default 0 (<[k := v]> m !! status) =
    if String.eqb k status then v else default 0 (m !! status).
Proof.
  destruct (String.eqb_spec k status) as [->|Hne].
  - now rewrite lookup_insert_eq.
  - now rewrite lookup_insert_ne.
Qed.

Lemma chronological_cons (a b : StatusChange) (rest : list StatusChange) :
  chronological (a :: b :: rest) ->
  Timestamp a <= Timestamp b /\ chronological (b :: rest).
Proof.
  intros H. split.
  - exact (H 0%nat a b eq_refl eq_refl).
  - intros i x y Hx Hy. exact (H (S i) x y Hx Hy).
Qed.

Lemma chronological_lastTime (a : StatusChange) (rest : list StatusChange) :
  chronological (a :: rest) -> Timestamp a <= lastTime a rest.
Proof.
  revert a. induction rest as [|b rest IH]; intros a H.
  - unfold lastTime. cbn. lia.
  - apply chronological_cons in H as [Hab Hrest].
    specialize (IH b Hrest). unfold lastTime in *.
    rewrite last_cons. destruct (last rest); cbn [default from_option id] in *; lia.
Qed.

Lemma lastTime_cons (a b : StatusChange) (rest : list StatusChange) :
  lastTime a (b :: rest) = lastTime b rest.
Proof. unfold lastTime. rewrite last_cons. now destruct (last rest). Qed.

Lemma statusTimeLoop_last (now : Time) (change : StatusChange)
    (m : gmap string Duration) :
  statusTimeLoop now [change] m =
    <[ToStatus change :=
        addInt (default 0 (m !! ToStatus change)) (Sub now (Timestamp change))]> m.
Proof. reflexivity. Qed.

Lemma statusTimeLoop_next (now : Time) (change next : StatusChange)
    (rest : list StatusChange) (m : gmap string Duration) :
  statusTimeLoop now (change :: next :: rest) m =
    statusTimeLoop now (next :: rest)
      (<[ToStatus change :=
           addInt (default 0 (m !! ToStatus change))
             (Sub (Timestamp next) (Timestamp change))]> m).
Proof. reflexivity. Qed.

Lemma residencyOf_last (now : Time) (change : StatusChange) (status : string) :
  residencyOf status (residencies now [change]) =
    if String.eqb (ToStatus change) status then now - Timestamp change else 0.
Proof. cbn. now destruct (String.eqb _ _); rewrite Z.add_0_r. Qed.

Lemma residencyOf_next (now : Time) (change next : StatusChange)
    (rest : list StatusChange) (status : string) :
  residencyOf status (residencies now (change :: next :: rest)) =
    (if String.eqb (ToStatus change) status
     then Timestamp next - Timestamp change else 0)
    + residencyOf status (residencies now (next :: rest)).
Proof. reflexivity. Qed.

(** The loop, started on a map of non-negative durations, when the whole
    window fits in a duration: no subtraction saturates and no addition
    wraps, so the total grows by [now - timestamp(first)] and each status
    by its residencies. *)
Lemma statusTimeLoop_exact (now : Time) (rest : list StatusChange) :
  forall (change : StatusChange) (m : gmap string Duration),
    chronological (change :: rest) ->
    nonneg m ->
    totalDuration m + (Z.max now (lastTime change rest) - Timestamp change)
      <= maxDuration ->
    lastTime change rest - now <= maxDuration ->
    totalDuration (statusTimeLoop now (change :: rest) m)
      = totalDuration m + (now - Timestamp change) /\
    forall status : string,
      default 0 (statusTimeLoop now (change :: rest) m !! status)
        = default 0 (m !! status)
          + residencyOf status (residencies now (change :: rest)).
Proof.
  induction rest as [|next rest IH]; intros change m Hchr Hnn Hfit Hlate.
  - unfold lastTime in *. cbn [last default from_option id] in *.
    pose proof (nonneg_entry_bounds m (ToStatus change) Hnn) as Hv.
    rewrite statusTimeLoop_last.
    rewrite Sub_exact by (unfold minDuration, maxDuration, minInt64, maxInt64 in *; lia).
    rewrite addInt_small
      by (unfold inInt64, maxDuration, minInt64, maxInt64 in *; lia).
    split.
    + rewrite totalDuration_insert. lia.
    + intros status. rewrite lookup_insert_default, residencyOf_last.
      destruct (String.eqb_spec (ToStatus change) status) as [<-|_]; lia.
  - pose proof (chronological_lastTime _ _ Hchr) as Hlast.
    apply chronological_cons in Hchr as [Hle Hchr].
    pose proof (chronological_lastTime _ _ Hchr) as Hlast'.
    rewrite lastTime_cons in *.
    pose proof (nonneg_entry_bounds m (ToStatus change) Hnn) as Hv.
    pose proof (totalDuration_nonneg m Hnn) as Htot.
    rewrite statusTimeLoop_next.
    rewrite Sub_exact by (unfold minDuration, maxDuration, minInt64, maxInt64 in *; lia).
    rewrite addInt_small
      by (unfold inInt64, maxDuration, minInt64, maxInt64 in *; lia).
    set (m' := <[ToStatus change :=
                   default 0 (m !! ToStatus change)
                   + (Timestamp next - Timestamp change)]> m).
    assert (Htot' : totalDuration m'
                    = totalDuration m + (Timestamp next - Timestamp change)).
    { unfold m'. rewrite totalDuration_insert. lia. }
    destruct (IH next m') as [IHtotal IHeach].
    + exact Hchr.
    + apply nonneg_insert; [exact Hnn | lia].
    + lia.
    + exact Hlate.
    + split.
      * rewrite IHtotal. lia.
      * intros status. rewrite IHeach, residencyOf_next. unfold m'.
        rewrite lookup_insert_default.
        destruct (String.eqb_spec (ToStatus change) status) as [<-|_]; lia.
Qed.

(** C9, as amended.  For a timeline in time order with first entry [first]
    and last entry [final], when the window from the earlier of [now] and
    the first timestamp to the later of [now] and the last timestamp is no
    longer than the largest duration, the durations of the map add up to
    [now - timestamp(first)], and the duration of each status is the sum of
    the residencies of the entries that lead to it. *)
Theorem residency_sum (now : Time) (changes : list StatusChange)
    (first final : StatusChange) :
  head changes = Some first ->
  last changes = Some final ->
  chronological changes ->
  Z.max now (Timestamp final) - Z.min now (Timestamp first) <= maxDuration ->
  totalDuration (calculateStatusTime now changes) = now - Timestamp first /\
  forall status : string,
    default 0 (calculateStatusTime now changes !! status)
      = residencyOf status (residencies now changes).
Proof.
  intros Hhead Hlast Hchr Hfit.
  destruct changes as [|change rest]; [discriminate Hhead|].
  injection Hhead as ->.
  assert (Hfinal : lastTime first rest = Timestamp final).
  { unfold lastTime. rewrite last_cons in Hlast.
    destruct (last rest); cbn [default from_option id]; congruence. }
  unfold calculateStatusTime.
  destruct (statusTimeLoop_exact now rest first ∅) as [Htotal Heach].
  - exact Hchr.
  - intros k d Hk. rewrite lookup_empty in Hk. discriminate Hk.
  - rewrite Hfinal. unfold totalDuration. rewrite map_fold_empty. lia.
  - rewrite Hfinal. lia.
  - split.
    + rewrite Htotal. unfold totalDuration. rewrite map_fold_empty. lia.
    + intros status. rewrite Heach, lookup_empty. cbn [default from_option id]. lia.
Qed.

Lemma residency_sum_witness :
  totalDuration
    (calculateStatusTime (fixtures.clock2026 0) fixtures.reopenedTimeline)
    = fixtures.clock2026 0 - fixtures.at_ "2024-01-01T09:00:00Z" /\
  default 0 (calculateStatusTime (fixtures.clock2026 0)
               fixtures.reopenedTimeline !! "To Do"%string)
    = (fixtures.at_ "2024-01-05T10:00:00Z" - fixtures.at_ "2024-01-01T09:00:00Z")
      + (fixtures.at_ "2024-01-09T10:00:00Z" - fixtures.at_ "2024-01-08T10:00:00Z").
Proof.
  destruct (residency_sum (fixtures.clock2026 0) fixtures.reopenedTimeline
              (fixtures.step "2024-01-01T09:00:00Z" "" "To Do")
              (fixtures.step "2024-01-09T10:00:00Z" "To Do" "In Progress"))
    as [Htotal Heach].
  - reflexivity.
  - reflexivity.
  - apply lib_facts.chronologicalb_spec. reflexivity.
  - vm_compute. discriminate.
  - split; [exact Htotal|]. rewrite Heach. reflexivity.
Defined.

(** C9, as stated, fails on a timeline in time order whose window is longer
    than the largest duration: with a first entry at the zero time, the
    subtraction for that entry saturates, and the durations of the map do
    not add up to [now - timestamp(first)]. *)
Lemma residency_sum_counterexample :
  chronological fixtures.zeroStampedTimeline /\
  (1 <= length fixtures.zeroStampedTimeline)%nat /\
  calculateStatusTime (fixtures.clock2026 0) fixtures.zeroStampedTimeline
    !! "In Progress"%string = Some maxDuration /\
  totalDuration
    (calculateStatusTime (fixtures.clock2026 0) fixtures.zeroStampedTimeline)
    <> fixtures.clock2026 0 - zeroTime /\
  totalDuration
    (calculateStatusTime (fixtures.clock2026 0) fixtures.zeroStampedTimeline)
    <> Sub (fixtures.clock2026 0) zeroTime.
Proof.
  split; [apply lib_facts.chronologicalb_spec; reflexivity|].
  split; [cbn; lia|].
  split; [vm_compute; reflexivity|].
  split; vm_compute; discriminate.
Qed.

End status_facts.

(** * More on pkg/jira/search.go *)

Section MoreStringFacts.

Lemma length_append (a b : string) :
  String.length (a +:+ b) = (String.length a + String.length b)%nat.
Proof.
  induction a as [|x a IH]; [reflexivity|].
  rewrite append_cons. cbn [String.length]. now rewrite IH.
Qed.

Lemma Contains_trans (s t u : string) :
  Contains s t = true -> Contains t u = true -> Contains s u = true.
Proof.
  intros Hst Htu.
  apply Contains_inv in Hst as (a & b & ->).
  apply Contains_inv in Htu as (a' & b' & ->).
  rewrite !append_assoc, <- (append_assoc a a'). apply Contains_app.
Qed.

End MoreStringFacts.

Module search_more.
Import jira search_terms.

Section Facts.

Context {tables : CaseTables}.


Section WithDecoder.

Variable decodeSearchResult : string -> result SearchResult.

Lemma search_ok_inv (c : Client) (jql : string) (from limit : Z) (ver : string)
    (r : SearchResult) :
  search decodeSearchResult c jql from limit ver = Ok r ->
  exists (res : Response) (out : SearchResult),
    requested c jql from limit ver = (Some res, None) /\
    StatusCode res = 200 /\
    decodeSearchResult (Body res) = Ok out /\
    r = approximateTotal ver from out.
Proof.
  unfold search, StatusOK.
  destruct (requested c jql from limit ver) as [[res|] [e0|]];
    try discriminate.
  destruct (Z.eqb_spec (StatusCode res) 200) as [Hcode|Hcode]; cbn [negb];
    [|discriminate].
  destruct (decodeSearchResult (Body res)) as [out|e0] eqn:Hdec;
    [|discriminate].
  intros [= <-]. now exists res, out.
Qed.

(** X1. [search] succeeds exactly when the transport hands back a response
    and no error, the status is 200 and the body decodes, and then returns
    the decoded page with its total approximated; it fails exactly with the
    transport's error (whether or not a response came with it), with the
    empty-response error when neither came, with the unexpected-response
    error on another status, or with the decoder's error. *)
Theorem search_outcome (c : Client) (jql : string) (from limit : Z) (ver : string) :
  (forall r : SearchResult,
     search decodeSearchResult c jql from limit ver = Ok r <->
     exists (res : Response) (out : SearchResult),
       requested c jql from limit ver = (Some res, None) /\
       StatusCode res = 200 /\
       decodeSearchResult (Body res) = Ok out /\
       r = approximateTotal ver from out) /\
  (forall e : error,
     search decodeSearchResult c jql from limit ver = Err e <->
     (exists res, requested c jql from limit ver = (res, Some e)) \/
     (requested c jql from limit ver = (None, None) /\ e = ErrEmptyResponse) \/
     (exists res, requested c jql from limit ver = (Some res, None) /\
                  StatusCode res <> 200 /\ e = formatUnexpectedResponse res) \/
     (exists res, requested c jql from limit ver = (Some res, None) /\
                  StatusCode res = 200 /\
                  decodeSearchResult (Body res) = Err e)).
Proof.
  unfold search, StatusOK.
  destruct (requested c jql from limit ver) as [[res|] [e0|]].
  - split; intros x; split; intros H.
    + discriminate H.
    + destruct H as (? & ? & [=] & _).
    + injection H as ->. left. now exists (Some res).
    + destruct H as [(? & [= _ ->])|H]; [reflexivity|].
      destruct H as [([=] & _)|[(? & [=] & _)|(? & [=] & _)]].
  - destruct (Z.eqb_spec (StatusCode res) 200) as [Hcode|Hcode]; cbn [negb].
    + destruct (decodeSearchResult (Body res)) as [out|e0] eqn:Hdec;
        split; intros x; split; intros H.
      * injection H as <-. now exists res, out.
      * destruct H as (res' & out' & [= <-] & _ & Hd & ->). congruence.
      * discriminate H.
      * destruct H as [(? & [=])|[([=] & _)|[(? & [= <-] & ? & _)|(? & [= <-] & _ & ?)]]];
          congruence.
      * discriminate H.
      * destruct H as (res' & out' & [= <-] & _ & Hd & _). congruence.
      * injection H as ->. right. right. right. now exists res.
      * destruct H as [(? & [=])|[([=] & _)|[(? & [= <-] & ? & _)|(? & [= <-] & _ & ?)]]];
          congruence.
    + split; intros x; split; intros H.
      * discriminate H.
      * destruct H as (res' & out' & [= <-] & ? & _). congruence.
      * injection H as <-. right. right. left. now exists res.
      * destruct H as [(? & [=])|[([=] & _)|[(? & [= <-] & _ & ->)|(? & [= <-] & ? & _)]]];
          congruence.
  - split; intros x; split; intros H.
    + discriminate H.
    + destruct H as (? & ? & [=] & _).
    + injection H as ->. left. now exists None.
    + destruct H as [(? & [= _ ->])|H]; [reflexivity|].
      destruct H as [([=] & _)|[(? & [=] & _)|(? & [=] & _)]].
  - split; intros x; split; intros H.
    + discriminate H.
    + destruct H as (? & ? & [=] & _).
    + injection H as <-. right. left. now split.
    + destruct H as [(? & [=])|[(_ & ->)|[(? & [=] & _)|(? & [=] & _)]]].
      reflexivity.
Qed.

(** X2. The two dialects do not mix.  A legacy search reads the transport
    through [GetV2] alone, asks for the query as it was given and returns
    the decoded page as it is, total included; a modern search reads the
    transport through [Get] alone. *)
Theorem dialects_isolated (c c' : Client) (jql : string) (from limit : Z) :
  ((forall path, GetV2 c path = GetV2 c' path) ->
     SearchV2 decodeSearchResult c jql from limit
       = SearchV2 decodeSearchResult c' jql from limit) /\
  ((forall path, Get c path = Get c' path) ->
     Search decodeSearchResult c jql from limit
       = Search decodeSearchResult c' jql from limit) /\
  requested c jql from limit apiVersion2 =
    GetV2 c ("/search?jql=" +:+ QueryEscape jql +:+ "&startAt=" +:+ pretty from
               +:+ "&maxResults=" +:+ pretty limit) /\
  (forall r : SearchResult,
     SearchV2 decodeSearchResult c jql from limit = Ok r ->
     exists res, GetV2 c (searchPath jql from limit apiVersion2) = (Some res, None)
                 /\ decodeSearchResult (Body res) = Ok r).
Proof.
  split; [|split; [|split]].
  - intros H. unfold SearchV2, search, requested. cbn [String.eqb Ascii.eqb].
    change (String.eqb apiVersion2 apiVersion3) with false. cbv iota.
    now rewrite H.
  - intros H. unfold Search, search, requested.
    change (String.eqb apiVersion3 apiVersion3) with true. cbv iota.
    now rewrite H.
  - reflexivity.
  - intros r Hr. apply search_ok_inv in Hr
      as (res & out & Hreq & _ & Hdec & ->).
    exists res. split; [exact Hreq|]. exact Hdec.
Qed.

End WithDecoder.

(** X3. The bounding check is kept by any text put around a query: a
    bounded query stays bounded when a prefix and a suffix are added (an
    ORDER BY clause, a conjunction with another filter). *)
Theorem isJQLBounded_embedded (pre jql post : string) :
  isJQLBounded jql = true -> isJQLBounded (pre +:+ jql +:+ post) = true.
Proof.
  unfold isJQLBounded. rewrite !existsb_exists.
  intros (term & Hin & Hc). exists term. split; [exact Hin|].
  destruct (jira_facts.boundingTerms_ascii term Hin) as (a & t & Ht & Hascii).
  rewrite Ht in *. now apply ToLower_embedded.
Qed.

(** X4. Of the twenty-two terms of the vocabulary twelve decide the check:
    a query is bounded exactly when its lower-case form holds one of the
    core fragments.  The upper-case variants, the comparisons with [>=] and
    [<=] and the [issuekey] terms add nothing; and since the test is on
    substrings, "id =" is also found inside a longer name such as "paid =". *)
Theorem isJQLBounded_core (jql : string) :
  isJQLBounded jql
    = existsb (fun fragment => Contains (ToLower jql) fragment) coreTerms.
Proof.
  assert (Hcore :
    forallb (fun term =>
               existsb (fun fragment => Contains (ToLower term) fragment)
                 coreTerms) boundingTerms = true) by reflexivity.
  assert (Hterm :
    forallb (fun fragment =>
               existsb (fun term => String.eqb (ToLower term) fragment)
                 boundingTerms) coreTerms = true) by reflexivity.
  rewrite forallb_forall in Hcore, Hterm.
  apply eq_true_iff_eq. unfold isJQLBounded. rewrite !existsb_exists. split.
  - intros (term & Hin & Hc).
    specialize (Hcore term Hin). apply existsb_exists in Hcore
      as (fragment & Hf & Hcf).
    exists fragment. split; [exact Hf|]. exact (Contains_trans _ _ _ Hc Hcf).
  - intros (fragment & Hin & Hc).
    specialize (Hterm fragment Hin). apply existsb_exists in Hterm
      as (term & Ht & E).
    apply String.eqb_eq in E. subst fragment. now exists term.
Qed.

Lemma escaped_byte_safe (c : ascii) :
  isQuerySafe (upperhex (nat_of_ascii c / 16)) = true /\
  isQuerySafe (upperhex (nat_of_ascii c mod 16)) = true.
Proof.
  destruct c as [[] [] [] [] [] [] [] []]; vm_compute; split; reflexivity.
Qed.

Lemma QueryEscape_safe (jql : string) :
  allChars isQuerySafe (QueryEscape jql) = true.
Proof.
  induction jql as [|c jql IH]; [reflexivity|].
  cbn [QueryEscape]. destruct (isUnreserved c) eqn:Hc.
  - cbn [allChars]. unfold isQuerySafe at 1. now rewrite Hc, IH.
  - destruct (Ascii.eqb c " ").
    + cbn [allChars]. now rewrite IH.
    + cbv zeta. cbn [allChars].
      destruct (escaped_byte_safe c) as [-> ->]. now rewrite IH.
Qed.

Lemma unreserved_plain (c : ascii) :
  isUnreserved c = true -> Ascii.eqb c "+" = false /\ Ascii.eqb c "%" = false.
Proof.
  destruct c as [[] [] [] [] [] [] [] []]; vm_compute; intros Hc;
    first [discriminate Hc | split; reflexivity].
Qed.

Lemma escaped_byte_read (c : ascii) :
  unhex (upperhex (nat_of_ascii c / 16)) = Some (nat_of_ascii c / 16)%nat /\
  unhex (upperhex (nat_of_ascii c mod 16)) = Some (nat_of_ascii c mod 16)%nat /\
  ascii_of_nat (16 * (nat_of_ascii c / 16) + nat_of_ascii c mod 16) = c.
Proof.
  destruct c as [[] [] [] [] [] [] [] []]; vm_compute; repeat split; reflexivity.
Qed.

(** The escaping loses nothing: the query is read back from its escaped
    text. *)
Lemma QueryEscape_read_back (jql : string) :
  unescapeQuery (QueryEscape jql) = Some jql.
Proof.
  induction jql as [|c jql IH]; [reflexivity|].
  cbn [QueryEscape]. destruct (isUnreserved c) eqn:Hc.
  - destruct (unreserved_plain c Hc) as [Hplus Hpercent].
    cbn [unescapeQuery]. now rewrite Hplus, Hpercent, IH.
  - destruct (Ascii.eqb_spec c " ") as [->|_].
    + cbn [unescapeQuery]. change (Ascii.eqb "+" "+") with true. cbv iota.
      now rewrite IH.
    + cbv zeta. cbn [unescapeQuery].
      change (Ascii.eqb "%" "+") with false.
      change (Ascii.eqb "%" "%") with true. cbv iota.
      destruct (escaped_byte_read c) as (-> & -> & ->). now rewrite IH.
Qed.

(** X5. The path [search] requests is the endpoint, then [jql=] followed by
    the escaped form of the query sent, then the offset and the limit (the
    modern path is under [/search/jql] and asks for all fields, the legacy
    one is under [/search]).  The escaped form is made of letters, digits,
    [-], [_], [.], [~], [+] and [%] only, so no [&], [=], [#] or space of
    the query can add or end a parameter of the request; and it loses
    nothing: the query sent is read back from it. *)
Theorem searchPath_query_safe (jql : string) (from limit : Z) (ver : string) :
  searchPath jql from limit ver
    = (if String.eqb ver apiVersion3 then "/search/jql?jql=" else "/search?jql=")
      +:+ QueryEscape (boundJQL jql ver) +:+ "&startAt=" +:+ pretty from
      +:+ "&maxResults=" +:+ pretty limit
      +:+ (if String.eqb ver apiVersion3 then "&fields=*all" else "") /\
  allChars isQuerySafe (QueryEscape (boundJQL jql ver)) = true /\
  unescapeQuery (QueryEscape (boundJQL jql ver)) = Some (boundJQL jql ver).
Proof.
  split; [|split; [apply QueryEscape_safe|apply QueryEscape_read_back]].
  unfold searchPath. cbv zeta.
  destruct (String.eqb ver apiVersion3); [reflexivity|].
  now rewrite append_nil_r.
Qed.

End Facts.

Section Examples.

#[local] Existing Instance fixtures.sampleTables.

Lemma dialects_isolated_witness :
  SearchV2 (fun _ => Ok fixtures.page_without_total)
      (more_fixtures.legacyOnly (fun _ => fixtures.ok "page")) "assignee = bob" 0 50
    = SearchV2 (fun _ => Ok fixtures.page_without_total)
        (more_fixtures.bothDialects (fun _ => fixtures.ok "page")) "assignee = bob" 0 50.
Proof.
  apply (proj1 (dialects_isolated (fun _ => Ok fixtures.page_without_total)
                  (more_fixtures.legacyOnly (fun _ => fixtures.ok "page"))
                  (more_fixtures.bothDialects (fun _ => fixtures.ok "page"))
                  "assignee = bob" 0 50)).
  intros path. reflexivity.
Defined.

Lemma isJQLBounded_embedded_witness :
  isJQLBounded ("(" +:+ "project = ABC" +:+ ") ORDER BY created DESC") = true.
Proof. apply isJQLBounded_embedded. reflexivity. Defined.

End Examples.

End search_more.

(** * More on the reconstruction *)

Module lib_more.
Import lib timeline views.

(** ** The state through the loops *)

Lemma parseEmbedded_requests (w : World) (created : string) (s : St) :
  requests (snd (parseEmbedded w created s)) = requests s /\
  (clockReads s <= clockReads (snd (parseEmbedded w created s)))%nat.
Proof.
  unfold parseEmbedded.
  destruct (parseRFC3339 w created); [cbn; lia|].
  destruct (parseMillis w created); cbn; lia.
Qed.

Lemma pairsLoop_embedded_requests (w : World)
    (pairs : list (IssueHistory * HistoryItem)) (acc : list StatusChange) (s : St) :
  requests (snd (pairsLoop (parseEmbedded w) pairs acc s)) = requests s.
Proof.
  revert acc s. induction pairs as [|[h it] pairs IH]; intros acc s; cbn.
  - reflexivity.
  - unfold bind. pose proof (parseEmbedded_requests w (Created h) s) as [Hr _].
    destruct (parseEmbedded w (Created h) s) as [t s1]. cbn in Hr.
    now rewrite IH.
Qed.

Lemma pairsLoop_labels (parse : string -> M Time)
    (pairs : list (IssueHistory * HistoryItem)) (acc : list StatusChange) (s : St) :
  map labelsOf (fst (pairsLoop parse pairs acc s))
    = map labelsOf acc ++ map itemLabels pairs.
Proof.
  revert acc s. induction pairs as [|[h it] pairs IH]; intros acc s; cbn.
  - now rewrite app_nil_r.
  - unfold bind. destruct (parse (Created h) s) as [t s1].
    rewrite IH, map_app. cbn.
    replace (labelsOf (statusChangeOf t h it)) with (itemLabels (h, it))
      by (unfold labelsOf, itemLabels, statusChangeOf; cbn;
          now destruct (HAuthor h)).
    now rewrite <- app_assoc.
Qed.

(** ** The first fetch *)

Lemma getIssueWithChangelog_step (w : World) (c : JiraClient)
    (issueKey : string) (s : St) :
  getIssueWithChangelog w c issueKey s =
    (match answerAt c (issuePath issueKey) s with
     | (_, Some e) => Err e
     | (None, None) => Err ErrEmpty
     | (Some httpRes, None) =>
         if negb (StatusCode httpRes =? StatusOK)
         then Err (ErrStatusCode (StatusCode httpRes))
         else match decodeIssueWithChangelog w (Body httpRes) with
              | Err e => Err (ErrWrap "failed to decode issue with changelog" e)
              | Ok issue => Ok issue
              end
     end, afterRequest s).
Proof.
  unfold getIssueWithChangelog, bind, answerAt, issuePath, afterRequest.
  unfold httpGet at 1 2. cbn [fst].
  destruct (if String.eqb (installationType c) InstallationTypeLocal
            then _ else _) as [[httpRes|] [e|]]; try reflexivity.
  destruct (negb _); [reflexivity|].
  now destruct (decodeIssueWithChangelog w (Body httpRes)).
Qed.

(** X6. [GetIssueStatusChanges] returns an error exactly when the first
    fetch fails, and then the error wraps the cause, one request has been
    issued and the clock has not been read, whatever the number of
    iterations allowed to the pager.  The first fetch fails on a transport
    error, on a missing response, on a status other than 200 and on a body
    that does not decode. *)
Theorem primary_failure_aborts (fuel : nat) (w : World) (c : JiraClient)
    (issueKey : string) (s : St) :
  (forall (e : error) (s' : St),
     GetIssueStatusChanges fuel w c issueKey s = (Some (Err e), s') <->
     exists cause,
       getIssueWithChangelog w c issueKey s = (Err cause, s') /\
       e = ErrWrap "failed to fetch issue with changelog" cause) /\
  (forall (cause : error) (s' : St),
     getIssueWithChangelog w c issueKey s = (Err cause, s') ->
     s' = afterRequest s /\
     match answerAt c (issuePath issueKey) s with
     | (_, Some e) => cause = e
     | (None, None) => cause = ErrEmpty
     | (Some httpRes, None) =>
         (StatusCode httpRes <> 200 /\ cause = ErrStatusCode (StatusCode httpRes))
         \/ (StatusCode httpRes = 200 /\
             exists e, decodeIssueWithChangelog w (Body httpRes) = Err e /\
                       cause = ErrWrap "failed to decode issue with changelog" e)
     end).
Proof.
  split.
  - intros e s'. rewrite lib_facts.GetIssueStatusChanges_unfold.
    destruct (getIssueWithChangelog w c issueKey s) as [[issue|cause] s1].
    + destruct (collectStatusChanges fuel w c issueKey issue s1) as [[l|] s2];
        split; try discriminate; intros (cause & [=] & _).
    + split.
      * intros [= <- <-]. now exists cause.
      * intros (cause' & [= <- <-] & ->). reflexivity.
  - intros cause s'. rewrite getIssueWithChangelog_step. unfold StatusOK.
    destruct (answerAt c (issuePath issueKey) s) as [[httpRes|] [e|]].
    + intros [= <- <-]. now split.
    + destruct (Z.eqb_spec (StatusCode httpRes) 200) as [Hc|Hc]; cbn [negb].
      * destruct (decodeIssueWithChangelog w (Body httpRes)) as [issue|e] eqn:Hd.
        -- discriminate.
        -- intros [= <- <-]. split; [reflexivity|]. right.
           split; [exact Hc|]. now exists e.
      * intros [= <- <-]. split; [reflexivity|]. left. now split.
    + intros [= <- <-]. now split.
    + intros [= <- <-]. now split.
Qed.

Lemma primary_failure_aborts_witness :
  GetIssueStatusChanges 0 fixtures.oneTransitionWorld
      more_fixtures.missingIssueClient "PROJ-7" start
    = (Some (Err (ErrWrap "failed to fetch issue with changelog"
                    (ErrStatusCode 404))), mkSt 1 0).
Proof.
  apply (proj1 (primary_failure_aborts 0 fixtures.oneTransitionWorld
                  more_fixtures.missingIssueClient "PROJ-7" start)).
  exists (ErrStatusCode 404). split; reflexivity.
Defined.

(** ** The synthetic entry *)

Lemma addInitialStatus_cases (w : World) (fields : IssueFields)
    (l : list StatusChange) :
  addInitialStatus w fields l = l \/
  exists init earliest,
    addInitialStatus w fields l = l ++ [init] /\
    last l = Some earliest /\
    FromStatus init = ""%string /\
    ToStatus init = FromStatus earliest /\
    FromStatus earliest <> ""%string /\
    parseCreated w (FieldsCreated fields) = Some (Timestamp init) /\
    Author init = ReporterName fields /\
    AuthorDisplayName init = ReporterName fields /\
    AuthorEmail init = ""%string.
Proof.
  unfold addInitialStatus.
  destruct (_ && _); [|now left].
  destruct (parseCreated w (FieldsCreated fields)) as [createdTime|]; [|now left].
  destruct (last l) as [earliest|]; [|now left].
  destruct (String.eqb_spec (FromStatus earliest) "") as [E|E]; cbn [negb];
    [now left|].
  right.
  destruct (String.eqb_spec (ReporterName fields) "") as [R|R]; cbn [negb];
    eexists; exists earliest; (split; [reflexivity|]); cbn;
    rewrite ?R; repeat split; auto.
Qed.

(** X7. When the issue has been fetched and the changes collected, the
    result is the collected list reversed, with at most one entry put in
    front of it.  That entry has no previous status, its new status is the
    previous status of the entry after it (which is not empty), its time is
    the parsed creation time and its author the reporter.  An issue without
    status changes gives the empty list, never a lone synthetic entry. *)
Theorem synthetic_entry_shape (fuel : nat) (w : World) (c : JiraClient)
    (issueKey : string) (s s1 s2 : St) (issue : IssueWithChangelog)
    (collected : list StatusChange) :
  getIssueWithChangelog w c issueKey s = (Ok issue, s1) ->
  collectStatusChanges fuel w c issueKey issue s1 = (Some collected, s2) ->
  exists result : list StatusChange,
    GetIssueStatusChanges fuel w c issueKey s = (Some (Ok result), s2) /\
    (collected = [] -> result = []) /\
    (result = reverse collected \/
     exists init next,
       result = init :: reverse collected /\
       head (reverse collected) = Some next /\
       FromStatus init = ""%string /\
       ToStatus init = FromStatus next /\
       FromStatus next <> ""%string /\
       parseCreated w (FieldsCreated (Fields issue)) = Some (Timestamp init) /\
       Author init = ReporterName (Fields issue) /\
       AuthorDisplayName init = ReporterName (Fields issue) /\
       AuthorEmail init = ""%string).
Proof.
  intros Hfetch Hcollect.
  rewrite lib_facts.GetIssueStatusChanges_unfold, Hfetch, Hcollect.
  eexists. split; [reflexivity|]. split.
  - intros ->. reflexivity.
  - destruct (addInitialStatus_cases w (Fields issue) collected)
      as [->|(init & earliest & -> & Hlast & H)]; [now left|].
    right. exists init, earliest. rewrite reverse_snoc, head_reverse.
    split; [reflexivity|]. split; [exact Hlast|]. exact H.
Qed.

Lemma synthetic_entry_shape_witness :
  exists result,
    GetIssueStatusChanges 0 fixtures.oneTransitionWorld
        fixtures.oneTransitionClient "PROJ-5" start
      = (Some (Ok result), mkSt 1 0) /\
    length result = 2%nat.
Proof.
  destruct (synthetic_entry_shape 0 fixtures.oneTransitionWorld
              fixtures.oneTransitionClient "PROJ-5" start (mkSt 1 0) (mkSt 1 0)
              fixtures.oneTransitionIssue
              [statusChangeOf 63840045600000000000 fixtures.oneTransition
                 (fixtures.statusItem "To Do" "In Progress")])
    as (result & Hrun & _ & Hshape); [reflexivity | reflexivity |].
  exists result. split; [exact Hrun|].
  destruct Hshape as [->|(init & next & -> & _)]; [|reflexivity].
  exfalso. vm_compute in Hrun. discriminate Hrun.
Defined.

(** X8. For an issue whose changelog is whole on the embedded page, the
    call issues exactly one request and collects one change per status item,
    in the order of the page, with the labels of the item and the author of
    its entry; items of other fields are left out.  An issue without a
    changelog gives the empty list. *)
Theorem embedded_page_changes (fuel : nat) (w : World) (c : JiraClient)
    (issueKey : string) (s s1 : St) (issue : IssueWithChangelog) :
  getIssueWithChangelog w c issueKey s = (Ok issue, s1) ->
  (Changelog issue = None ->
     GetIssueStatusChanges fuel w c issueKey s = (Some (Ok []), s1)) /\
  (forall cl : IssueChangelog,
     Changelog issue = Some cl ->
     Total cl <= addInt (StartAt cl) (MaxResults cl) ->
     exists (changes : list StatusChange) (s' : St),
       GetIssueStatusChanges fuel w c issueKey s
         = (Some (Ok (reverse (addInitialStatus w (Fields issue) changes))), s') /\
       requests s' = S (requests s) /\
       map labelsOf changes = map itemLabels (statusItems (Histories cl))).
Proof.
  intros Hfetch.
  assert (Hs1 : s1 = afterRequest s).
  { rewrite getIssueWithChangelog_step in Hfetch. now injection Hfetch. }
  split.
  - intros Hnone. rewrite lib_facts.GetIssueStatusChanges_unfold, Hfetch.
    unfold collectStatusChanges. rewrite Hnone. reflexivity.
  - intros cl Hcl Htot.
    rewrite lib_facts.GetIssueStatusChanges_unfold, Hfetch.
    rewrite (lib_facts.collectStatusChanges_embedded _ _ _ _ _ cl _ Hcl Htot).
    pose proof (pairsLoop_labels (parseEmbedded w) (statusItems (Histories cl))
                  [] s1) as Hlabels.
    pose proof (pairsLoop_embedded_requests w (statusItems (Histories cl)) [] s1)
      as Hreq.
    destruct (pairsLoop (parseEmbedded w) (statusItems (Histories cl)) [] s1)
      as [changes s'].
    exists changes, s'. split; [reflexivity|]. cbn in Hlabels, Hreq.
    split; [|exact Hlabels]. rewrite Hreq, Hs1. reflexivity.
Qed.

Lemma embedded_page_changes_witness :
  exists changes s',
    GetIssueStatusChanges 0 fixtures.oneTransitionWorld
        fixtures.oneTransitionClient "PROJ-5" start
      = (Some (Ok (reverse (addInitialStatus fixtures.oneTransitionWorld
                              (Fields fixtures.oneTransitionIssue) changes))), s') /\
    requests s' = 1%nat /\
    map labelsOf changes = [("To Do", "In Progress", "alice")]%string.
Proof.
  destruct (embedded_page_changes 0 fixtures.oneTransitionWorld
              fixtures.oneTransitionClient "PROJ-5" start (mkSt 1 0)
              fixtures.oneTransitionIssue eq_refl) as [_ Hsome].
  destruct (Hsome fixtures.oneTransitionLog eq_refl) as (changes & s' & H).
  - vm_compute. discriminate.
  - exists changes, s'. exact H.
Defined.

(** ** The pager *)

Lemma fetchLoop_requests_grow (fuel : nat) (w : World) (c : JiraClient)
    (issueKey : string) :
  forall (currentStart : Z) (allChanges : list StatusChange) (s s' : St)
         (r : list StatusChange * option error),
    fetchLoop fuel w c issueKey currentStart allChanges s = (Some r, s') ->
    (requests s < requests s')%nat.
Proof.
  induction fuel as [|fuel IH]; intros currentStart allChanges s s' r H.
  - discriminate H.
  - rewrite lib_facts.fetchLoop_step in H.
    assert (Hstop : forall x,
      (Some x, afterRequest s) = (Some r, s') -> (requests s < requests s')%nat).
    { intros x [= _ <-]. unfold afterRequest. cbn. lia. }
    destruct (answerAt c _ s) as [[httpRes|] [e|]]; try (now apply (Hstop _ H)).
    destruct (negb _); [now apply (Hstop _ H)|].
    destruct (decodeIssueChangelog w (Body httpRes)) as [page|e];
      [|now apply (Hstop _ H)].
    cbv zeta in H. destruct (Total page <=? _); [now apply (Hstop _ H)|].
    apply IH in H. unfold afterRequest in H. cbn in H. lia.
Qed.

(** X9. Whatever way a run of the pager ends, with or without an error:
    the list it hands back extends the list it started from, it has issued
    at least one request and at most one per iteration, and it has not read
    the clock. *)
Theorem pager_accumulates (fuel : nat) (w : World) (c : JiraClient)
    (issueKey : string) (currentStart : Z) (allChanges : list StatusChange)
    (s s' : St) (changes : list StatusChange) (err : option error) :
  fetchLoop fuel w c issueKey currentStart allChanges s
    = (Some (changes, err), s') ->
  (exists more, changes = allChanges ++ more) /\
  (requests s < requests s' <= requests s + fuel)%nat /\
  clockReads s' = clockReads s.
Proof.
  revert currentStart allChanges s.
  induction fuel as [|fuel IH]; intros currentStart allChanges s H.
  - discriminate H.
  - rewrite lib_facts.fetchLoop_step in H.
    assert (Hstop : forall e,
      (Some (allChanges, e), afterRequest s) = (Some (changes, err), s') ->
      (exists more, changes = allChanges ++ more) /\
      (requests s < requests s' <= requests s + S fuel)%nat /\
      clockReads s' = clockReads s).
    { intros e [= <- <- <-]. split; [exists []; now rewrite app_nil_r|].
      unfold afterRequest. cbn. lia. }
    destruct (answerAt c _ s) as [[httpRes|] [e|]]; try (now apply (Hstop _ H)).
    destruct (negb _); [now apply (Hstop _ H)|].
    destruct (decodeIssueChangelog w (Body httpRes)) as [page|e];
      [|now apply (Hstop _ H)].
    cbv zeta in H. destruct (Total page <=? _).
    + injection H as <- <- <-. split; [now eexists|].
      unfold afterRequest. cbn. lia.
    + apply IH in H as ((more & ->) & Hreq & Hclock).
      split; [eexists; now rewrite <- app_assoc|].
      unfold afterRequest in *. cbn in *. lia.
Qed.

Lemma pager_accumulates_witness :
  (exists more, [fixtures.secondPageChange] = [] ++ more) /\
  (1 < 3 <= 1 + 2)%nat /\ 0%nat = 0%nat.
Proof.
  exact (pager_accumulates 2 fixtures.threePagesWorld fixtures.threePagesClient
           "PROJ-2" 1 [] (mkSt 1 0) (mkSt 3 0) [fixtures.secondPageChange]
           (Some (ErrTransport "connection reset")) eq_refl).
Defined.

(** X10. When every continuation request is answered, nothing is lost: the
    pager, served a run of pages, issues one request per page and hands back
    the changes of all the pages in the order they were served; and the
    reconstruction returns the embedded page's changes followed by those,
    reversed, behind the synthetic entry if there is one. *)
Theorem pager_gathers_all_pages (w : World) (c : JiraClient) (issueKey : string)
    (pages : list IssueChangelog) :
  (forall (currentStart : Z) (allChanges : list StatusChange) (s : St),
     served w c issueKey currentStart s pages ->
     fetchLoop (length pages) w c issueKey currentStart allChanges s
       = (Some (allChanges ++ pageChanges w pages, None),
          mkSt (requests s + length pages) (clockReads s))) /\
  (forall (s s1 s2 : St) (issue : IssueWithChangelog) (cl : IssueChangelog)
          (embedded : list StatusChange),
     getIssueWithChangelog w c issueKey s = (Ok issue, s1) ->
     Changelog issue = Some cl ->
     addInt (StartAt cl) (MaxResults cl) < Total cl ->
     historiesLoop (parseEmbedded w) (Histories cl) [] s1 = (embedded, s2) ->
     served w c issueKey (MaxResults cl) s2 pages ->
     GetIssueStatusChanges (length pages) w c issueKey s
       = (Some (Ok (reverse (addInitialStatus w (Fields issue)
                               (embedded ++ pageChanges w pages)))),
          mkSt (requests s2 + length pages) (clockReads s2))).
Proof.
  assert (Hpager :
    forall (currentStart : Z) (allChanges : list StatusChange) (s : St),
      served w c issueKey currentStart s pages ->
      fetchLoop (length pages) w c issueKey currentStart allChanges s
        = (Some (allChanges ++ pageChanges w pages, None),
           mkSt (requests s + length pages) (clockReads s))).
  { induction pages as [|page rest IH]; intros currentStart allChanges s Hs.
    - destruct Hs.
    - destruct Hs as (res & Hans & Hok & Hdec & Hnext).
      cbn [length]. rewrite lib_facts.fetchLoop_step, Hans, Hok, Hdec.
      change (200 =? StatusOK) with true. cbn [negb]. cbv zeta in *.
      unfold pageChanges. cbn [flat_map]. fold (pageChanges w rest).
      destruct rest as [|page' rest].
      + apply Z.leb_le in Hnext. rewrite Hnext. cbn [pageChanges flat_map length].
        rewrite app_nil_r. unfold afterRequest. do 2 f_equal. lia.
      + destruct Hnext as [Hlt Hrest]. apply Z.leb_gt in Hlt. rewrite Hlt.
        rewrite (IH _ _ _ Hrest). rewrite <- app_assoc.
        unfold afterRequest. cbn [requests clockReads length]. do 2 f_equal. lia. }
  split; [exact Hpager|].
  intros s s1 s2 issue cl embedded Hfetch Hcl Hmore Hemb Hserved.
  rewrite lib_facts.GetIssueStatusChanges_unfold, Hfetch.
  rewrite (lib_facts.collectStatusChanges_pager_ok (length pages) w c issueKey
             issue cl s1 s2 (mkSt (requests s2 + length pages) (clockReads s2))
             embedded (pageChanges w pages) Hcl Hmore Hemb).
  - reflexivity.
  - unfold fetchAdditionalHistory. rewrite (Hpager _ _ _ Hserved). reflexivity.
Qed.

Lemma pager_gathers_all_pages_witness :
  exists result,
    GetIssueStatusChanges 2 more_fixtures.allPagesWorld
        more_fixtures.allPagesClient "PROJ-6" start
      = (Some (Ok result), mkSt 3 0) /\
    map ToStatus result = ["To Do"; "In Progress"; "In Review"; "Done"]%string.
Proof.
  pose proof (proj2 (pager_gathers_all_pages more_fixtures.allPagesWorld
                       more_fixtures.allPagesClient "PROJ-6"
                       [more_fixtures.pageTwo; more_fixtures.pageThree])
                start (mkSt 1 0) (mkSt 1 0) more_fixtures.allPagesIssue
                (mkIssueChangelog 0 1 3 (Histories (mkIssueChangelog 0 1 3
                   [ fixtures.history "10003" "2024-01-04T10:00:00Z"
                       [fixtures.statusItem "In Review" "Done"] ])))
                [ statusChangeOf (fixtures.at_ "2024-01-04T10:00:00Z")
                    (fixtures.history "10003" "2024-01-04T10:00:00Z"
                       [fixtures.statusItem "In Review" "Done"])
                    (fixtures.statusItem "In Review" "Done") ]) as H.
  eexists. split.
  - apply H.
    + reflexivity.
    + reflexivity.
    + vm_compute. reflexivity.
    + reflexivity.
    + exists (mkResponse 200 "page 2"). repeat split.
      exists (mkResponse 200 "page 3"). repeat split.
      vm_compute. discriminate.
  - reflexivity.
Defined.

(** X11. Against a server that answers every continuation request below the
    declared total [T] with a page of at least [P >= 1] histories, the
    reconstruction returns a list, after the first fetch and at most
    [ceil(T / P)] continuation requests. *)
Theorem reconstruction_returns (w : World) (c : JiraClient) (issueKey : string)
    (T P : Z) (s s1 : St) (issue : IssueWithChangelog) (cl : IssueChangelog) :
  1 <= P -> servesPages w c issueKey T P ->
  getIssueWithChangelog w c issueKey s = (Ok issue, s1) ->
  Changelog issue = Some cl ->
  0 <= MaxResults cl < T ->
  exists (result : list StatusChange) (s' : St),
    GetIssueStatusChanges (Z.to_nat ((T - MaxResults cl + P - 1) / P))
        w c issueKey s = (Some (Ok result), s') /\
    Z.of_nat (requests s' - requests s) <= 1 + (T + P - 1) / P.
Proof.
  intros HP Hserve Hfetch Hcl Hmax.
  assert (Hs1 : s1 = afterRequest s).
  { rewrite getIssueWithChangelog_step in Hfetch. now injection Hfetch. }
  assert (Hdiv : 0 <= (T + P - 1) / P) by (apply Z.div_pos; lia).
  rewrite lib_facts.GetIssueStatusChanges_unfold, Hfetch.
  unfold collectStatusChanges. rewrite Hcl. unfold bind.
  rewrite lib_facts.historiesLoop_pairs.
  pose proof (pairsLoop_embedded_requests w (statusItems (Histories cl)) [] s1)
    as Hreq.
  destruct (pairsLoop (parseEmbedded w) (statusItems (Histories cl)) [] s1)
    as [embedded s2]. cbn [snd] in Hreq.
  destruct (addInt (StartAt cl) (MaxResults cl) <? Total cl).
  - destruct (lib_facts.fetchAdditionalHistory_bound w c issueKey T P
                (MaxResults cl) s2 HP Hserve Hmax)
      as (gathered & s3 & Hrun & Hbound).
    rewrite Hrun. eexists. eexists. split; [reflexivity|].
    rewrite Hs1 in Hreq. unfold afterRequest in Hreq. cbn in Hreq.
    pose proof (lib_facts.fetchLoop_terminates) as _.
    assert (requests s2 <= requests s3)%nat.
    { unfold fetchAdditionalHistory in Hrun.
      apply fetchLoop_requests_grow in Hrun. lia. }
    lia.
  - eexists. eexists. split; [reflexivity|].
    rewrite Hs1 in Hreq. unfold afterRequest in Hreq. cbn in Hreq.
    cbn [ret snd]. lia.
Qed.

Lemma reconstruction_returns_witness :
  exists result s',
    GetIssueStatusChanges 1 more_fixtures.fullPageWorld
        more_fixtures.fullPageClient "PROJ-8" start = (Some (Ok result), s') /\
    Z.of_nat (requests s' - 0) <= 2.
Proof.
  apply (reconstruction_returns more_fixtures.fullPageWorld
           more_fixtures.fullPageClient "PROJ-8" 5 5 start (mkSt 1 0)
           more_fixtures.fullPageIssue (mkIssueChangelog 0 0 5 [])).
  - lia.
  - intros currentStart s Hlt.
    exists (mkResponse 200 "page"), more_fixtures.fullPage.
    split; [lazy -[pretty]; reflexivity|].
    split; [reflexivity|]. split; [reflexivity|]. split; [reflexivity|].
    change (len (Histories more_fixtures.fullPage)) with 5.
    unfold maxInt64. lia.
  - reflexivity.
  - reflexivity.
  - cbn. lia.
Defined.

(** X12. The swap loop that ends the reconstruction reverses the slice: it
    keeps the length, puts at each index the element that was at the
    mirrored index, and applied twice gives the slice back. *)
Theorem swap_loop_reverses (changes : list StatusChange) :
  reverseInPlace changes = reverse changes /\
  length (reverseInPlace changes) = length changes /\
  (forall i : nat,
     (i < length changes)%nat ->
     reverseInPlace changes !! i = changes !! (length changes - 1 - i)%nat) /\
  reverseInPlace (reverseInPlace changes) = changes.
Proof.
  rewrite !lib_facts.reverseInPlace_reverse. split; [reflexivity|].
  split; [apply length_reverse|]. split.
  - intros i Hi. rewrite reverse_lookup by exact Hi. f_equal. lia.
  - apply reverse_involutive.
Qed.

End lib_more.

(** * The client wrapper *)

Module client_more.
Import lib timeline client views search_terms.

Section Facts.

Context {tables : CaseTables}.

Section NewClientFacts.

Variable jiraNewClient : JiraConfig -> Duration -> bool -> nat -> Client.

(** X13. [NewClient] fails exactly when the server, the login or the token
    is empty, with the message of the first of them that is missing; when
    it succeeds the installation type of the client is the configured one,
    or "Cloud" when none is configured, and so never empty; and a client
    made without an installation type searches in the modern dialect. *)
Theorem NewClient_outcome (config : ClientConfig) :
  (forall f : failure,
     NewClient jiraNewClient config = Failed f <->
     (Server config = ""%string /\ f = Errorf "server URL is required") \/
     (Server config <> ""%string /\ Login config = ""%string /\
      f = Errorf "login is required") \/
     (Server config <> ""%string /\ Login config <> ""%string /\
      APIToken config = ""%string /\ f = Errorf "API token is required")) /\
  (forall c : JiraClient,
     NewClient jiraNewClient config = Returned c ->
     Server config <> ""%string /\ Login config <> ""%string /\
     APIToken config <> ""%string /\
     installationType c <> ""%string /\
     (InstallationType config <> ""%string ->
        installationType c = InstallationType config) /\
     (InstallationType config = ""%string ->
        installationType c = "Cloud"%string /\
        forall decode jql from limit s,
          SearchIssues decode c jql from limit s
            = (jira.Search decode (lib.client c (requests s)) jql from limit,
               afterRequest s))).
Proof.
  unfold NewClient.
  destruct (String.eqb_spec (Server config) "") as [Hs|Hs].
  { split.
    - intros f. split.
      + intros [= <-]. now left.
      + intros [[_ ->]|[[H _]|[H _]]]; [reflexivity|contradiction..].
    - discriminate. }
  destruct (String.eqb_spec (Login config) "") as [Hl|Hl].
  { split.
    - intros f. split.
      + intros [= <-]. right. now left.
      + intros [[H _]|[[_ [_ ->]]|[_ [H _]]]]; [contradiction|reflexivity|contradiction].
    - discriminate. }
  destruct (String.eqb_spec (APIToken config) "") as [Ht|Ht].
  { split.
    - intros f. split.
      + intros [= <-]. right. now right.
      + intros [[H _]|[[_ [H _]]|[_ [_ [_ ->]]]]]; [contradiction..|reflexivity].
    - discriminate. }
  split.
  - intros f. split; [discriminate|].
    intros [[H _]|[[_ [H _]]|[_ [_ [H _]]]]]; contradiction.
  - intros c [= <-]. cbn [installationType].
    repeat (split; [assumption|]).
    destruct (String.eqb_spec (InstallationType config) "") as [Hi|Hi].
    + split; [discriminate|]. split; [contradiction|].
      intros _. split; [reflexivity|]. intros. reflexivity.
    + split; [exact Hi|]. split; [reflexivity|]. contradiction.
Qed.

End NewClientFacts.

(** ** GetProject *)

Lemma findProject_returned (key : string) (projects : list Project) (p : Project) :
  findProject key projects = Returned p <->
  exists before after,
    projects = before ++ p :: after /\ ProjectKey p = key /\
    forall q, In q before -> ProjectKey q <> key.
Proof.
  induction projects as [|x rest IH]; cbn [findProject].
  - split; [discriminate|]. intros (before & after & E & _).
    now destruct before.
  - destruct (String.eqb_spec (ProjectKey x) key) as [Hx|Hx].
    + split.
      * intros [= <-]. exists [], rest. repeat split; [exact Hx|]. intros q [].
      * intros (before & after & E & Hp & Hnone).
        destruct before as [|y before]; cbn in E.
        -- now injection E as ->.
        -- injection E as <- _. exfalso. apply (Hnone x); [now left|exact Hx].
    + rewrite IH. split.
      * intros (before & after & -> & Hp & Hnone).
        exists (x :: before), after. repeat split; [exact Hp|].
        intros q [<-|Hq]; [exact Hx|now apply Hnone].
      * intros (before & after & E & Hp & Hnone).
        destruct before as [|y before]; cbn in E.
        -- injection E as -> _. contradiction.
        -- injection E as -> ->. exists before, after. repeat split; [exact Hp|].
           intros q Hq. apply Hnone. now right.
Qed.

Lemma findProject_failed (key : string) (projects : list Project) (f : failure) :
  findProject key projects = Failed f <->
  (forall q, In q projects -> ProjectKey q <> key) /\
  f = Errorf ("project " +:+ key +:+ " not found").
Proof.
  induction projects as [|x rest IH]; cbn [findProject].
  - split.
    + intros [= <-]. split; [intros q []|reflexivity].
    + intros [_ ->]. reflexivity.
  - destruct (String.eqb_spec (ProjectKey x) key) as [Hx|Hx].
    + split; [discriminate|]. intros [Hnone _].
      exfalso. apply (Hnone x); [now left|exact Hx].
    + rewrite IH. split.
      * intros [Hnone ->]. split; [|reflexivity].
        intros q [<-|Hq]; [exact Hx|now apply Hnone].
      * intros [Hnone ->]. split; [|reflexivity].
        intros q Hq. apply Hnone. now right.
Qed.

(** X14. [GetProject] returns the first project of the listing whose key is
    the one asked for; it fails with the error of the listing when the
    listing fails, and with "project KEY not found" exactly when the listing
    succeeds and holds no project of that key. *)
Theorem GetProject_first_match (listed : result (list Project)) (key : string) :
  (forall p : Project,
     GetProject listed key = Returned p <->
     exists before after,
       listed = Ok (before ++ p :: after) /\ ProjectKey p = key /\
       forall q, In q before -> ProjectKey q <> key) /\
  (forall f : failure,
     GetProject listed key = Failed f <->
     (exists e, listed = Err e /\ f = FromJira e) \/
     (exists projects,
        listed = Ok projects /\
        (forall q, In q projects -> ProjectKey q <> key) /\
        f = Errorf ("project " +:+ key +:+ " not found"))).
Proof.
  destruct listed as [projects|e]; cbn [GetProject]; split.
  - intros p. rewrite findProject_returned. split.
    + intros (before & after & -> & H). now exists before, after.
    + intros (before & after & [= ->] & H). now exists before, after.
  - intros f. rewrite findProject_failed. split.
    + intros [Hnone ->]. right. now exists projects.
    + intros [(e & [=] & _)|(ps & [= <-] & Hnone & ->)]. now split.
  - intros p. split; [discriminate|]. intros (? & ? & [=] & _).
  - intros f. split.
    + intros [= <-]. left. now exists e.
    + intros [(e' & [= <-] & ->)|(ps & [=] & _)]. reflexivity.
Qed.

(** ** The queries the library builds *)

Lemma isJQLBounded_starts (frag term rest : string) :
  In term jira.boundingTerms -> ToLower frag = ToLower term ->
  jira.isJQLBounded (frag +:+ rest) = true.
Proof. exact (jira_facts.isJQLBounded_fragment "" frag rest term). Qed.

Lemma Join_cons (part : string) (rest : list string) (sep : string) :
  Join (part :: rest) sep =
    part +:+ match rest with [] => ""%string | _ :: _ => sep +:+ Join rest sep end.
Proof. destruct rest; cbn [Join]; [now rewrite append_nil_r | reflexivity]. Qed.

Lemma buildJQL_starts (options : GetAllIssuesOptions) (first : string)
    (rest : list string) :
  jqlParts options = first :: rest ->
  exists tail, buildJQL options = first +:+ tail.
Proof.
  intros E. unfold buildJQL. cbv zeta. rewrite E.
  assert (Hlen : (0 <? len (first :: rest)) = true)
    by (apply Z.ltb_lt; unfold len; cbn [length]; lia).
  rewrite Hlen, Join_cons.
  destruct (String.eqb (OrderBy options) ""); rewrite append_assoc; now eexists.
Qed.

Lemma buildJQL_bounded_aux (options : GetAllIssuesOptions) :
  Project_ options <> ""%string \/
  (StartDate options <> ""%string /\
   (DateField options = ""%string \/
    ToLower (DateField options) = "created"%string \/
    ToLower (DateField options) = "updated"%string)) ->
  jira.isJQLBounded (buildJQL options) = true.
Proof.
  intros H.
  destruct (String.eqb_spec (Project_ options) "") as [Hp|Hp].
  - destruct H as [H|[Hd Hf]]; [contradiction|].
    destruct (buildJQL_starts options
                ((if String.eqb (DateField options) "" then "created"%string
                  else DateField options)
                 +:+ " >= '" +:+ StartDate options +:+ "'")
                (if String.eqb (JQL options) "" then []
                 else ["(" +:+ JQL options +:+ ")"]))
      as [tail ->].
    { unfold jqlParts. apply String.eqb_eq in Hp. rewrite Hp.
      apply String.eqb_neq in Hd. now rewrite Hd. }
    set (field := if String.eqb (DateField options) "" then "created"%string
                  else DateField options).
    assert (Hfield : ToLower field = "created"%string \/
                     ToLower field = "updated"%string).
    { unfold field. destruct (String.eqb_spec (DateField options) "") as [E|E].
      - now left.
      - destruct Hf as [Hf|Hf]; [contradiction|exact Hf]. }
    change (field +:+ " >= '" +:+ StartDate options +:+ "'")
      with (field +:+ " >=" +:+ " '" +:+ StartDate options +:+ "'").
    rewrite <- (append_assoc field " >="), append_assoc.
    destruct Hfield as [Hc|Hu].
    + apply (isJQLBounded_starts _ "created >="); [cbn; tauto|].
      rewrite ToLower_app_ascii by (now rewrite Hc). now rewrite Hc.
    + apply (isJQLBounded_starts _ "updated >="); [cbn; tauto|].
      rewrite ToLower_app_ascii by (now rewrite Hu). now rewrite Hu.
  - destruct (buildJQL_starts options ("project = " +:+ Project_ options)
                ((if String.eqb (StartDate options) "" then []
                  else [(if String.eqb (DateField options) "" then "created"%string
                         else DateField options)
                        +:+ " >= '" +:+ StartDate options +:+ "'"]) ++
                 (if String.eqb (JQL options) "" then []
                  else ["(" +:+ JQL options +:+ ")"])))
      as [tail ->].
    { unfold jqlParts. apply String.eqb_neq in Hp. now rewrite Hp. }
    change ("project = " +:+ Project_ options)
      with ("project =" +:+ " " +:+ Project_ options).
    rewrite append_assoc.
    apply (isJQLBounded_starts _ "project ="); [cbn; tauto|reflexivity].
Qed.

(** X15. The query [GetAllIssues] builds passes the bounding check whenever a
    project is given, or a start date on the field "created" (the default)
    or "updated": it is then sent as built in either dialect, ORDER BY
    clause included. *)
Theorem buildJQL_bounded (options : GetAllIssuesOptions) :
  Project_ options <> ""%string \/
  (StartDate options <> ""%string /\
   (DateField options = ""%string \/
    ToLower (DateField options) = "created"%string \/
    ToLower (DateField options) = "updated"%string)) ->
  jira.isJQLBounded (buildJQL options) = true /\
  forall ver, jira.boundJQL (buildJQL options) ver = buildJQL options.
Proof.
  intros H. pose proof (buildJQL_bounded_aux options H) as Hb.
  split; [exact Hb|]. intros ver. now apply jira_facts.boundJQL_bounded.
Qed.

(** X16. The queries of [GetRecentIssues] and [GetEpics] always pass the
    bounding check, whatever the number of days and the project (the empty
    project included), so neither is rewritten by the modern dialect. *)
Theorem library_queries_bounded (days : Z) (project ver : string) :
  jira.boundJQL (buildJQL (recentOptions days project)) ver
    = buildJQL (recentOptions days project) /\
  buildJQL (recentOptions days project)
    = (if String.eqb project "" then ""%string
       else "project = " +:+ project +:+ " AND ")
      +:+ "created >= '-" +:+ pretty days +:+ "d' ORDER BY created DESC" /\
  jira.boundJQL (epicsJQL project) ver = epicsJQL project.
Proof.
  split; [|split].
  - apply jira_facts.boundJQL_bounded, buildJQL_bounded_aux.
    right. split; [|right; left; reflexivity].
    unfold recentOptions. cbn [StartDate]. discriminate.
  - unfold buildJQL, jqlParts, recentOptions.
    cbn [Project_ StartDate DateField JQL OrderBy].
    change (String.eqb ("-" +:+ pretty days +:+ "d") "") with false.
    destruct (String.eqb project ""); lazy -[pretty String.append];
      rewrite ?append_assoc; reflexivity.
  - apply jira_facts.boundJQL_bounded. unfold epicsJQL.
    change ("project = " +:+ project +:+ " AND issuetype = Epic")
      with ("project =" +:+ " " +:+ project +:+ " AND issuetype = Epic").
    apply (isJQLBounded_starts _ "project ="); [cbn; tauto|reflexivity].
Qed.

(** ** Paging through the issues *)

Section PagingFacts.

Variable decode : string -> result jira.SearchResult.

Lemma len_app {A : Type} (xs ys : list A) : len (xs ++ ys) = len xs + len ys.
Proof. unfold len. rewrite length_app. lia. Qed.

Lemma wrapUint64_small (z : Z) : 0 <= z <= maxUint64 -> wrapUint64 z = z.
Proof. unfold wrapUint64, maxUint64. intros H. apply Z.mod_small. lia. Qed.

Lemma SearchIssues_step (c : JiraClient) (jql : string) (from limit : Z) (s : St) :
  SearchIssues decode c jql from limit s
    = (searchAt decode c jql from limit s, afterRequest s).
Proof. reflexivity. Qed.

(** A page that [search] returns is a decoded page whose total may have been
    approximated. *)
Lemma search_page (cl : Client) (jql : string) (from limit : Z) (ver : string)
    (results : jira.SearchResult) :
  jira.search decode cl jql from limit ver = Ok results ->
  exists body out,
    decode body = Ok out /\ results = jira.approximateTotal ver from out.
Proof.
  unfold jira.search.
  destruct (jira.requested cl jql from limit ver) as [[res|] [e|]];
    try discriminate.
  destruct (negb _); [discriminate|].
  destruct (decode (Body res)) as [out|e] eqn:Hd; [|discriminate].
  intros [= <-]. now exists (Body res), out.
Qed.

Lemma searchAt_page (c : JiraClient) (jql : string) (from limit : Z) (s : St)
    (results : jira.SearchResult) :
  searchAt decode c jql from limit s = Ok results ->
  exists body out ver,
    decode body = Ok out /\ results = jira.approximateTotal ver from out.
Proof.
  unfold searchAt, SearchIssues. cbn [fst].
  destruct (String.eqb (installationType c) InstallationTypeLocal);
    intros H; apply search_page in H as (body & out & Hd & ->).
  - now exists body, out, jira.apiVersion2.
  - now exists body, out, jira.apiVersion3.
Qed.

Lemma approximateTotal_Issues (ver : string) (from : Z) (out : jira.SearchResult) :
  jira.Issues (jira.approximateTotal ver from out) = jira.Issues out.
Proof.
  unfold jira.approximateTotal.
  destruct (_ && _); [|reflexivity]. now destruct (jira.IsLast out).
Qed.

Lemma approximateTotal_Total (ver : string) (from T : Z) (out : jira.SearchResult) :
  0 <= jira.Total out <= T -> 0 <= from ->
  from + len (jira.Issues out) <= maxInt64 ->
  0 <= jira.Total (jira.approximateTotal ver from out) <= Z.max T 10000 \/
  jira.Total (jira.approximateTotal ver from out) = from + len (jira.Issues out).
Proof.
  intros HT Hfrom Hfit. unfold jira.approximateTotal.
  destruct (_ && _); [|left; lia].
  destruct (jira.IsLast out); cbn [jira.Total]; [right|left; lia].
  pose proof (len_nonneg (jira.Issues out)).
  rewrite (wrapInt64_small from)
    by (unfold inInt64, minInt64, maxInt64 in *; lia).
  apply addInt_small. unfold inInt64, minInt64, maxInt64 in *. lia.
Qed.

Lemma allIssuesLoop_step (fuel : nat) (c : JiraClient) (jql : string)
    (maxResults startAt totalFetched : Z) (allIssues : list jira.Issue) (s : St) :
  allIssuesLoop decode (S fuel) c jql maxResults startAt totalFetched allIssues s =
    match searchAt decode c jql startAt batchSize s with
    | Err e =>
        (Some (Err (ErrWrap ("failed to fetch issues at offset "
                               +:+ pretty startAt) e)), afterRequest s)
    | Ok results =>
        let allIssues' := allIssues ++ jira.Issues results in
        let totalFetched' := addInt totalFetched (len (jira.Issues results)) in
        if (0 <? maxResults) && (maxResults <=? totalFetched') then
          (Some (Ok (if maxResults <? len allIssues'
                     then take (Z.to_nat maxResults) allIssues'
                     else allIssues')), afterRequest s)
        else if wrapUint64 (jira.Total results)
                  <=? wrapUint64 (startAt + len (jira.Issues results))
        then (Some (Ok allIssues'), afterRequest s)
        else if len (jira.Issues results) =? 0
        then (Some (Ok allIssues'), afterRequest s)
        else allIssuesLoop decode fuel c jql maxResults
               (wrapUint64 (startAt + batchSize)) totalFetched' allIssues'
               (afterRequest s)
    end.
Proof.
  cbn [allIssuesLoop]. unfold bind at 1. rewrite SearchIssues_step.
  destruct (searchAt decode c jql startAt batchSize s) as [results|e];
    [|reflexivity].
  cbv zeta. destruct (_ && _); [reflexivity|].
  destruct (_ <=? _); [reflexivity|]. now destruct (_ =? 0).
Qed.

Lemma allIssuesLoop_cap (B maxResults : Z) (c : JiraClient) (jql : string) :
  pagesWithin decode B -> 0 < maxResults ->
  forall (fuel : nat) (startAt : Z) (allIssues issues : list jira.Issue) (s s' : St),
    len allIssues + Z.of_nat fuel * B <= maxInt64 ->
    len allIssues < maxResults ->
    allIssuesLoop decode fuel c jql maxResults startAt (len allIssues) allIssues s
      = (Some (Ok issues), s') ->
    len issues <= maxResults.
Proof.
  intros HB Hmax fuel.
  induction fuel as [|fuel IH]; intros startAt allIssues issues s s' Hfit Hlt H.
  - discriminate H.
  - rewrite allIssuesLoop_step in H.
    destruct (searchAt decode c jql startAt batchSize s) as [results|e] eqn:Hs;
      [|discriminate H].
    apply searchAt_page in Hs as (body & out & ver & Hd & ->).
    rewrite approximateTotal_Issues in H. cbv zeta in H.
    pose proof (HB body out Hd) as Hpage.
    pose proof (len_nonneg (jira.Issues out)) as Hpos.
    pose proof (len_nonneg allIssues) as Hall.
    assert (HfB : 0 <= Z.of_nat fuel * B) by nia.
    rewrite addInt_small in H
      by (unfold inInt64, minInt64, maxInt64 in *; nia).
    rewrite <- len_app in H.
    apply Z.ltb_lt in Hmax as Hmaxb. rewrite Hmaxb in H. cbn [andb] in H.
    destruct (maxResults <=? len (allIssues ++ jira.Issues out)) eqn:Hcap.
    + injection H as <- _.
      destruct (maxResults <? len (allIssues ++ jira.Issues out)) eqn:Hcut.
      * unfold len. rewrite length_take. lia.
      * apply Z.ltb_ge in Hcut. exact Hcut.
    + apply Z.leb_gt in Hcap.
      destruct (_ <=? _); [injection H as <- _; lia|].
      destruct (_ =? 0); [injection H as <- _; lia|].
      apply IH in H; [exact H| |exact Hcap].
      rewrite len_app. nia.
Qed.

(** X17. With a positive [MaxResults], [GetAllIssues] never returns more
    than [MaxResults] issues, however many the pages hold, as long as the
    issues fetched fit a slice (pages of at most [B] issues, over at most
    [fuel] requests, with [fuel * B] within an [int]). *)
Theorem GetAllIssues_cap (B : Z) (fuel : nat) (c : JiraClient)
    (options : GetAllIssuesOptions) (s s' : St) (issues : list jira.Issue) :
  pagesWithin decode B -> Z.of_nat fuel * B <= maxInt64 ->
  0 < MaxResults options ->
  GetAllIssues decode fuel c options s = (Some (Ok issues), s') ->
  len issues <= MaxResults options.
Proof.
  intros HB Hfit Hmax H. unfold GetAllIssues in H.
  change 0 with (len (@nil jira.Issue)) in H at 2.
  apply (allIssuesLoop_cap B (MaxResults options) c _ HB Hmax) in H;
    [exact H| |exact Hmax].
  change (len (@nil jira.Issue)) with 0. lia.
Qed.

Lemma allIssuesLoop_returns (B T : Z) (n : nat) (c : JiraClient) (jql : string)
    (maxResults : Z) :
  pagesWithin decode B -> totalsWithin decode T ->
  Z.max T 10000 <= 100 * Z.of_nat n ->
  100 * Z.of_nat n + 100 + B <= maxInt64 ->
  forall (m k : nat) (totalFetched : Z) (allIssues : list jira.Issue) (s : St),
    (k + m = n)%nat ->
    exists r s',
      allIssuesLoop decode (S m) c jql maxResults (100 * Z.of_nat k)
          totalFetched allIssues s = (Some r, s') /\
      (requests s < requests s' <= requests s + S m)%nat.
Proof.
  intros HB HT HM Hfit m.
  induction m as [|m IH]; intros k totalFetched allIssues s Hk;
    rewrite allIssuesLoop_step;
    (destruct (searchAt decode c jql (100 * Z.of_nat k) batchSize s)
       as [results|e] eqn:Hs;
     [|eexists; eexists; split; [reflexivity|unfold afterRequest; cbn; lia]]);
    apply searchAt_page in Hs as (body & out & ver & Hd & ->);
    pose proof (HB body out Hd) as Hpage;
    pose proof (len_nonneg (jira.Issues out)) as Hpos;
    assert (Htotal := approximateTotal_Total ver (100 * Z.of_nat k) T out
                        (HT body out Hd) ltac:(lia) ltac:(lia));
    rewrite approximateTotal_Issues in *; cbv zeta;
    (destruct (_ && _);
     [eexists; eexists; split; [reflexivity|unfold afterRequest; cbn; lia]|]);
    (destruct (_ <=? _) eqn:Hcheck;
     [eexists; eexists; split; [reflexivity|unfold afterRequest; cbn; lia]|]);
    (destruct (_ =? 0);
     [eexists; eexists; split; [reflexivity|unfold afterRequest; cbn; lia]|]).
  - exfalso. apply Z.leb_gt in Hcheck.
    rewrite (wrapUint64_small (100 * Z.of_nat k + _)) in Hcheck
      by (unfold maxUint64, maxInt64 in *; lia).
    destruct Htotal as [Htotal|Htotal].
    + rewrite wrapUint64_small in Hcheck
        by (unfold maxUint64, maxInt64 in *; lia).
      lia.
    + rewrite Htotal in Hcheck.
      rewrite wrapUint64_small in Hcheck
        by (unfold maxUint64, maxInt64 in *; lia).
      lia.
  - unfold batchSize.
    rewrite (wrapUint64_small (100 * Z.of_nat k + 100))
      by (unfold maxUint64, maxInt64 in *; lia).
    replace (100 * Z.of_nat k + 100) with (100 * Z.of_nat (S k)) by lia.
    destruct (IH (S k) (addInt totalFetched (len (jira.Issues out)))
                (allIssues ++ jira.Issues out) (afterRequest s))
      as (r & s' & Hrun & Hreq); [lia|].
    exists r, s'. split; [exact Hrun|].
    unfold afterRequest in Hreq. cbn in Hreq. lia.
Qed.

(** X18. [GetAllIssues] always returns when the pages declare totals between
    0 and [T]: after at most [n + 1] requests, for any [n] with
    [max(T, 10000) <= 100 * n].  The offset advances by 100 at every request
    whatever the page holds, and a page without a total counts as 10000: a
    modern server that never declares a total nor a last page is read up to
    offset 10000 and no further. *)
Theorem GetAllIssues_returns (B T : Z) (n : nat) (c : JiraClient)
    (options : GetAllIssuesOptions) (s : St) :
  pagesWithin decode B -> totalsWithin decode T ->
  Z.max T 10000 <= 100 * Z.of_nat n ->
  100 * Z.of_nat n + 100 + B <= maxInt64 ->
  exists r s',
    GetAllIssues decode (S n) c options s = (Some r, s') /\
    (requests s < requests s' <= requests s + S n)%nat.
Proof.
  intros HB HT HM Hfit. unfold GetAllIssues.
  exact (allIssuesLoop_returns B T n c _ _ HB HT HM Hfit n 0%nat 0 [] s
           (Nat.add_0_l n)).
Qed.

Lemma allIssuesLoop_error (c : JiraClient) (jql : string) (maxResults : Z) :
  forall (fuel k0 : nat) (totalFetched : Z) (allIssues : list jira.Issue)
         (s s' : St) (e : error),
    100 * Z.of_nat (k0 + fuel) <= maxUint64 ->
    allIssuesLoop decode fuel c jql maxResults (100 * Z.of_nat k0)
        totalFetched allIssues s = (Some (Err e), s') ->
    exists (k : nat) (cause : error),
      (k < fuel)%nat /\
      e = ErrWrap ("failed to fetch issues at offset "
                     +:+ pretty (100 * Z.of_nat (k0 + k))) cause /\
      searchAt decode c jql (100 * Z.of_nat (k0 + k)) batchSize
          (mkSt (requests s + k) (clockReads s)) = Err cause /\
      s' = mkSt (requests s + S k) (clockReads s).
Proof.
  intros fuel.
  induction fuel as [|fuel IH]; intros k0 totalFetched allIssues s s' e Hfit H.
  - discriminate H.
  - rewrite allIssuesLoop_step in H.
    destruct (searchAt decode c jql (100 * Z.of_nat k0) batchSize s)
      as [results|cause] eqn:Hs.
    + cbv zeta in H. destruct (_ && _); [discriminate H|].
      destruct (_ <=? _); [discriminate H|].
      destruct (_ =? 0); [discriminate H|].
      unfold batchSize in H.
      rewrite (wrapUint64_small (100 * Z.of_nat k0 + 100)) in H
        by (unfold maxUint64 in *; lia).
      replace (100 * Z.of_nat k0 + 100) with (100 * Z.of_nat (S k0)) in H by lia.
      apply IH in H as (k & cause & Hk & -> & Hsearch & ->); [|lia].
      exists (S k), cause. unfold afterRequest in *. cbn [requests clockReads] in *.
      replace (k0 + S k)%nat with (S k0 + k)%nat by lia.
      replace (requests s + S k)%nat with (S (requests s) + k)%nat by lia.
      repeat split; [lia|exact Hsearch|]. f_equal. lia.
    + injection H as <- <-. exists 0%nat, cause.
      rewrite !Nat.add_0_r. destruct s as [r cr]. cbn [requests clockReads].
      repeat split; [lia|exact Hs|]. unfold afterRequest. cbn. f_equal. lia.
Qed.

(** X19. [GetAllIssues] fails exactly at a search that fails, and then hands
    back no issue at all: the error wraps that of the search and names the
    offset of the request, a multiple of 100 (the offset of the request
    number [k], counted from 0, is [100 * k] whatever the earlier pages
    held), and [k + 1] requests have been issued. *)
Theorem GetAllIssues_error (fuel : nat) (c : JiraClient)
    (options : GetAllIssuesOptions) (s s' : St) (e : error) :
  100 * Z.of_nat fuel <= maxUint64 ->
  GetAllIssues decode fuel c options s = (Some (Err e), s') ->
  exists (k : nat) (cause : error),
    (k < fuel)%nat /\
    e = ErrWrap ("failed to fetch issues at offset " +:+ pretty (100 * Z.of_nat k))
          cause /\
    searchAt decode c (buildJQL options) (100 * Z.of_nat k) batchSize
        (mkSt (requests s + k) (clockReads s)) = Err cause /\
    s' = mkSt (requests s + S k) (clockReads s).
Proof.
  intros Hfit H. unfold GetAllIssues in H.
  exact (allIssuesLoop_error c _ _ fuel 0%nat 0 [] s s' e Hfit H).
Qed.

Lemma dateRangeLoop_relabel (c : JiraClient) (jql : string) :
  forall (fuel : nat) (startAt totalFetched : Z) (allIssues : list jira.Issue)
         (s : St),
    dateRangeLoop decode fuel c jql startAt allIssues s
      = relabel (allIssuesLoop decode fuel c jql 0 startAt totalFetched allIssues s).
Proof.
  intros fuel.
  induction fuel as [|fuel IH]; intros startAt totalFetched allIssues s.
  - reflexivity.
  - rewrite allIssuesLoop_step. cbn [dateRangeLoop]. unfold bind at 1.
    rewrite SearchIssues_step.
    destruct (searchAt decode c jql startAt batchSize s) as [results|e];
      [|reflexivity].
    cbv zeta. cbn [Z.ltb Z.compare andb].
    destruct (_ <=? _); [reflexivity|].
    destruct (_ =? 0); [reflexivity|]. cbn [orb]. apply IH.
Qed.

(** X20. [GetIssuesByDateRange] pages exactly as [GetAllIssues] does without a
    cap: the same requests and the same issues for the same query, the text
    of the error apart; and its query passes the bounding check when the
    date field is "created" (the default) or "updated". *)
Theorem GetIssuesByDateRange_pages (fuel : nat) (c : JiraClient)
    (startDate endDate dateField : string) (s : St) :
  GetIssuesByDateRange decode fuel c startDate endDate dateField s
    = relabel (allIssuesLoop decode fuel c
                 (dateRangeJQL startDate endDate dateField) 0 0 0 [] s) /\
  (dateField = ""%string \/ ToLower dateField = "created"%string \/
   ToLower dateField = "updated"%string ->
   jira.isJQLBounded (dateRangeJQL startDate endDate dateField) = true).
Proof.
  split; [apply dateRangeLoop_relabel|].
  intros Hf. unfold dateRangeJQL.
  set (field := if String.eqb dateField "" then "created"%string else dateField).
  assert (Hfield : ToLower field = "created"%string \/
                   ToLower field = "updated"%string).
  { unfold field. destruct (String.eqb_spec dateField "") as [E|E].
    - now left.
    - destruct Hf as [Hf|Hf]; [contradiction|exact Hf]. }
  change (field +:+ " >= '" +:+ startDate +:+ "' AND " +:+ field +:+ " <= '"
            +:+ endDate +:+ "' ORDER BY " +:+ field +:+ " DESC")
    with (field +:+ " >=" +:+ " '" +:+ startDate +:+ "' AND " +:+ field
            +:+ " <= '" +:+ endDate +:+ "' ORDER BY " +:+ field +:+ " DESC").
  rewrite <- (append_assoc field " >=").
  destruct Hfield as [Hc|Hu].
  - apply (isJQLBounded_starts _ "created >="); [cbn; tauto|].
    rewrite ToLower_app_ascii by (now rewrite Hc). now rewrite Hc.
  - apply (isJQLBounded_starts _ "updated >="); [cbn; tauto|].
    rewrite ToLower_app_ascii by (now rewrite Hu). now rewrite Hu.
Qed.

Lemma allIssuesLoop_full_pages (c : JiraClient) (jql : string) (maxResults : Z)
    (pages : nat -> jira.SearchResult) (s : St) :
  maxResults <= 0 ->
  (forall j, (j < 100)%nat ->
     searchAt decode c jql (100 * Z.of_nat j) batchSize
       (mkSt (requests s + j) (clockReads s)) = Ok (pages j) /\
     jira.Total (pages j) = 10000 /\
     len (jira.Issues (pages j)) = 100) ->
  forall (m k fuel : nat) (totalFetched : Z) (allIssues : list jira.Issue),
    (k + S m = 100)%nat -> (m < fuel)%nat ->
    allIssuesLoop decode fuel c jql maxResults (100 * Z.of_nat k) totalFetched
        allIssues (mkSt (requests s + k) (clockReads s))
      = (Some (Ok (allIssues
                     ++ flat_map (fun j => jira.Issues (pages j)) (seq k (S m)))),
         mkSt (requests s + 100) (clockReads s)).
Proof.
  intros Hmax Hpages m.
  induction m as [|m IH]; intros k fuel totalFetched allIssues Hk Hfuel;
    (destruct fuel as [|fuel]; [lia|]);
    rewrite allIssuesLoop_step;
    destruct (Hpages k ltac:(lia)) as (-> & Htotal & Hlen);
    cbv zeta; rewrite Htotal, Hlen;
    (destruct (Z.ltb_spec 0 maxResults); [lia|]); cbn [andb];
    rewrite (wrapUint64_small 10000) by (unfold maxUint64; lia);
    rewrite (wrapUint64_small (100 * Z.of_nat k + 100))
      by (unfold maxUint64; lia).
  - destruct (Z.leb_spec 10000 (100 * Z.of_nat k + 100)); [|lia].
    cbn [seq flat_map]. rewrite app_nil_r. unfold afterRequest.
    cbn [requests clockReads]. do 2 f_equal. lia.
  - destruct (Z.leb_spec 10000 (100 * Z.of_nat k + 100)); [lia|].
    change (100 =? 0) with false. cbv iota. unfold batchSize.
    rewrite (wrapUint64_small (100 * Z.of_nat k + 100))
      by (unfold maxUint64; lia).
    replace (100 * Z.of_nat k + 100) with (100 * Z.of_nat (S k)) by lia.
    replace (afterRequest (mkSt (requests s + k) (clockReads s)))
      with (mkSt (requests s + S k) (clockReads s))
      by (unfold afterRequest; cbn [requests clockReads]; f_equal; lia).
    rewrite (IH (S k) fuel) by lia.
    rewrite <- app_assoc. reflexivity.
Qed.

(** X21. Without a cap, [GetAllIssues] stops at offset 10000 when the pages
    carry the total that the search gives a modern page without one: if the
    first hundred requests each bring a full page of 100 issues with the
    total 10000, it returns those 10000 issues after exactly 100 requests
    and asks for no further page, whatever the server still holds. *)
Theorem GetAllIssues_stops_at_sentinel (c : JiraClient)
    (options : GetAllIssuesOptions) (pages : nat -> jira.SearchResult)
    (fuel : nat) (s : St) :
  MaxResults options <= 0 -> (100 <= fuel)%nat ->
  (forall j, (j < 100)%nat ->
     searchAt decode c (buildJQL options) (100 * Z.of_nat j) batchSize
       (mkSt (requests s + j) (clockReads s)) = Ok (pages j) /\
     jira.Total (pages j) = 10000 /\
     len (jira.Issues (pages j)) = 100) ->
  GetAllIssues decode fuel c options s
    = (Some (Ok (flat_map (fun j => jira.Issues (pages j)) (seq 0 100))),
       mkSt (requests s + 100) (clockReads s)).
Proof.
  intros Hmax Hfuel Hpages. unfold GetAllIssues.
  pose proof (allIssuesLoop_full_pages c _ _ pages s Hmax Hpages 99 0 fuel 0 []
                eq_refl ltac:(lia)) as H.
  rewrite Nat.add_0_r in H. destruct s as [r cr]. exact H.
Qed.

End PagingFacts.

End Facts.

Section Examples.

#[local] Existing Instance fixtures.sampleTables.

Lemma NewClient_outcome_witness :
  exists c,
    NewClient (fun _ _ _ _ => fixtures.serve 200 "page")
      (mkClientConfig "https://test.atlassian.net" "test@example.com"
         "test-token" "" false false 0 "" None) = Returned c /\
    installationType c = "Cloud"%string.
Proof.
  eexists. split; [reflexivity|].
  apply (proj2 (NewClient_outcome (fun _ _ _ _ => fixtures.serve 200 "page")
                  (mkClientConfig "https://test.atlassian.net"
                     "test@example.com" "test-token" "" false false 0 "" None))
           _ eq_refl).
  reflexivity.
Defined.

Lemma buildJQL_bounded_witness :
  jira.boundJQL
    (buildJQL (mkOptions "" "2024-01-01" "Updated" 0 "assignee = bob" ""))
    jira.apiVersion3
  = "Updated >= '2024-01-01' AND (assignee = bob) ORDER BY created DESC"%string.
Proof.
  apply (buildJQL_bounded (mkOptions "" "2024-01-01" "Updated" 0 "assignee = bob" "")).
  right. split; [discriminate|]. right. right. reflexivity.
Defined.

Lemma GetAllIssues_cap_witness :
  exists issues,
    GetAllIssues (fun _ => Ok more_fixtures.openPage) 5
        (more_fixtures.anyPath "page")
        (mkOptions "ABC" "" "" 3 "" "") start = (Some (Ok issues), mkSt 2 0) /\
    len issues <= 3.
Proof.
  eexists. split; [vm_compute; reflexivity|].
  apply (GetAllIssues_cap (fun _ => Ok more_fixtures.openPage) 2 5
           (more_fixtures.anyPath "page") (mkOptions "ABC" "" "" 3 "" "")
           start (mkSt 2 0)).
  - intros body out [= <-]. vm_compute. discriminate.
  - unfold maxInt64. lia.
  - cbn. lia.
  - vm_compute. reflexivity.
Defined.

Lemma GetAllIssues_returns_witness :
  exists r s',
    GetAllIssues (fun _ => Ok more_fixtures.openPage) 101
        (more_fixtures.anyPath "page") (mkOptions "ABC" "" "" 0 "" "") start
      = (Some r, s') /\
    (0 < requests s' <= 0 + 101)%nat.
Proof.
  apply (GetAllIssues_returns (fun _ => Ok more_fixtures.openPage) 2 0 100
           (more_fixtures.anyPath "page") (mkOptions "ABC" "" "" 0 "" "") start).
  - intros body out [= <-]. vm_compute. discriminate.
  - intros body out [= <-]. cbn. lia.
  - lia.
  - unfold maxInt64. lia.
Defined.

Lemma GetAllIssues_error_witness :
  exists k cause,
    (k < 5)%nat /\
    ErrWrap "failed to fetch issues at offset 100" (ErrTransport "connection reset")
      = ErrWrap ("failed to fetch issues at offset " +:+ pretty (100 * Z.of_nat k))
          cause /\
    searchAt (fun _ => Ok more_fixtures.openPage) more_fixtures.secondFails
        (buildJQL (mkOptions "ABC" "" "" 0 "" "")) (100 * Z.of_nat k) batchSize
        (mkSt (0 + k) 0) = Err cause /\
    mkSt 2 0 = mkSt (0 + S k) 0.
Proof.
  apply (GetAllIssues_error (fun _ => Ok more_fixtures.openPage) 5
           more_fixtures.secondFails (mkOptions "ABC" "" "" 0 "" "") start
           (mkSt 2 0)).
  - unfold maxUint64. lia.
  - vm_compute. reflexivity.
Defined.

Lemma GetIssuesByDateRange_pages_witness :
  jira.isJQLBounded (dateRangeJQL "2024-01-01" "2024-02-01" "Updated") = true.
Proof.
  apply (proj2 (GetIssuesByDateRange_pages (fun _ => Ok more_fixtures.openPage)
                  0 (more_fixtures.anyPath "page") "2024-01-01" "2024-02-01"
                  "Updated" start)).
  right. right. reflexivity.
Defined.

Lemma GetAllIssues_stops_at_sentinel_witness :
  GetAllIssues (fun _ => Ok more_fixtures.hundredIssues) 150
      (more_fixtures.anyPath "page") (mkOptions "ABC" "" "" 0 "" "") start
    = (Some (Ok (flat_map (fun _ => jira.Issues more_fixtures.hundredOfMany)
                   (seq 0 100))),
       mkSt (0 + 100) 0).
Proof.
  apply (GetAllIssues_stops_at_sentinel (fun _ => Ok more_fixtures.hundredIssues)
           (more_fixtures.anyPath "page") (mkOptions "ABC" "" "" 0 "" "")
           (fun _ => more_fixtures.hundredOfMany) 150 start).
  - cbn. lia.
  - lia.
  - intros j Hj. split; [lazy -[pretty Z.of_nat Z.mul]; reflexivity|].
    split; reflexivity.
Defined.

End Examples.

End client_more.

(** * The examples: statistics, columns and CSV fields *)

Module tracking_more.
Import lib status_tracking timeline tracking views.

(** ** The batch loop *)

Lemma issuesLoop_extends (fetch : string -> M (option (result (list StatusChange)))) :
  forall (issues : list jira.Issue) (stats stats' : Stats) (s s' : St),
    issuesLoop fetch issues stats s = (Some stats', s') ->
    exists keys extra,
      allIssueKeys stats' = allIssueKeys stats ++ keys /\
      allChanges stats' = allChanges stats ++ extra /\
      length keys = length extra /\
      Forall (fun changes => changes <> []) extra /\
      sublist keys (map jira.Key issues).
Proof.
  intros issues.
  induction issues as [|issue rest IH]; intros stats stats' s s' H.
  - injection H as <- <-. exists [], []. rewrite !app_nil_r.
    repeat split; [constructor|constructor].
  - cbn [issuesLoop] in H. unfold bind in H.
    destruct (fetch (jira.Key issue) s) as [[[changes|e]|] s1]; cbn [map].
    + destruct (0 <? len changes) eqn:Hlen.
      * destruct (countChanges changes _ _) as [sc tc].
        apply IH in H as (keys & extra & Hk & Hc & Hl & Hne & Hsub).
        cbn [allIssueKeys allChanges] in Hk, Hc.
        exists (jira.Key issue :: keys), (changes :: extra).
        rewrite Hk, Hc, <- !app_assoc. cbn [app length].
        repeat split; [congruence| |now constructor].
        constructor; [|exact Hne]. intros ->. discriminate Hlen.
      * apply IH in H as (keys & extra & Hk & Hc & Hl & Hne & Hsub).
        exists keys, extra. repeat split; try assumption. now constructor.
    + apply IH in H as (keys & extra & Hk & Hc & Hl & Hne & Hsub).
      exists keys, extra. repeat split; try assumption. now constructor.
    + discriminate H.
Qed.

(** X22. The batch loop of [trackProjectIssues] keeps the keys and the
    timelines in step: as many keys as timelines, the keys taken in order
    from the issues listed, and no timeline kept is empty.  So
    [allChanges[i]] exists for every key printed and the last entry that
    [printSimple] reads exists too. *)
Theorem issuesLoop_kept (fetch : string -> M (option (result (list StatusChange))))
    (issues : list jira.Issue) (stats : Stats) (s s' : St) :
  issuesLoop fetch issues noStats s = (Some stats, s') ->
  length (allIssueKeys stats) = length (allChanges stats) /\
  Forall (fun changes => changes <> []) (allChanges stats) /\
  sublist (allIssueKeys stats) (map jira.Key issues).
Proof.
  intros H.
  apply issuesLoop_extends in H as (keys & extra & -> & -> & Hl & Hne & Hsub).
  cbn [noStats allIssueKeys allChanges app]. auto.
Qed.

Lemma increment_lookup (key key' : string) (counts : gmap string Z) :
  increment key counts !! key'
    = if String.eqb key key' then Some (addInt (default 0 (counts !! key)) 1)
      else counts !! key'.
Proof.
  unfold increment. destruct (String.eqb_spec key key') as [->|Hne].
  - apply lookup_insert_eq.
  - now apply lookup_insert_ne.
Qed.

Lemma occurrences_snoc {A : Type} (p : A -> bool) (xs : list A) (x : A) :
  occurrences p (xs ++ [x]) = occurrences p xs + (if p x then 1 else 0).
Proof.
  unfold occurrences, len. rewrite List.filter_app, length_app. cbn [List.filter].
  destruct (p x); cbn [length]; lia.
Qed.

Lemma occurrences_bounds {A : Type} (p : A -> bool) (xs : list A) :
  0 <= occurrences p xs <= len xs.
Proof.
  unfold occurrences, len. pose proof (List.filter_length_le p xs). lia.
Qed.

Lemma tallied_next (counts : gmap string Z) (key : string) (n bound : Z) :
  counts !! key = tallied n -> 0 <= n -> n + 1 <= maxInt64 ->
  Some (addInt (default 0 (counts !! key)) 1) = tallied (n + 1).
Proof.
  intros -> Hn Hb. unfold tallied.
  destruct (Z.eqb_spec n 0) as [->|Hne]; cbn [default from_option id].
  - reflexivity.
  - destruct (Z.eqb_spec (n + 1) 0); [lia|].
    rewrite addInt_small; [reflexivity|unfold inInt64, minInt64; lia].
Qed.

Lemma countChanges_tallies :
  forall (changes seen : list StatusChange) (sc tc sc' tc' : gmap string Z),
    tallies sc tc seen ->
    len (seen ++ changes) <= maxInt64 ->
    countChanges changes sc tc = (sc', tc') ->
    tallies sc' tc' (seen ++ changes).
Proof.
  intros changes.
  induction changes as [|change rest IH]; intros seen sc tc sc' tc' Hinv Hfit H.
  - injection H as <- <-. now rewrite app_nil_r.
  - cbn [countChanges] in H. cbv zeta in H.
    replace (seen ++ change :: rest) with ((seen ++ [change]) ++ rest) in *
      by now rewrite <- app_assoc.
    assert (Hseen : len (seen ++ [change]) = len seen + 1)
      by (unfold len; rewrite length_app; cbn [length]; lia).
    assert (Hall : len (seen ++ [change]) <= len ((seen ++ [change]) ++ rest))
      by (unfold len; rewrite (length_app (seen ++ [change])); lia).
    refine (IH (seen ++ [change]) _ _ sc' tc' _ Hfit H).
    destruct Hinv as [Hs Ht]. split.
    + intros status. rewrite increment_lookup, occurrences_snoc.
      unfold entersStatus at 2.
      destruct (String.eqb_spec (ToStatus change) status) as [<-|Hne].
      * pose proof (occurrences_bounds (entersStatus (ToStatus change)) seen).
        apply (tallied_next sc _ _ 0); [apply Hs|lia|lia].
      * now rewrite Z.add_0_r.
    + intros key. rewrite occurrences_snoc. unfold isTransition at 2.
      destruct (String.eqb (FromStatus change) ""); cbn [negb andb].
      * now rewrite Z.add_0_r.
      * rewrite increment_lookup.
        destruct (String.eqb_spec (transitionKey change) key) as [<-|Hne].
        -- pose proof (occurrences_bounds (isTransition (transitionKey change)) seen).
           apply (tallied_next tc _ _ 0); [apply Ht|lia|lia].
        -- now rewrite Z.add_0_r.
Qed.

Lemma issuesLoop_tallies (fetch : string -> M (option (result (list StatusChange)))) :
  forall (issues : list jira.Issue) (stats stats' : Stats) (s s' : St),
    tallies (statusCounts stats) (transitionCounts stats)
      (concat (allChanges stats)) ->
    issuesLoop fetch issues stats s = (Some stats', s') ->
    len (concat (allChanges stats')) <= maxInt64 ->
    tallies (statusCounts stats') (transitionCounts stats')
      (concat (allChanges stats')).
Proof.
  intros issues.
  induction issues as [|issue rest IH]; intros stats stats' s s' Hinv H Hfit.
  - injection H as <- <-. exact Hinv.
  - cbn [issuesLoop] in H. unfold bind in H.
    destruct (fetch (jira.Key issue) s) as [[[changes|e]|] s1];
      [|now apply (IH stats stats' s1 s')|discriminate H].
    destruct (0 <? len changes); [|now apply (IH stats stats' s1 s')].
    destruct (countChanges changes _ _) as [sc tc] eqn:Hcount.
    pose proof (issuesLoop_extends _ _ _ _ _ _ H)
      as (keys & extra & _ & Hc & _).
    cbn [allChanges] in Hc.
    refine (IH _ stats' s1 s' _ H Hfit).
    cbn [statusCounts transitionCounts allChanges].
    rewrite concat_app. cbn [concat]. rewrite app_nil_r.
    apply (countChanges_tallies changes _ _ _ _ _ Hinv); [|exact Hcount].
    rewrite Hc, !concat_app in Hfit. cbn [concat] in Hfit.
    rewrite app_nil_r in Hfit. unfold len in *.
    rewrite !length_app in *. lia.
Qed.

(** X23. After the batch loop, the count held for a status is the number of
    changes of the timelines kept that enter it, and the count held for a
    transition label is the number of those changes, with a status left,
    whose label "from → to" is that text; a status or a label never seen
    has no entry.  Two transitions between different statuses whose labels
    read the same are counted together. *)
Theorem counts_tally (fetch : string -> M (option (result (list StatusChange))))
    (issues : list jira.Issue) (stats : Stats) (s s' : St) :
  issuesLoop fetch issues noStats s = (Some stats, s') ->
  len (concat (allChanges stats)) <= maxInt64 ->
  (forall status,
     statusCounts stats !! status
       = tallied (occurrences (entersStatus status) (concat (allChanges stats)))) /\
  (forall key,
     transitionCounts stats !! key
       = tallied (occurrences (isTransition key) (concat (allChanges stats)))).
Proof.
  intros H Hfit.
  apply (issuesLoop_tallies fetch issues noStats stats s s'); [|exact H|exact Hfit].
  split; intros k; apply lookup_empty.
Qed.

(** ** The averages *)

Lemma statusTimeLoop_cons (now : Time) (change : StatusChange)
    (rest : list StatusChange) (m : gmap string Duration) :
  exists d, statusTimeLoop now (change :: rest) m
            = statusTimeLoop now rest (<[ToStatus change := d]> m).
Proof. eexists. reflexivity. Qed.

Lemma statusTimeLoop_entered (now : Time) (status : string) :
  forall (changes : list StatusChange) (m : gmap string Duration),
    is_Some (statusTimeLoop now changes m !! status)
    <-> is_Some (m !! status) \/ entered status changes = true.
Proof.
  intros changes.
  induction changes as [|change rest IH]; intros m.
  - cbn. split; [auto|]. intros [H|H]; [exact H|discriminate H].
  - destruct (statusTimeLoop_cons now change rest m) as [d ->].
    rewrite IH.
    change (entered status (change :: rest))
      with (entersStatus status change || entered status rest).
    unfold entersStatus.
    destruct (String.eqb_spec (ToStatus change) status) as [<-|Hne].
    + rewrite lookup_insert_eq. cbn [orb]. split; intros _; [now right|].
      left. now exists d.
    + now rewrite lookup_insert_ne.
Qed.

Lemma appendDuration_lookup (status status' : string) (d : Duration)
    (all : gmap string (list Duration)) :
  appendDuration status d all !! status'
    = if String.eqb status status' then Some (default [] (all !! status) ++ [d])
      else all !! status'.
Proof.
  unfold appendDuration. destruct (String.eqb_spec status status') as [->|Hne].
  - apply lookup_insert_eq.
  - now apply lookup_insert_ne.
Qed.

Lemma appendDuration_comm (j1 j2 : string) (z1 z2 : Duration)
    (all : gmap string (list Duration)) :
  j1 <> j2 ->
  appendDuration j1 z1 (appendDuration j2 z2 all)
    = appendDuration j2 z2 (appendDuration j1 z1 all).
Proof.
  intros Hne. unfold appendDuration.
  rewrite (lookup_insert_ne _ j2 j1) by congruence.
  rewrite (lookup_insert_ne _ j1 j2) by congruence.
  now apply insert_insert_ne.
Qed.

Lemma fold_appendDuration_lookup (all : gmap string (list Duration))
    (status : string) (statusTime : gmap string Duration) :
  map_fold appendDuration all statusTime !! status
    = match statusTime !! status with
      | Some d => Some (default [] (all !! status) ++ [d])
      | None => all !! status
      end.
Proof.
  induction statusTime as [|k d m Hk IH] using map_ind.
  - now rewrite map_fold_empty, lookup_empty.
  - rewrite map_fold_insert_L;
      [|intros; now apply appendDuration_comm|exact Hk].
    rewrite appendDuration_lookup.
    destruct (String.eqb_spec k status) as [->|Hne].
    + rewrite lookup_insert_eq, IH, Hk. reflexivity.
    + now rewrite lookup_insert_ne.
Qed.

Lemma allStatusTimes_lookup (nows : nat -> Time) (status : string) :
  forall (allChanges : list (list StatusChange)) (k : nat)
         (all : gmap string (list Duration)),
    exists more,
      len more = occurrences (entered status) allChanges /\
      allStatusTimes nows k allChanges all !! status
        = match more with
          | [] => all !! status
          | _ :: _ => Some (default [] (all !! status) ++ more)
          end.
Proof.
  intros allChanges.
  induction allChanges as [|changes rest IH]; intros k all.
  - exists []. split; reflexivity.
  - cbn [allStatusTimes]. cbv zeta.
    destruct (IH (S k) (map_fold appendDuration all
                          (calculateStatusTime (nows k) changes)))
      as (more & Hlen & ->).
    rewrite fold_appendDuration_lookup.
    unfold occurrences. cbn [List.filter]. fold (occurrences (entered status) rest).
    pose proof (statusTimeLoop_entered (nows k) status changes ∅) as Hdom.
    fold (calculateStatusTime (nows k) changes) in Hdom.
    destruct (calculateStatusTime (nows k) changes !! status) as [d|].
    + assert (E : entered status changes = true).
      { destruct (proj1 Hdom (ex_intro _ d eq_refl)) as [H|H]; [|exact H].
        rewrite lookup_empty in H. destruct H as [x Hx]. discriminate Hx. }
      rewrite E. exists (d :: more). split.
      * unfold len in *. cbn [length]. unfold occurrences, len in Hlen. lia.
      * destruct more; cbn [default from_option id];
          [reflexivity|now rewrite <- app_assoc].
    + assert (E : entered status changes = false).
      { destruct (entered status changes); [|reflexivity].
        destruct (proj2 Hdom (or_intror eq_refl)) as [x Hx]. discriminate Hx. }
      rewrite E. exists more. split; [exact Hlen|reflexivity].
Qed.

(** X24. The averages of [trackProjectIssues] never divide by zero: a status
    has a list of durations only when some timeline enters it, the list
    holds one duration for each timeline that does, so the "based on"
    figure is that number of issues, and it is not empty. *)
Theorem averages_defined (nows : nat -> Time)
    (allChanges : list (list StatusChange)) (status : string)
    (durations : list Duration) :
  allStatusTimes nows 0 allChanges ∅ !! status = Some durations ->
  len durations = occurrences (entered status) allChanges /\
  0 < len durations /\
  exists avg, average durations = Some avg.
Proof.
  intros H.
  destruct (allStatusTimes_lookup nows status allChanges 0%nat ∅)
    as (more & Hlen & Hlook).
  rewrite H, lookup_empty in Hlook.
  destruct more as [|d more]; [discriminate Hlook|].
  injection Hlook as ->. cbn [default from_option id app] in *.
  assert (Hpos : 0 < len (d :: more)) by (unfold len; cbn [length]; lia).
  split; [exact Hlen|]. split; [exact Hpos|].
  unfold average. cbv zeta.
  destruct (Z.eqb_spec (len (d :: more)) 0) as [E|_]; [lia|]. eauto.
Qed.

(** ** The status column of the timeline *)

Lemma maxStatusLenFrom_bounds :
  forall (changes : list StatusChange) (m : Z),
    m <= maxStatusLenFrom m changes /\
    Forall (fun change => slen (ToStatus change) <= maxStatusLenFrom m changes)
      changes.
Proof.
  intros changes.
  induction changes as [|change rest IH]; intros m.
  - cbn. split; [lia|constructor].
  - cbn [maxStatusLenFrom].
    destruct (IH (if m <? slen (ToStatus change) then slen (ToStatus change) else m))
      as [Hm Hall].
    destruct (Z.ltb_spec m (slen (ToStatus change)));
      (split; [lia|constructor; [lia|exact Hall]]).
Qed.

Lemma length_replicate_string (n : nat) (s : string) :
  String.length (replicate_string n s) = (n * String.length s)%nat.
Proof.
  induction n as [|n IH]; [reflexivity|].
  cbn [replicate_string]. rewrite length_append, IH. lia.
Qed.

(** X25. [printTimeline] never asks for a negative padding: for every change
    of the timeline printed the padding exists, and the bracketed status
    with its padding is as wide as the longest new status plus the two
    brackets, so the arrows line up (widths counted in bytes). *)
Theorem statusColumn_width (changes : list StatusChange) (change : StatusChange) :
  In change changes ->
  exists column,
    statusColumn (maxStatusLen changes) change = Some column /\
    slen column = maxStatusLen changes + 2.
Proof.
  intros Hin.
  destruct (maxStatusLenFrom_bounds changes 0) as [_ Hall].
  rewrite Forall_forall in Hall. apply list_elem_of_In in Hin.
  specialize (Hall change Hin). fold (maxStatusLen changes) in Hall.
  unfold statusColumn, Repeat.
  destruct (Z.ltb_spec (maxStatusLen changes - slen (ToStatus change)) 0) as [H|H];
    [lia|].
  eexists. split; [reflexivity|].
  unfold slen in *. rewrite !length_append, length_replicate_string.
  cbn [String.length]. lia.
Qed.

(** ** escapeCSV *)

Lemma containsSpecial_quote (s : string) :
  containsSpecial (String quote s) = true.
Proof. reflexivity. Qed.

Lemma isSpecial_quote (c : ascii) :
  isSpecial c = false -> Ascii.eqb c quote = false.
Proof.
  unfold isSpecial. destruct (Ascii.eqb c quote); [|reflexivity].
  now rewrite orb_true_r.
Qed.

Lemma doubleQuotes_closed_inj :
  forall s1 s2 : string,
    doubleQuotes s1 +:+ String quote EmptyString
      = doubleQuotes s2 +:+ String quote EmptyString ->
    s1 = s2.
Proof.
  intros s1.
  induction s1 as [|c1 s1 IH]; intros [|c2 s2] H.
  - reflexivity.
  - exfalso. cbn [doubleQuotes] in H.
    destruct (Ascii.eqb_spec c2 quote) as [->|Hne];
      rewrite ?append_cons in H; change ("" +:+ String quote "")
        with (String quote "") in H.
    + injection H as H. destruct (doubleQuotes s2); discriminate H.
    + injection H as Hc _. congruence.
  - exfalso. cbn [doubleQuotes] in H.
    destruct (Ascii.eqb_spec c1 quote) as [->|Hne];
      rewrite ?append_cons in H; change ("" +:+ String quote "")
        with (String quote "") in H.
    + injection H as H. destruct (doubleQuotes s1); discriminate H.
    + injection H as Hc _. congruence.
  - cbn [doubleQuotes] in H.
    destruct (Ascii.eqb_spec c1 quote) as [->|Hne1];
      destruct (Ascii.eqb_spec c2 quote) as [->|Hne2];
      rewrite ?append_cons in H.
    + injection H as H. f_equal. now apply IH.
    + injection H as Hc _. congruence.
    + injection H as Hc _. congruence.
    + injection H as -> H. f_equal. now apply IH.
Qed.

(** X26. [escapeCSV] loses nothing: two fields that escape to the same text
    are the same field.  It leaves a field as it is exactly when the field
    holds no comma, quote or line break, and otherwise the field comes back
    between two quotes. *)
Theorem escapeCSV_faithful (s1 s2 : string) :
  (escapeCSV s1 = escapeCSV s2 -> s1 = s2) /\
  (escapeCSV s1 = s1 <-> containsSpecial s1 = false) /\
  (containsSpecial s1 = true ->
   exists body, escapeCSV s1 = String quote (body +:+ String quote EmptyString)).
Proof.
  assert (Hplain : forall s t, containsSpecial s = false ->
                     s <> String quote t).
  { intros s t Hs ->. rewrite containsSpecial_quote in Hs. discriminate Hs. }
  split; [|split].
  - unfold escapeCSV.
    destruct (containsSpecial s1) eqn:E1; destruct (containsSpecial s2) eqn:E2;
      intros H.
    + injection H as H. now apply doubleQuotes_closed_inj.
    + symmetry in H. now apply Hplain in H.
    + now apply Hplain in H.
    + exact H.
  - unfold escapeCSV. destruct (containsSpecial s1) eqn:E1.
    + split; [|discriminate]. intros H.
      apply (f_equal String.length) in H. cbn [String.length] in H.
      rewrite length_append in H. cbn [String.length] in H.
      assert (Hlen : forall s, (String.length s <= String.length (doubleQuotes s))%nat).
      { induction s as [|c s IHs]; [cbn; lia|]. cbn [doubleQuotes].
        destruct (Ascii.eqb c quote); cbn [String.length]; lia. }
      specialize (Hlen s1). lia.
    + tauto.
  - intros E. unfold escapeCSV. rewrite E. eauto.
Qed.

(** ** truncate *)

Lemma length_prefixBytes (n : nat) :
  forall s : string, (n <= String.length s)%nat ->
    String.length (prefixBytes n s) = n.
Proof.
  induction n as [|n IH]; intros [|c s] H; cbn in *; try lia.
  rewrite IH; lia.
Qed.

(** X27. [truncate] panics exactly when the text is longer than [maxLen] and
    [maxLen] is below 3; otherwise the text it returns is as long as the
    shorter of the text and [maxLen], the text itself when it fits and
    else its first [maxLen - 3] bytes followed by three dots.  The summary
    column of [printSimple], cut inline, is [truncate] at 40. *)
Theorem truncate_fits (s : string) (maxLen : Z) :
  (truncate s maxLen = None <-> maxLen < slen s /\ maxLen < 3) /\
  (forall t, truncate s maxLen = Some t ->
     slen t = Z.min (slen s) maxLen /\
     (slen s <= maxLen -> t = s) /\
     (maxLen < slen s ->
      t = prefixBytes (Z.to_nat (maxLen - 3)) s +:+ "...")) /\
  truncate s 40 = Some (summaryColumn s).
Proof.
  assert (Hs : 0 <= slen s) by (unfold slen; lia).
  split; [|split].
  - unfold truncate.
    destruct (Z.leb_spec (slen s) maxLen); [split; [discriminate|lia]|].
    destruct (Z.ltb_spec (maxLen - 3) 0); cbn [orb]; [split; [lia|reflexivity]|].
    destruct (Z.ltb_spec (slen s) (maxLen - 3)); [lia|].
    split; [discriminate|lia].
  - intros t. unfold truncate.
    destruct (Z.leb_spec (slen s) maxLen).
    + intros [= <-]. repeat split; [lia|lia].
    + destruct (Z.ltb_spec (maxLen - 3) 0); cbn [orb]; [discriminate|].
      destruct (Z.ltb_spec (slen s) (maxLen - 3)); [discriminate|].
      intros [= <-]. repeat split; [|lia].
      unfold slen in *. rewrite length_append, length_prefixBytes by lia.
      cbn [String.length]. lia.
  - unfold truncate, summaryColumn.
    destruct (Z.leb_spec (slen s) 40); destruct (Z.ltb_spec 40 (slen s));
      try lia; [reflexivity|].
    change (40 - 3) with 37. change (37 <? 0) with false.
    change (Z.to_nat 37) with 37%nat. cbn [orb].
    destruct (Z.ltb_spec (slen s) 37); [lia|reflexivity].
Qed.

Lemma issuesLoop_kept_witness :
  exists stats s',
    issuesLoop more_fixtures.batchFetch more_fixtures.batch noStats start
      = (Some stats, s') /\
    allIssueKeys stats = ["A-1"%string] /\
    length (allIssueKeys stats) = length (allChanges stats) /\
    Forall (fun changes => changes <> []) (allChanges stats) /\
    sublist (allIssueKeys stats) (map jira.Key more_fixtures.batch).
Proof.
  eexists. eexists. split; [vm_compute; reflexivity|].
  split; [reflexivity|].
  apply (issuesLoop_kept more_fixtures.batchFetch more_fixtures.batch _ start
           (mkSt 3 0)).
  vm_compute. reflexivity.
Defined.

Lemma counts_tally_witness :
  exists stats s',
    issuesLoop more_fixtures.batchFetch more_fixtures.batch noStats start
      = (Some stats, s') /\
    statusCounts stats !! "To Do"%string = Some 2 /\
    transitionCounts stats !! "To Do → In Progress"%string = Some 2 /\
    (forall status,
       statusCounts stats !! status
         = tallied (occurrences (entersStatus status) (concat (allChanges stats)))) /\
    (forall key,
       transitionCounts stats !! key
         = tallied (occurrences (isTransition key) (concat (allChanges stats)))).
Proof.
  eexists. eexists. split; [vm_compute; reflexivity|].
  split; [vm_compute; reflexivity|]. split; [vm_compute; reflexivity|].
  apply (counts_tally more_fixtures.batchFetch more_fixtures.batch _ start
           (mkSt 3 0)).
  - vm_compute. reflexivity.
  - vm_compute. discriminate.
Defined.

Lemma averages_defined_witness :
  exists durations,
    allStatusTimes fixtures.clock2026 0
        [fixtures.reopenedTimeline; fixtures.zeroStampedTimeline] ∅
      !! "In Progress"%string = Some durations /\
    len durations = 2 /\
    0 < len durations /\
    exists avg, average durations = Some avg.
Proof.
  eexists. split; [vm_compute; reflexivity|].
  apply (averages_defined fixtures.clock2026
           [fixtures.reopenedTimeline; fixtures.zeroStampedTimeline]
           "In Progress").
  vm_compute. reflexivity.
Defined.

Lemma statusColumn_width_witness :
  exists column,
    statusColumn (maxStatusLen fixtures.reopenedTimeline)
      (fixtures.step "2024-01-01T09:00:00Z" "" "To Do") = Some column /\
    slen column = maxStatusLen fixtures.reopenedTimeline + 2.
Proof.
  apply (statusColumn_width fixtures.reopenedTimeline
           (fixtures.step "2024-01-01T09:00:00Z" "" "To Do")).
  left. reflexivity.
Defined.

End tracking_more.
